(** * A shallow embedding of SciServer.CasJobs and SciServer.utils

    The Python client is modelled as follows.
    - A Python [str] is a Rocq [string] holding the UTF-8 encoding of the
      text; [bytes] is [list byte].  [bytes.decode()] validates UTF-8 and
      [str.encode("utf8")] is the identity on the encoding.
    - JSON values returned by [orjson.loads] are the inductive [Json].
    - The process state that the module reads or writes is the record
      [World]: the configuration, the token returned by
      [Authentication.getToken()], the one-shot field [task.name], the
      answers the remote services will give, the completion order the
      event loop picks for a batch, and a log of the observable effects
      (HTTP requests, sleeps, prints, file writes).
    - Python exceptions are the values of [Exc]; a computation is a state
      and exception monad [M] over [World] in which the state changes made
      before an exception are kept, as in Python.
    - The external libraries the code calls (orjson parsing, pandas
      constructors, [int(str)]) are fields of the record [Libs]; theorems
      quantify over them. *)

From Stdlib Require Import String Ascii Strings.Byte List ZArith Bool Lia DecimalPos.
Import ListNotations.
Open Scope string_scope.

(* ------------------------------------------------------------------ *)
(** ** Python strings *)

(** [_join_str(args, sep)] of constants.py, the arguments as a list. *)
Definition _join_str (sep : string) (args : list string) : string :=
  String.concat sep args.

(** [str.replace(pat, rep)] for a non-empty [pat]: occurrences are found
    left to right and do not overlap; [skip] counts the characters of the
    last occurrence that still have to be consumed. *)
Fixpoint replace_from (pat rep : string) (skip : nat) (s : string) : string :=
  match s with
  | EmptyString => EmptyString
  | String c s' =>
      match skip with
      | S k => replace_from pat rep k s'
      | O =>
          if String.prefix pat s
          then rep ++ replace_from pat rep (pred (String.length pat)) s'
          else String c (replace_from pat rep 0 s')
      end
  end.

(** [str.replace("", rep)] inserts [rep] around every character. *)
Fixpoint replace_empty (rep s : string) : string :=
  match s with
  | EmptyString => rep
  | String c s' => rep ++ String c (replace_empty rep s')
  end.

(** [s.replace(pat, rep)]. *)
Definition py_replace (s pat rep : string) : string :=
  match pat with
  | EmptyString => replace_empty rep s
  | _ => replace_from pat rep 0 s
  end.

Fixpoint string_of_uint (d : Decimal.uint) : string :=
  match d with
  | Decimal.Nil => EmptyString
  | Decimal.D0 d' => String "0" (string_of_uint d')
  | Decimal.D1 d' => String "1" (string_of_uint d')
  | Decimal.D2 d' => String "2" (string_of_uint d')
  | Decimal.D3 d' => String "3" (string_of_uint d')
  | Decimal.D4 d' => String "4" (string_of_uint d')
  | Decimal.D5 d' => String "5" (string_of_uint d')
  | Decimal.D6 d' => String "6" (string_of_uint d')
  | Decimal.D7 d' => String "7" (string_of_uint d')
  | Decimal.D8 d' => String "8" (string_of_uint d')
  | Decimal.D9 d' => String "9" (string_of_uint d')
  end.

(** [str(n)] for a Python [int]. *)
Definition py_str_int (z : Z) : string :=
  match Z.to_int z with
  | Decimal.Pos u => string_of_uint u
  | Decimal.Neg u => String "-" (string_of_uint u)
  end.

(* ------------------------------------------------------------------ *)
(** ** Bytes and UTF-8 *)

Definition byte_in (b : byte) (lo hi : nat) : bool :=
  (lo <=? Byte.to_nat b)%nat && (Byte.to_nat b <=? hi)%nat.

Definition utf8_cont (b : byte) : bool := byte_in b 128 191.

(** Well-formed UTF-8 (Table 3-7 of the Unicode standard), which is what
    Python's strict UTF-8 decoder accepts. *)
Fixpoint utf8_valid (bs : list byte) : bool :=
  match bs with
  | [] => true
  | b0 :: r0 =>
      if byte_in b0 0 127 then utf8_valid r0
      else if byte_in b0 194 223 then
        match r0 with
        | b1 :: r1 => utf8_cont b1 && utf8_valid r1
        | [] => false
        end
      else if byte_in b0 224 239 then
        match r0 with
        | b1 :: b2 :: r2 =>
            (if byte_in b0 224 224 then byte_in b1 160 191
             else if byte_in b0 237 237 then byte_in b1 128 159
             else utf8_cont b1)
            && utf8_cont b2 && utf8_valid r2
        | _ => false
        end
      else if byte_in b0 240 244 then
        match r0 with
        | b1 :: b2 :: b3 :: r3 =>
            (if byte_in b0 240 240 then byte_in b1 144 191
             else if byte_in b0 244 244 then byte_in b1 128 143
             else utf8_cont b1)
            && utf8_cont b2 && utf8_cont b3 && utf8_valid r3
        | _ => false
        end
      else false
  end.

(** [bytes.decode()]: [None] is a [UnicodeDecodeError]. *)
Definition bytes_decode (bs : list byte) : option string :=
  if utf8_valid bs then Some (string_of_list_byte bs) else None.

(** [str.encode("utf8")]. *)
Definition str_encode (s : string) : list byte := list_byte_of_string s.

(* ------------------------------------------------------------------ *)
(** ** constants.py *)

Module DCONST.
Definition JOB_ID := "<job_id>".
Definition TABLENAME_ID := "<tablename>".
Definition HTTP_CODE_ID := "<code>".
Definition CONTEXT_ID := "<context>".
Definition TASKNAME_ID := "<taskname>".
End DCONST.

Module EXCEPT.
Definition LOGIN_ERROR := "User token is not defined. First log into SciServer.".
Definition SCHEMA_ERROR := "Error when getting schema name.".
Definition GET_TABLE_ERROR :=
  _join_str " " ["Error when getting table description";
                 "from database context " ++ DCONST.CONTEXT_ID ++ ".
"].
Definition ILLEGAL_FORMAT_ERROR :=
  _join_str " " ["Error when executing query. Illegal format parameter specification: "].
Definition EXECUTE_QUERY_ERROR := "Error when executing query.".
Definition SUMBIT_JOB_ERROR := "Error when submitting a job.".
Definition GET_JOB_STATUS_ERROR :=
  _join_str " " ["Error when getting the status of job " ++ DCONST.JOB_ID ++ ".
"].
Definition CANCEL_JOB_ERROR := "Error when canceling job " ++ DCONST.JOB_ID ++ ".
".
Definition UPLOAD_CSV_ERROR :=
  _join_str " " ["Error when uploading CSV data into";
                 "CasJobs table " ++ DCONST.TABLENAME_ID ++ ".
"].
Definition HTTP_ERROR :=
  _join_str " " ["Http Response from CasJobs API";
                 "returned status code " ++ DCONST.HTTP_CODE_ID ++ ":
"].
End EXCEPT.

Module TASKNAMES.
Definition GETTABLES := "getTables".
Definition GETSCHEMANAME := "getSchemaName".
Definition EXECUTEQUERY := "executeQuery".
Definition SUBMITJOB := "submitJob".
Definition GETJOBSTATUS := "getJobStatus".
Definition CANCELJOB := "cancelJob".
Definition WRITEFITSFILEFROMQUERY := "writeFitsFileFromQuery".
Definition GETPANDASDATAFRAMEFROMQUERY := "getPandasDataFrameFromQuery".
Definition GETNUMPYARRAYFROMQUERY := "getNumpyArrayFromQuery".
Definition UPLOADPANDASDATAFRAMETOTABLE := "uploadPandasDataFrameToTable".
Definition UPLOADCSVDATATOTABLE := "uploadCSVDataToTable".
End TASKNAMES.

Module CASJOBSCONST.
Definition SCISCRIPT_PYTHON := "SciScript-Python.CasJobs.".
Definition SCISCRIPT_PYTHON_COMPUTE := "Compute." ++ SCISCRIPT_PYTHON.
Definition X_AUTH_TOKEN := "X-Auth-Token".
Definition CONTENT_TYPE := "Content-Type".
Definition ACCEPT := "Accept".
Definition CONTENT_JSON := "application/json".
Definition KEYSTONE_USER_ID := "<keystone_user_id>".
Definition MYDB := "MyDB".
Definition QUERY := "Query".
Definition TASKNAME := "TaskName".
End CASJOBSCONST.

Module URLCONST.
Definition CONTEXTS := "contexts".
Definition TABLES := "Tables".
Definition TASKNAME := CASJOBSCONST.TASKNAME.
Definition USERS := "users".
Definition QUERY := "query".
Definition JOBS := "jobs".
End URLCONST.

(* ------------------------------------------------------------------ *)
(** ** Values, exceptions and the state of the process *)

Set Warnings "-register-all".

(** A decoded JSON document (numbers are integers). *)
Inductive Json : Type :=
| JNull
| JBool (b : bool)
| JNum (z : Z)
| JStr (s : string)
| JArr (l : list Json)
| JObj (kvs : list (string * Json)).

(** The Python exceptions the module can raise or let through. *)
Inductive Exc : Type :=
| ValueError (msg : string)
| TypeError
| KeyError
| IndexError
| AttributeError
| UnicodeDecodeError
| JSONDecodeError
| ConnectionError
| ContentTypeError
| LibraryError (msg : string).

Inductive res (A : Type) : Type :=
| Ok (a : A)
| Raise (e : Exc).
Arguments Ok {A} a.
Arguments Raise {A} e.

(** A pandas DataFrame whose cells are already rendered as text. *)
Record Frame := mkFrame {
  df_index_name : option string;
  df_index : list string;
  df_columns : list string;
  df_rows : list (list string)
}.

(** The external libraries, as the code uses them; an exception raised
    inside pandas is [inr msg], surfacing as [LibraryError msg]. *)
Record Response := mkResponse {
  status_code : Z;
  content : list byte
}.

(** What aiohttp's [ClientResponse.json()] makes of an answer: the parsed
    document ([JNull], Python's [None], for an empty body), or the
    [ContentTypeError] it raises when the answer's Content-Type is not
    [application/json], or the error of decoding or parsing the body. *)
Inductive AioJson :=
| AioDoc (j : Json)
| AioContentType
| AioUndecodable
| AioInvalid.

(** The outcome of [await resp.json()]. *)
Definition aio_result (a : AioJson) : res Json :=
  match a with
  | AioDoc j => Ok j
  | AioContentType => Raise ContentTypeError
  | AioUndecodable => Raise UnicodeDecodeError
  | AioInvalid => Raise JSONDecodeError
  end.

Record Libs := mkLibs {
  json_loads : string -> option Json;       (* orjson.loads, None: JSONDecodeError *)
  DataFrame : Json -> Json -> Frame + string;  (* pandas.DataFrame(data, columns=...) *)
  read_csv : string -> Frame + string;         (* pandas.read_csv(StringIO(text), index_col=None) *)
  as_matrix : Frame -> list (list string) + string; (* DataFrame.as_matrix() *)
  int_of_str : string -> option Z;          (* int(s) on a str, None: ValueError *)
  str_repr : string -> string;              (* repr(s) of a str, as CPython writes it *)
  response_text : list byte -> option string; (* aiohttp ClientResponse.text() *)
  resp_json : Response -> AioJson            (* aiohttp ClientResponse.json() *)
}.

Record Config := mkConfig {
  CasJobsRESTUri : string;
  isSciServerComputeEnvironment : bool
}.

Inductive Method := GET | POST | PUT | DELETE.

(** The body of a request: [__format_data(sql, task_name)], raw bytes, or
    none. *)
Inductive Data :=
| NoData
| QueryData (query task_name : string)
| RawData (bs : list byte).

Record Request := mkRequest {
  req_method : Method;
  req_url : string;
  req_headers : list (string * string);
  req_data : Data
}.

Inductive Event :=
| ERequest (r : Request)                  (* an HTTP request sent to CasJobs *)
| EKeystone (token : string)              (* Authentication.getKeystoneUserWithToken *)
| ESleep (secs : Z)                       (* time.sleep *)
| EPrint (s : string)                     (* print *)
| EWrite (file : string) (bs : list byte).  (* a file written *)

Record World := mkWorld {
  w_config : Config;
  w_token : option string;       (* Authentication.getToken() *)
  w_keystone_id : string;        (* the keystone user id of the token *)
  w_task : option string;        (* task.name *)
  w_responses : list Response;   (* answers of the remote services, in order *)
  w_schedule : list nat;         (* completion order of a concurrent batch *)
  w_log : list Event
}.

Definition set_task (t : option string) (w : World) : World :=
  mkWorld (w_config w) (w_token w) (w_keystone_id w) t (w_responses w)
          (w_schedule w) (w_log w).

Definition set_responses (rs : list Response) (w : World) : World :=
  mkWorld (w_config w) (w_token w) (w_keystone_id w) (w_task w) rs
          (w_schedule w) (w_log w).

Definition log_event (e : Event) (w : World) : World :=
  mkWorld (w_config w) (w_token w) (w_keystone_id w) (w_task w) (w_responses w)
          (w_schedule w) (w_log w ++ [e])%list.

(* ------------------------------------------------------------------ *)
(** ** The state and exception monad *)

Definition M (A : Type) : Type := World -> res A * World.

Definition ret {A} (a : A) : M A := fun w => (Ok a, w).

Definition bind {A B} (m : M A) (k : A -> M B) : M B :=
  fun w => match m w with
           | (Ok a, w') => k a w'
           | (Raise e, w') => (Raise e, w')
           end.

Definition raise {A} (e : Exc) : M A := fun w => (Raise e, w).

Notation "x <- m ;; k" := (bind m (fun x => k))
  (at level 61, m at next level, right associativity).
Notation "m ;;; k" := (bind m (fun _ => k))
  (at level 61, right associativity).

Definition lift {A} (r : res A) : M A :=
  match r with Ok a => ret a | Raise e => raise e end.

Definition lib {A} (r : A + string) : M A :=
  match r with inl a => ret a | inr msg => raise (LibraryError msg) end.

Definition of_option {A} (e : Exc) (o : option A) : M A :=
  match o with Some a => ret a | None => raise e end.

Definition get_config : M Config := fun w => (Ok (w_config w), w).
Definition get_task : M (option string) := fun w => (Ok (w_task w), w).
Definition put_task (t : option string) : M unit := fun w => (Ok tt, set_task t w).
Definition emit (e : Event) : M unit := fun w => (Ok tt, log_event e w).

(** [Authentication.getToken()]. *)
Definition getToken : M (option string) := fun w => (Ok (w_token w), w).

(** [Authentication.getKeystoneUserWithToken(token).id]. *)
Definition getKeystoneUserId (token : string) : M string :=
  fun w => (Ok (w_keystone_id w), log_event (EKeystone token) w).

(** Sending a request with the [requests] library: the request is logged,
    the next answer of the service is returned; with no answer left the
    transport fails. *)
Definition http (r : Request) : M Response :=
  fun w => let w1 := log_event (ERequest r) w in
           match w_responses w with
           | [] => (Raise ConnectionError, w1)
           | resp :: rest => (Ok resp, set_responses rest w1)
           end.

Definition sleep (secs : Z) : M unit := emit (ESleep secs).
Definition print (s : string) : M unit := emit (EPrint s).

(* ------------------------------------------------------------------ *)
(** ** Python operations on decoded JSON values *)

Fixpoint assoc_lookup (k : string) (kvs : list (string * Json)) : option Json :=
  match kvs with
  | [] => None
  | (k', v) :: rest => if String.eqb k k' then Some v else assoc_lookup k rest
  end.

(** [v[k]]. *)
Definition py_getitem (v k : Json) : res Json :=
  match v, k with
  | JObj kvs, JStr s =>
      match assoc_lookup s kvs with Some x => Ok x | None => Raise KeyError end
  | JObj _, _ => Raise KeyError
  | JArr l, JNum i =>
      let n := Z.of_nat (length l) in
      let j := if (i <? 0)%Z then (i + n)%Z else i in
      if ((0 <=? j) && (j <? n))%Z
      then match nth_error l (Z.to_nat j) with Some x => Ok x | None => Raise IndexError end
      else Raise IndexError
  | _, _ => Raise TypeError
  end.

(** [len(v)]. *)
Definition py_len (v : Json) : res nat :=
  match v with
  | JArr l => Ok (length l)
  | JObj kvs => Ok (length kvs)
  | JStr s => Ok (String.length s)
  | _ => Raise TypeError
  end.

(** The items of [for x in v]. *)
Definition py_iter (v : Json) : res (list Json) :=
  match v with
  | JArr l => Ok l
  | JObj kvs => Ok (map (fun kv => JStr (fst kv)) kvs)
  | JStr s => Ok (map (fun c => JStr (String c EmptyString)) (list_ascii_of_string s))
  | _ => Raise TypeError
  end.

(** [str(v)] (strings of nested containers are not escaped). *)
Fixpoint py_str_json (v : Json) : string :=
  match v with
  | JNull => "None"
  | JBool true => "True"
  | JBool false => "False"
  | JNum z => py_str_int z
  | JStr s => s
  | JArr l => "[" ++ String.concat ", " (map py_str_json l) ++ "]"
  | JObj kvs =>
      "{" ++ String.concat ", "
               (map (fun kv => "'" ++ fst kv ++ "': " ++ py_str_json (snd kv)) kvs)
      ++ "}"
  end.

(** [int(v)]. *)
Definition py_int (L : Libs) (v : Json) : res Z :=
  match v with
  | JNum z => Ok z
  | JBool b => Ok (if b then 1%Z else 0%Z)
  | JStr s => match int_of_str L s with
              | Some z => Ok z
              | None => Raise (ValueError ("invalid literal for int() with base 10: " ++ str_repr L s))
              end
  | _ => Raise TypeError
  end.

Definition getitem (v k : Json) : M Json := lift (py_getitem v k).

Fixpoint map_m {A B} (f : A -> M B) (l : list A) : M (list B) :=
  match l with
  | [] => ret []
  | x :: rest => y <- f x ;; ys <- map_m f rest ;; ret (y :: ys)
  end.

(* ------------------------------------------------------------------ *)
(** ** utils.py *)

(** [__token()]. *)
Definition __token : M string :=
  token <- getToken ;;
  match token with
  | None => raise (ValueError EXCEPT.LOGIN_ERROR)
  | Some t => if String.eqb t "" then raise (ValueError EXCEPT.LOGIN_ERROR) else ret t
  end.

Definition get_taskname_in (cfg : Config) (task_id : string) : string :=
  if isSciServerComputeEnvironment cfg
  then CASJOBSCONST.SCISCRIPT_PYTHON_COMPUTE ++ task_id
  else CASJOBSCONST.SCISCRIPT_PYTHON ++ task_id.

(** [__get_taskname(task_id)]. *)
Definition __get_taskname (task_id : string) : M string :=
  cfg <- get_config ;; ret (get_taskname_in cfg task_id).

Definition taskname_url_in (cfg : Config) (taskname : string) : string :=
  "?" ++ URLCONST.TASKNAME ++ "=" ++ get_taskname_in cfg taskname.

(** [__taskname_url(taskname)]. *)
Definition __taskname_url (taskname : string) : M string :=
  cfg <- get_config ;; ret (taskname_url_in cfg taskname).

(** [__format_to_accept_header(accept_format)]. *)
Definition __format_to_accept_header (accept_format : string) : res string :=
  if existsb (String.eqb accept_format) ["pandas"; "json"; "dict"]
  then Ok "application/json+array"
  else if existsb (String.eqb accept_format) ["csv"; "readable"; "StringIO"]
  then Ok "text/plain"
  else if existsb (String.eqb accept_format) ["fits"; "BytesIO"]
  then Ok "application/fits"
  else Raise (ValueError (EXCEPT.ILLEGAL_FORMAT_ERROR ++ accept_format)).

(** [__get_headers(token, accept_format)]; the dictionary as its list of
    items in insertion order. *)
Definition __get_headers (token : string) (accept_format : option string)
  : res (list (string * string)) :=
  let headers := [(CASJOBSCONST.X_AUTH_TOKEN, token);
                  (CASJOBSCONST.CONTENT_TYPE, CASJOBSCONST.CONTENT_JSON)] in
  match accept_format with
  | None => Ok headers
  | Some f =>
      match __format_to_accept_header f with
      | Ok h => Ok (headers ++ [(CASJOBSCONST.ACCEPT, h)])%list
      | Raise e => Raise e
      end
  end.

(** [__format_data(sql, task_name)]. *)
Definition __format_data (sql task_name : string) : Data := QueryData sql task_name.

Definition decode (bs : list byte) : M string :=
  of_option UnicodeDecodeError (bytes_decode bs).

(** [__response_to_json(response)]. *)
Definition __response_to_json (L : Libs) (response : Response) : M Json :=
  text <- decode (content response) ;;
  of_option JSONDecodeError (json_loads L text).

(** The message of the HTTP error raised for a status code and body. *)
Definition http_error_message (on_error : string) (code : Z) (body : string) : string :=
  _join_str " " [on_error;
                 py_replace EXCEPT.HTTP_ERROR DCONST.HTTP_CODE_ID (py_str_int code);
                 body].

(** [__validate_response_status(response, on_error)]. *)
Definition __validate_response_status (response : Response) (on_error : string) : M unit :=
  if negb (status_code response =? 200)%Z then
    body <- decode (content response) ;;
    raise (ValueError (http_error_message on_error (status_code response) body))
  else ret tt.

(** [__response_get(url, token, on_error)]. *)
Definition __response_get (L : Libs) (url token on_error : string) : M Json :=
  headers <- lift (__get_headers token None) ;;
  get_response <- http (mkRequest GET url headers NoData) ;;
  __validate_response_status get_response on_error ;;;
  __response_to_json L get_response.

(** What [__parse_post] returns. *)
Inductive PostResult :=
| RStringIO (text : string)
| RFrame (f : Frame)
| RFrames (fs : list Frame)
| RText (text : string)
| RDict (j : Json)
| RBytesIO (bs : list byte).

Definition in_formats (f : string) (fs : list string) : bool :=
  existsb (String.eqb f) fs.

(** [__parse_post(response, format)]. *)
Definition __parse_post (L : Libs) (response : Response) (format : string) : M PostResult :=
  if in_formats format ["readable"; "StringIO"] then
    text <- decode (content response) ;; ret (RStringIO text)
  else if String.eqb format "pandas" then
    text <- decode (content response) ;;
    r <- of_option JSONDecodeError (json_loads L text) ;;
    results <- getitem r (JStr "Result") ;;
    n <- lift (py_len results) ;;
    if (1 <? n)%nat then
      items <- lift (py_iter results) ;;
      res <- map_m (fun result =>
                      data <- getitem result (JStr "Data") ;;
                      columns <- getitem result (JStr "Columns") ;;
                      lib (DataFrame L data columns)) items ;;
      ret (RFrames res)
    else
      first <- getitem results (JNum 0) ;;
      data <- getitem first (JStr "Data") ;;
      first' <- getitem results (JNum 0) ;;
      columns <- getitem first' (JStr "Columns") ;;
      f <- lib (DataFrame L data columns) ;;
      ret (RFrame f)
  else if in_formats format ["csv"; "json"] then
    text <- decode (content response) ;; ret (RText text)
  else if String.eqb format "dict" then
    text <- decode (content response) ;;
    j <- of_option JSONDecodeError (json_loads L text) ;;
    ret (RDict j)
  else if in_formats format ["fits"; "BytesIO"] then
    ret (RBytesIO (content response))
  else raise (ValueError (EXCEPT.ILLEGAL_FORMAT_ERROR ++ format)).

(** [__async_validate_response_status(response)]: the body is read with
    aiohttp's [response.text()]. *)
Definition __async_validate_response_status (L : Libs) (response : Response) : M unit :=
  if negb (status_code response =? 200)%Z then
    body <- of_option UnicodeDecodeError (response_text L (content response)) ;;
    raise (ValueError (http_error_message EXCEPT.EXECUTE_QUERY_ERROR
                                          (status_code response) body))
  else ret tt.

(** The body of the [async with _session.post(...) as resp:] block of
    [__make_post_request], run on the answer [resp].  The returned Python
    list of dictionaries is a [JArr] of [JObj]. *)
Definition read_post_response (L : Libs) (resp : Response) : M Json :=
  __async_validate_response_status L resp ;;;
  response_json <- lift (aio_result (resp_json L resp)) ;;
  results <- getitem response_json (JStr "Result") ;;
  items <- lift (py_iter results) ;;
  output <- map_m (fun response =>
                     columns <- getitem response (JStr "Columns") ;;
                     data <- getitem response (JStr "Data") ;;
                     ret (JObj [("Columns", columns); ("Data", data)])) items ;;
  ret (JArr output).

(** [__make_post_request(_session, url, data, task_name)]; the session's
    headers are the headers of the request. *)
Definition __make_post_request (L : Libs) (headers : list (string * string))
    (url data task_name : string) : M Json :=
  resp <- http (mkRequest POST url headers (__format_data data task_name)) ;;
  read_post_response L resp.

(** *** [asyncio.gather]

    The tasks of a batch run concurrently; the event loop completes them
    in an order of its choosing, read from [w_schedule]: the indices listed
    there first (out-of-range and repeated ones ignored), then the others
    in index order.  Each task is run as one step; the first exception
    raised aborts the gather; each result is stored at the index of its
    task. *)
Definition get_schedule : M (list nat) := fun w => (Ok (w_schedule w), w).

Fixpoint dedup_nat (seen : list nat) (l : list nat) : list nat :=
  match l with
  | [] => []
  | i :: rest =>
      if existsb (Nat.eqb i) seen then dedup_nat seen rest
      else i :: dedup_nat (i :: seen) rest
  end.

Definition completion_order (sched : list nat) (k : nat) : list nat :=
  let first := dedup_nat [] (filter (fun i => Nat.ltb i k) sched) in
  (first ++ filter (fun i => negb (existsb (Nat.eqb i) first)) (seq 0 k))%list.

Fixpoint set_nth {A} (n : nat) (x : A) (l : list A) : list A :=
  match l, n with
  | [], _ => []
  | _ :: rest, O => x :: rest
  | y :: rest, S n' => y :: set_nth n' x rest
  end.

Fixpoint run_in_order {A} (tasks : list (M A)) (order : list nat)
    (slots : list (option A)) : M (list (option A)) :=
  match order with
  | [] => ret slots
  | i :: rest =>
      a <- nth i tasks (raise IndexError) ;;
      run_in_order tasks rest (set_nth i (Some a) slots)
  end.

Definition somes {A} (l : list (option A)) : list A :=
  flat_map (fun o => match o with Some a => [a] | None => [] end) l.

Definition gather {A} (tasks : list (M A)) : M (list A) :=
  sched <- get_schedule ;;
  slots <- run_in_order tasks (completion_order sched (length tasks))
                        (repeat None (length tasks)) ;;
  ret (somes slots).

(** [__async_post_request(url, datas, headers, task_name)]. *)
Definition __async_post_request (L : Libs) (url : string) (datas : list string)
    (headers : list (string * string)) (task_name : string) : M (list Json) :=
  gather (map (fun data => __make_post_request L headers url data task_name) datas).

(** [URL_DICT], built at import time from the configuration. *)
Definition URL_DICT (cfg : Config) : list (string * string) :=
  let uri := CasJobsRESTUri cfg in
  [(TASKNAMES.GETSCHEMANAME,
     _join_str "" [uri ++ "/" ++ URLCONST.USERS ++ "/";
                   CASJOBSCONST.KEYSTONE_USER_ID;
                   taskname_url_in cfg TASKNAMES.GETSCHEMANAME]);
   (TASKNAMES.GETTABLES,
     _join_str "" [uri ++ "/" ++ URLCONST.CONTEXTS ++ "/" ++ DCONST.CONTEXT_ID;
                   "/" ++ URLCONST.TABLES ++ taskname_url_in cfg TASKNAMES.GETTABLES]);
   (TASKNAMES.EXECUTEQUERY,
     _join_str "" [uri ++ "/" ++ URLCONST.CONTEXTS ++ "/" ++ DCONST.CONTEXT_ID;
                   "/" ++ URLCONST.QUERY ++ DCONST.TASKNAME_ID]);
   (TASKNAMES.SUBMITJOB,
     _join_str "" [uri ++ "/" ++ URLCONST.CONTEXTS ++ "/" ++ DCONST.CONTEXT_ID;
                   "/" ++ URLCONST.JOBS ++ taskname_url_in cfg TASKNAMES.SUBMITJOB]);
   (TASKNAMES.GETJOBSTATUS,
     _join_str "" [uri ++ "/" ++ URLCONST.JOBS;
                   "/" ++ DCONST.JOB_ID ++ taskname_url_in cfg TASKNAMES.GETJOBSTATUS]);
   (TASKNAMES.CANCELJOB,
     _join_str "" [uri ++ "/" ++ URLCONST.JOBS;
                   "/" ++ DCONST.JOB_ID ++ taskname_url_in cfg TASKNAMES.CANCELJOB]);
   (TASKNAMES.UPLOADCSVDATATOTABLE,
     _join_str "" [uri ++ "/" ++ URLCONST.CONTEXTS ++ "/" ++ DCONST.CONTEXT_ID;
                   "/" ++ URLCONST.TABLES ++ "/" ++ DCONST.TABLENAME_ID ++ DCONST.TASKNAME_ID])].

Fixpoint str_assoc (k : string) (kvs : list (string * string)) : option string :=
  match kvs with
  | [] => None
  | (k', v) :: rest => if String.eqb k k' then Some v else str_assoc k rest
  end.

(** [URL_DICT[key]]. *)
Definition url_for (key : string) : M string :=
  cfg <- get_config ;; of_option KeyError (str_assoc key (URL_DICT cfg)).

(* ------------------------------------------------------------------ *)
(** ** [DataFrame.to_csv] (pandas, default options)

    One line per row, cells separated by commas and quoted when they
    contain a comma, a double quote or a line break.  With [index=True] the
    first column holds the index: its header cell is the index name (empty
    when there is none), then one label per row. *)

Definition dquote : ascii := ascii_of_nat 34.
Definition newline : string := String (ascii_of_nat 10) EmptyString.

Definition needs_quote (s : string) : bool :=
  existsb (fun c => Ascii.eqb c "," || Ascii.eqb c dquote
                    || Ascii.eqb c (ascii_of_nat 10) || Ascii.eqb c (ascii_of_nat 13))
          (list_ascii_of_string s).

Fixpoint double_quotes (s : string) : string :=
  match s with
  | EmptyString => EmptyString
  | String c s' =>
      if Ascii.eqb c dquote then String c (String c (double_quotes s'))
      else String c (double_quotes s')
  end.

Definition csv_field (s : string) : string :=
  if needs_quote s then String dquote (double_quotes s ++ String dquote EmptyString)
  else s.

Definition csv_line (cells : list string) : string :=
  String.concat "," (map csv_field cells) ++ newline.

Definition csv_text (rows : list (list string)) : string :=
  String.concat "" (map csv_line rows).

Fixpoint zip_cons (labels : list string) (rows : list (list string)) : list (list string) :=
  match labels, rows with
  | l :: ls, r :: rs => (l :: r) :: zip_cons ls rs
  | _, _ => []
  end.

(** The cells [to_csv] writes, with or without the index column. *)
Definition to_csv_rows (df : Frame) (index : bool) : list (list string) :=
  if index
  then (match df_index_name df with Some n => n | None => "" end :: df_columns df)
         :: zip_cons (df_index df) (df_rows df)
  else df_columns df :: df_rows df.

Definition to_csv (df : Frame) (index : bool) : string :=
  csv_text (to_csv_rows df index).

(* ------------------------------------------------------------------ *)
(** ** CasJobs.py *)

(** A job id as passed by the caller, turned into a string by [str]. *)
Inductive JobId := JobInt (z : Z) | JobStr (s : string).

Definition str_jobid (j : JobId) : string :=
  match j with JobInt z => py_str_int z | JobStr s => s end.

(** [getSchemaName()]. *)
Definition getSchemaName (L : Libs) : M string :=
  token <- __token ;;
  uid <- getKeystoneUserId token ;;
  u <- url_for TASKNAMES.GETSCHEMANAME ;;
  let usersUrl := py_replace u CASJOBSCONST.KEYSTONE_USER_ID uid in
  j <- __response_get L usersUrl token EXCEPT.SCHEMA_ERROR ;;
  v <- getitem j (JStr "WebServicesId") ;;
  ret ("wsid_" ++ py_str_json v).

(** [getTables(context)]. *)
Definition getTables (L : Libs) (context : string) : M Json :=
  u <- url_for TASKNAMES.GETTABLES ;;
  token <- __token ;;
  __response_get L (py_replace u DCONST.CONTEXT_ID context) token
    (py_replace EXCEPT.GET_TABLE_ERROR DCONST.CONTEXT_ID context).

(** Lines 129-133 and 467-471: the one-shot task name, or the default. *)
Definition take_task_name (default : string) : M string :=
  t <- get_task ;;
  match t with
  | Some n => put_task None ;;; ret n
  | None => __get_taskname default
  end.

(** [executeQuery(sql, context, format)]. *)
Definition executeQuery (L : Libs) (sql context format : string) : M PostResult :=
  taskName <- take_task_name TASKNAMES.EXECUTEQUERY ;;
  u <- url_for TASKNAMES.EXECUTEQUERY ;;
  tn_url <- __taskname_url taskName ;;
  let url := py_replace (py_replace u DCONST.CONTEXT_ID context) DCONST.TASKNAME_ID tn_url in
  token <- __token ;;
  headers <- lift (__get_headers token (Some format)) ;;
  postResponse <- http (mkRequest POST url headers (__format_data sql taskName)) ;;
  __validate_response_status postResponse EXCEPT.EXECUTE_QUERY_ERROR ;;;
  __parse_post L postResponse format.

(** The argument [sql] of [executeQueryAsync]: one query or a list. *)
Inductive SqlArg := SqlOne (q : string) | SqlMany (qs : list string).

Inductive AsyncResult :=
| AsyncList (responses : list Json)
| AsyncFrame (f : Frame).

(** [r += response["Result"][0]["Data"]] for every response. *)
Fixpoint concat_data (r : list Json) (responses : list Json) : M (list Json) :=
  match responses with
  | [] => ret r
  | response :: rest =>
      a <- getitem response (JStr "Result") ;;
      b <- getitem a (JNum 0) ;;
      d <- getitem b (JStr "Data") ;;
      items <- lift (py_iter d) ;;
      concat_data (r ++ items)%list rest
  end.

(** [executeQueryAsync(sql, context, format)]; [format = None] is
    [None]. *)
Definition executeQueryAsync (L : Libs) (sql : SqlArg) (context : string)
    (format : option string) : M AsyncResult :=
  let sqls := match sql with SqlOne q => [q] | SqlMany qs => qs end in
  cfg <- get_config ;;
  let url := CasJobsRESTUri cfg ++ "/contexts/" ++ context ++ "/query" in
  token <- __token ;;
  headers <- lift (__get_headers token (Some "json")) ;;
  task_name <- __get_taskname TASKNAMES.EXECUTEQUERY ;;
  responses <- __async_post_request L url sqls headers task_name ;;
  match format with
  | Some _ =>
      r <- concat_data [] responses ;;
      r0 <- getitem (JArr responses) (JNum 0) ;;
      a <- getitem r0 (JStr "Result") ;;
      b <- getitem a (JNum 0) ;;
      columns <- getitem b (JStr "Columns") ;;
      f <- lib (DataFrame L (JArr r) columns) ;;
      ret (AsyncFrame f)
  | None => ret (AsyncList responses)
  end.

(** [submitJob(sql, context)]. *)
Definition submitJob (L : Libs) (sql context : string) : M Z :=
  u <- url_for TASKNAMES.SUBMITJOB ;;
  tn <- __get_taskname TASKNAMES.SUBMITJOB ;;
  token <- __token ;;
  headers <- lift (__get_headers token (Some "readable")) ;;
  putResponse <- http (mkRequest PUT (py_replace u DCONST.CONTEXT_ID context) headers
                                 (__format_data sql tn)) ;;
  __validate_response_status putResponse EXCEPT.SUMBIT_JOB_ERROR ;;;
  text <- decode (content putResponse) ;;
  lift (py_int L (JStr text)).

(** [getJobStatus(jobId)]. *)
Definition getJobStatus (L : Libs) (jobId : JobId) : M Json :=
  let jid := str_jobid jobId in
  u <- url_for TASKNAMES.GETJOBSTATUS ;;
  token <- __token ;;
  __response_get L (py_replace u DCONST.JOB_ID jid) token
    (py_replace EXCEPT.GET_JOB_STATUS_ERROR DCONST.JOB_ID jid).

(** [cancelJob(jobId)]. *)
Definition cancelJob (L : Libs) (jobId : JobId) : M bool :=
  let jid := str_jobid jobId in
  u <- url_for TASKNAMES.CANCELJOB ;;
  token <- __token ;;
  headers <- lift (__get_headers token None) ;;
  response <- http (mkRequest DELETE (py_replace u DCONST.JOB_ID jid) headers NoData) ;;
  __validate_response_status response (py_replace EXCEPT.CANCEL_JOB_ERROR DCONST.JOB_ID jid) ;;;
  ret true.

Definition is_terminal (s : Z) : bool :=
  existsb (Z.eqb s) [3; 4; 5]%Z.

(** The [while not complete] loop of [waitForJob], run for at most [fuel]
    iterations; [None] means it has not left the loop yet. *)
Fixpoint wait_loop (L : Libs) (fuel : nat) (jobId : JobId) (verbose : bool)
    (pollTime : Z) : M (option Json) :=
  match fuel with
  | O => ret None
  | S fuel' =>
      (if verbose then print "Waiting..." else ret tt) ;;;
      jobDesc <- getJobStatus L jobId ;;
      st <- getitem jobDesc (JStr "Status") ;;
      jobStatus <- lift (py_int L st) ;;
      if is_terminal jobStatus then
        (if verbose then print ("Done!" ++ newline) else ret tt) ;;;
        ret (Some jobDesc)
      else
        sleep (Z.max 5 pollTime) ;;;
        wait_loop L fuel' jobId verbose pollTime
  end.

(** [waitForJob(jobId, verbose, pollTime)], within [fuel] iterations. *)
Definition waitForJob (L : Libs) (fuel : nat) (jobId : JobId) (verbose : bool)
    (pollTime : Z) : M (option Json) :=
  (if verbose then print "Waiting..." else ret tt) ;;;
  wait_loop L fuel jobId verbose pollTime.

(** [uploadCSVDataToTable(csvData, tableName, context)]. *)
Definition uploadCSVDataToTable (csvData : list byte) (tableName context : string) : M bool :=
  taskName <- take_task_name TASKNAMES.UPLOADCSVDATATOTABLE ;;
  u <- url_for TASKNAMES.EXECUTEQUERY ;;
  tn_url <- __taskname_url taskName ;;
  let url := py_replace (py_replace (py_replace u DCONST.CONTEXT_ID context)
                                    DCONST.TABLENAME_ID tableName)
                        DCONST.TASKNAME_ID tn_url in
  token <- __token ;;
  postResponse <- http (mkRequest POST url [(CASJOBSCONST.X_AUTH_TOKEN, token)]
                                  (RawData csvData)) ;;
  __validate_response_status postResponse
    (py_replace EXCEPT.UPLOAD_CSV_ERROR DCONST.TABLENAME_ID tableName) ;;;
  ret true.

(** [writeFitsFileFromQuery(fileName, queryString, context)]. *)
Definition writeFitsFileFromQuery (L : Libs) (fileName queryString context : string) : M bool :=
  tn <- __get_taskname TASKNAMES.WRITEFITSFILEFROMQUERY ;;
  put_task (Some tn) ;;;
  bytesio <- executeQuery L queryString context "fits" ;;
  match bytesio with
  | RBytesIO bs => emit (EWrite fileName bs) ;;; ret true
  | _ => raise AttributeError
  end.

(** [getPandasDataFrameFromQuery(queryString, context)]. *)
Definition getPandasDataFrameFromQuery (L : Libs) (queryString context : string) : M Frame :=
  tn <- __get_taskname TASKNAMES.GETPANDASDATAFRAMEFROMQUERY ;;
  put_task (Some tn) ;;;
  cvsResponse <- executeQuery L queryString context "readable" ;;
  match cvsResponse with
  | RStringIO text => lib (read_csv L text)
  | _ => raise AttributeError
  end.

(** [getNumpyArrayFromQuery(queryString, context)]. *)
Definition getNumpyArrayFromQuery (L : Libs) (queryString context : string)
  : M (list (list string)) :=
  tn <- __get_taskname TASKNAMES.GETNUMPYARRAYFROMQUERY ;;
  put_task (Some tn) ;;;
  dataFrame <- getPandasDataFrameFromQuery L queryString context ;;
  lib (as_matrix L dataFrame).

(** The test [dataFrame.index.name is not None and dataFrame.index.name != ""]. *)
Definition index_is_named (df : Frame) : bool :=
  match df_index_name df with
  | Some n => negb (String.eqb n "")
  | None => false
  end.

(** [uploadPandasDataFrameToTable(dataFrame, tableName, context)]. *)
Definition uploadPandasDataFrameToTable (dataFrame : Frame) (tableName context : string)
  : M bool :=
  tn <- __get_taskname TASKNAMES.UPLOADPANDASDATAFRAMETOTABLE ;;
  put_task (Some tn) ;;;
  let sio := if index_is_named dataFrame
             then str_encode (to_csv dataFrame true)
             else str_encode (to_csv dataFrame false) in
  uploadCSVDataToTable sio tableName context.

(** The public operations of the module, with their arguments. *)
Inductive Call :=
| CgetSchemaName
| CgetTables (context : string)
| CexecuteQuery (sql context format : string)
| CexecuteQueryAsync (sql : SqlArg) (context : string) (format : option string)
| CsubmitJob (sql context : string)
| CgetJobStatus (jobId : JobId)
| CcancelJob (jobId : JobId)
| CwaitForJob (fuel : nat) (jobId : JobId) (verbose : bool) (pollTime : Z)
    (* runs at most [fuel + 1] iterations of the loop *)
| CwriteFitsFileFromQuery (fileName queryString context : string)
| CgetPandasDataFrameFromQuery (queryString context : string)
| CgetNumpyArrayFromQuery (queryString context : string)
| CuploadPandasDataFrameToTable (dataFrame : Frame) (tableName context : string)
| CuploadCSVDataToTable (csvData : list byte) (tableName context : string).

Definition discard {A} (m : M A) : M unit := m ;;; ret tt.

(** Running a public operation, forgetting its return value. *)
Definition run_call (L : Libs) (c : Call) : M unit :=
  match c with
  | CgetSchemaName => discard (getSchemaName L)
  | CgetTables ctx => discard (getTables L ctx)
  | CexecuteQuery sql ctx fmt => discard (executeQuery L sql ctx fmt)
  | CexecuteQueryAsync sql ctx fmt => discard (executeQueryAsync L sql ctx fmt)
  | CsubmitJob sql ctx => discard (submitJob L sql ctx)
  | CgetJobStatus j => discard (getJobStatus L j)
  | CcancelJob j => discard (cancelJob L j)
  | CwaitForJob fuel j v p => discard (waitForJob L (S fuel) j v p)
  | CwriteFitsFileFromQuery f q ctx => discard (writeFitsFileFromQuery L f q ctx)
  | CgetPandasDataFrameFromQuery q ctx => discard (getPandasDataFrameFromQuery L q ctx)
  | CgetNumpyArrayFromQuery q ctx => discard (getNumpyArrayFromQuery L q ctx)
  | CuploadPandasDataFrameToTable df t ctx => discard (uploadPandasDataFrameToTable df t ctx)
  | CuploadCSVDataToTable d t ctx => discard (uploadCSVDataToTable d t ctx)
  end.

(* ------------------------------------------------------------------ *)
(** ** Concrete libraries and worlds for evaluating the code *)

(** [repr] of a text holding no quote, backslash or control character. *)
Definition repr_plain (s : string) : string := "'" ++ s ++ "'".

(** Libraries that parse no document and whose pandas calls fail. *)
Definition libs_ex : Libs :=
  mkLibs (fun _ => None) (fun _ _ => inr "unsupported") (fun _ => inr "unsupported")
         (fun _ => inr "unsupported") (fun _ => None) repr_plain bytes_decode (fun _ => AioInvalid).

Definition config_ex : Config := mkConfig "https://casjobs.example/RestApi" false.

(** A logged-in process with the given answers from the services. *)
Definition world_ex (responses : list Response) : World :=
  mkWorld config_ex (Some "tok") "uid" None responses [] [].

(* ------------------------------------------------------------------ *)
(** ** Properties of runs *)

(** [spec I P Q E m]: started in a state satisfying [I], [m] ends in a
    state satisfying [I], only appends to the log events satisfying [P],
    and returns a value satisfying [Q] or raises an exception satisfying
    [E]. *)
Definition spec {A} (I : World -> Prop) (P : Event -> Prop) (Q : A -> Prop)
    (E : Exc -> Prop) (m : M A) : Prop :=
  forall w, I w ->
    I (snd (m w)) /\
    (exists evs, w_log (snd (m w)) = (w_log w ++ evs)%list /\ Forall P evs) /\
    match fst (m w) with Ok a => Q a | Raise e => E e end.

(** [m] does not touch the state and raises only exceptions in [E]. *)
Definition stateless {A} (E : Exc -> Prop) (m : M A) : Prop :=
  forall w, snd (m w) = w /\ (forall e, fst (m w) = Raise e -> E e).

(** [I] survives logging and the consumption of answers. *)
Definition stable (I : World -> Prop) : Prop :=
  forall w, I w -> (forall e, I (log_event e w)) /\ (forall rs, I (set_responses rs w)).

(** Exceptions other than the login error. *)
Definition not_login (e : Exc) : Prop := e <> ValueError EXCEPT.LOGIN_ERROR.

(** The exceptions that decoding a response body can raise. *)
Definition body_error (e : Exc) : Prop :=
  e = UnicodeDecodeError \/ e = JSONDecodeError \/ e = KeyError \/ e = IndexError \/
  e = TypeError \/ exists msg, e = LibraryError msg.

(** The format tags [__format_to_accept_header] and [__parse_post] know. *)
Definition recognized_formats : list string :=
  ["pandas"; "json"; "dict"; "csv"; "readable"; "StringIO"; "fits"; "BytesIO"].

(** The headers [__get_headers(token)] builds without an accept format. *)
Definition base_headers (t : string) : list (string * string) :=
  [(CASJOBSCONST.X_AUTH_TOKEN, t); (CASJOBSCONST.CONTENT_TYPE, CASJOBSCONST.CONTENT_JSON)].

(** The keys of [URL_DICT] and their entries. *)
Definition url_keys : list string :=
  [TASKNAMES.GETSCHEMANAME; TASKNAMES.GETTABLES; TASKNAMES.EXECUTEQUERY;
   TASKNAMES.SUBMITJOB; TASKNAMES.GETJOBSTATUS; TASKNAMES.CANCELJOB;
   TASKNAMES.UPLOADCSVDATATOTABLE].

Definition url_in (cfg : Config) (key : string) : string :=
  match str_assoc key (URL_DICT cfg) with Some u => u | None => "" end.

(** The shapes of the requests the module sends with the token [t] for
    the output format [fmt]: GET and DELETE with the token and content-type
    headers and no body; the submitJob PUT with [Accept: text/plain] added
    and a query body; the query POSTs with the Accept header of [fmt] added
    and a query body; the CSV upload POST with the token header only. *)
Definition request_shape (t fmt : string) (r : Request) : Prop :=
  ((req_method r = GET \/ req_method r = DELETE) /\
     req_headers r = base_headers t /\ req_data r = NoData) \/
  (req_method r = PUT /\
     req_headers r = (base_headers t ++ [(CASJOBSCONST.ACCEPT, "text/plain")])%list /\
     exists q n, req_data r = QueryData q n) \/
  (req_method r = POST /\
     (exists h, __format_to_accept_header fmt = Ok h /\
                req_headers r = (base_headers t ++ [(CASJOBSCONST.ACCEPT, h)])%list) /\
     exists q n, req_data r = QueryData q n) \/
  (req_method r = POST /\ req_headers r = [(CASJOBSCONST.X_AUTH_TOKEN, t)] /\
     exists bs, req_data r = RawData bs).

(** The events a run with token [t] and output format [fmt] may produce. *)
Definition event_ok (t fmt : string) (ev : Event) : Prop :=
  match ev with
  | ERequest r => request_shape t fmt r
  | EKeystone k => k = t
  | _ => True
  end.

(** The output format whose Accept header a call's query POSTs carry. *)
Definition post_format (c : Call) : string :=
  match c with
  | CexecuteQuery _ _ fmt => fmt
  | CexecuteQueryAsync _ _ _ => "json"
  | CwriteFitsFileFromQuery _ _ _ => "fits"
  | CgetPandasDataFrameFromQuery _ _ | CgetNumpyArrayFromQuery _ _ => "readable"
  | _ => ""
  end.

(** Requests carry the header [X-Auth-Token: t]; calls to the
    authentication service are made with [t]. *)
Definition carries_token (t : string) (ev : Event) : Prop :=
  match ev with
  | ERequest r => In (CASJOBSCONST.X_AUTH_TOKEN, t) (req_headers r)
  | EKeystone k => k = t
  | _ => True
  end.

Definition logged_in (t : string) (w : World) : Prop := w_token w = Some t.

(** Neither an HTTP request nor a call to the authentication service. *)
Definition no_network (ev : Event) : Prop :=
  match ev with ERequest _ | EKeystone _ => False | _ => True end.

Definition logged_out (w : World) : Prop := w_token w = None \/ w_token w = Some "".

(** [a] is a value the task [m] returns when run from some state. *)
Definition result_of {A} (m : M A) (a : A) : Prop := exists w, fst (m w) = Ok a.

(** The queries [executeQueryAsync] sends: [sql] itself or [[sql]]. *)
Definition sql_list (sql : SqlArg) : list string :=
  match sql with SqlOne q => [q] | SqlMany qs => qs end.

(** Slot [i] of a [gather] holds a result. *)
Definition filled {A} (slots : list (option A)) (i : nat) : Prop :=
  exists a, nth_error slots i = Some (Some a).

(** The slots hold, at each index, only results of the task of that index. *)
Definition slots_ok {A} (tasks : list (M A)) (slots : list (option A)) : Prop :=
  length slots = length tasks /\
  forall i m a, nth_error tasks i = Some m -> nth_error slots i = Some (Some a) -> result_of m a.

(** [m] keeps the property [R] of the state. *)
Definition keeps (R : World -> Prop) {A} (m : M A) : Prop :=
  forall w, R w -> R (snd (m w)).

(** [m] always ends in a state satisfying [R]. *)
Definition ends (R : World -> Prop) {A} (m : M A) : Prop :=
  forall w, R (snd (m w)).

(** The operations that read the task-name override [task.name]. *)
Definition consults (c : Call) : bool :=
  match c with
  | CexecuteQuery _ _ _ | CwriteFitsFileFromQuery _ _ _ | CgetPandasDataFrameFromQuery _ _
  | CgetNumpyArrayFromQuery _ _ | CuploadPandasDataFrameToTable _ _ _
  | CuploadCSVDataToTable _ _ _ => true
  | _ => false
  end.

(** The task name a call reading the override uses: the override, or the
    default for [default]. *)
Definition task_name_for (w : World) (default : string) : string :=
  match w_task w with
  | Some n => n
  | None => get_taskname_in (w_config w) default
  end.

(** The URL [executeQuery] posts to for the task name [taskName]. *)
Definition query_url (cfg : Config) (context taskName : string) : string :=
  py_replace (py_replace (url_in cfg TASKNAMES.EXECUTEQUERY) DCONST.CONTEXT_ID context)
             DCONST.TASKNAME_ID (taskname_url_in cfg taskName).

(** The URL [uploadCSVDataToTable] posts to for the task name [taskName]. *)
Definition upload_url (cfg : Config) (context tableName taskName : string) : string :=
  py_replace (py_replace (py_replace (url_in cfg TASKNAMES.EXECUTEQUERY)
                                     DCONST.CONTEXT_ID context)
                         DCONST.TABLENAME_ID tableName)
             DCONST.TASKNAME_ID (taskname_url_in cfg taskName).

(** The status record and status a status-poll answer carries: a 200
    answer whose UTF-8 body parses to a record with an integer [Status]
    (the path of [getJobStatus] and [int(jobDesc["Status"])]). *)
Definition poll_answer (L : Libs) (resp : Response) : option (Json * Z) :=
  if (status_code resp =? 200)%Z then
    match bytes_decode (content resp) with
    | Some text =>
        match json_loads L text with
        | Some j =>
            match py_getitem j (JStr "Status") with
            | Ok st => match py_int L st with Ok z => Some (j, z) | Raise _ => None end
            | Raise _ => None
            end
        | None => None
        end
    | None => None
    end
  else None.

(** The GET [getJobStatus(jobId)] sends with the token [t]. *)
Definition status_request (cfg : Config) (t : string) (jobId : JobId) : Request :=
  mkRequest GET (py_replace (url_in cfg TASKNAMES.GETJOBSTATUS) DCONST.JOB_ID (str_jobid jobId))
            (base_headers t) NoData.

(** What [if verbose: print(s)] writes. *)
Definition verbose_print (verbose : bool) (s : string) : list Event :=
  if verbose then [EPrint s] else [].

(** The events of one iteration of the loop of [waitForJob] whose poll
    did not see a terminal status, and of the one that did. *)
Definition poll_again_events (verbose : bool) (q : Request) (pollTime : Z) : list Event :=
  (verbose_print verbose "Waiting..." ++ [ERequest q; ESleep (Z.max 5 pollTime)])%list.

Definition poll_done_events (verbose : bool) (q : Request) : list Event :=
  (verbose_print verbose "Waiting..." ++ [ERequest q] ++ verbose_print verbose ("Done!" ++ newline))%list.

(** The prefix [__get_taskname] puts before a task id. *)
Definition taskname_prefix (cfg : Config) : string :=
  if isSciServerComputeEnvironment cfg
  then CASJOBSCONST.SCISCRIPT_PYTHON_COMPUTE
  else CASJOBSCONST.SCISCRIPT_PYTHON.

(** [s] contains no [<], the first character of every placeholder. *)
Definition no_lt (s : string) : bool :=
  forallb (fun c => negb (Ascii.eqb c "<")) (list_ascii_of_string s).

(** The JSON text [{"Status":d}]. *)
Definition status_json (d : string) : string :=
  "{" ++ String dquote ("Status" ++ String dquote (":" ++ d ++ "}")).

(** Libraries whose JSON parser knows the status records of running (1)
    and finished (5) jobs. *)
Definition libs_jobs : Libs :=
  mkLibs (fun s => if String.eqb s (status_json "1") then Some (JObj [("Status", JNum 1)])
                   else if String.eqb s (status_json "5") then Some (JObj [("Status", JNum 5)])
                   else None)
         (fun _ _ => inr "unsupported") (fun _ => inr "unsupported")
         (fun _ => inr "unsupported") (fun _ => None) repr_plain bytes_decode (fun _ => AioInvalid).

Definition answer_running : Response := mkResponse 200 (str_encode (status_json "1")).
Definition answer_finished : Response := mkResponse 200 (str_encode (status_json "5")).

(** The world [w] with the events [evs] appended to its log. *)
Definition append_log (evs : list Event) (w : World) : World :=
  mkWorld (w_config w) (w_token w) (w_keystone_id w) (w_task w) (w_responses w)
          (w_schedule w) (w_log w ++ evs)%list.

(** The durations of the sleeps among the events [evs], in order. *)
Definition sleeps (evs : list Event) : list Z :=
  flat_map (fun e => match e with ESleep s => [s] | _ => [] end) evs.

(** [s] contains [x] as a substring. *)
Definition contains (s x : string) : Prop := exists p q, s = p ++ x ++ q.

(** [m] neither reads nor changes the state. *)
Definition pure_m {A} (m : M A) : Prop := exists r, forall w, m w = (r, w).

(** A result set with the one column [a] and no rows. *)
Definition result_set_ex : Json := JObj [("Columns", JArr [JStr "a"]); ("Data", JArr [])].

(** Libraries whose JSON parsers read every text and every answer as a
    document holding the one result set [result_set_ex]. *)
Definition libs_async : Libs :=
  mkLibs (fun _ => Some (JObj [("Result", JArr [result_set_ex])]))
         (fun _ _ => inr "unsupported") (fun _ => inr "unsupported")
         (fun _ => inr "unsupported") (fun _ => None) repr_plain bytes_decode
         (fun _ => AioDoc (JObj [("Result", JArr [result_set_ex])])).



(* ================================================================== *)
(** * Proofs *)

(** ** Strings *)

Lemma str_app_assoc (a b c : string) : (a ++ b) ++ c = a ++ (b ++ c).
Proof. induction a as [|x a IH]; simpl; [reflexivity | now rewrite IH]. Qed.

Lemma str_app_nil_r (a : string) : a ++ "" = a.
Proof. induction a as [|x a IH]; simpl; [reflexivity | now rewrite IH]. Qed.

Lemma str_length_app (a b : string) :
  String.length (a ++ b) = (String.length a + String.length b)%nat.
Proof. induction a as [|x a IH]; simpl; [reflexivity | now rewrite IH]. Qed.

Lemma string_of_uint_nonempty (u : Decimal.uint) :
  u <> Decimal.Nil -> String.length (string_of_uint u) <> O.
Proof. destruct u; simpl; congruence. Qed.

Lemma to_int_digits (z : Z) :
  exists u, u <> Decimal.Nil /\ (Z.to_int z = Decimal.Pos u \/ Z.to_int z = Decimal.Neg u).
Proof.
  destruct z as [|p|p]; simpl.
  - exists (Decimal.D0 Decimal.Nil); split; [discriminate | left; reflexivity].
  - exists (Pos.to_uint p); split; [|left; reflexivity].
    apply DecimalPos.Unsigned.to_uint_nonnil.
  - exists (Pos.to_uint p); split; [|right; reflexivity].
    apply DecimalPos.Unsigned.to_uint_nonnil.
Qed.

Lemma py_str_int_nonempty (z : Z) : String.length (py_str_int z) <> O.
Proof.
  unfold py_str_int. destruct (to_int_digits z) as (u & Hu & [-> | ->]);
    simpl; [ | discriminate]. now apply string_of_uint_nonempty.
Qed.

(** The status code lands in the HTTP error template. *)
Lemma http_error_template (code : string) :
  py_replace EXCEPT.HTTP_ERROR DCONST.HTTP_CODE_ID code =
  "Http Response from CasJobs API returned status code " ++ code ++ ":" ++ newline.
Proof. reflexivity. Qed.

Lemma http_error_message_eq (on_error : string) (code : Z) (body : string) :
  http_error_message on_error code body =
  on_error ++ " " ++ "Http Response from CasJobs API returned status code "
  ++ py_str_int code ++ ":" ++ newline ++ " " ++ body.
Proof.
  unfold http_error_message, _join_str. cbn [String.concat].
  rewrite http_error_template. now rewrite !str_app_assoc.
Qed.

(** ** C4: response validation *)

Lemma contains_three (a b c d1 d2 e : string) :
  contains (a ++ " " ++ b ++ c ++ d1 ++ d2 ++ " " ++ e) a /\
  contains (a ++ " " ++ b ++ c ++ d1 ++ d2 ++ " " ++ e) c /\
  contains (a ++ " " ++ b ++ c ++ d1 ++ d2 ++ " " ++ e) e.
Proof.
  repeat split.
  - exists "", (" " ++ b ++ c ++ d1 ++ d2 ++ " " ++ e); reflexivity.
  - exists (a ++ " " ++ b), (d1 ++ d2 ++ " " ++ e). now rewrite !str_app_assoc.
  - exists (a ++ " " ++ b ++ c ++ d1 ++ d2 ++ " "), "".
    rewrite str_app_nil_r, !str_app_assoc. reflexivity.
Qed.

(** Claim C4 (amended).  [__validate_response_status(response, on_error)]
    raises nothing on status 200.  On any other status whose body decodes
    as UTF-8 it raises a [ValueError] whose message contains [on_error],
    [str(status_code)] and the body text; when the body is not UTF-8 the
    decoding error is raised instead.  The asynchronous variant behaves
    the same with the fixed message [EXECUTE_QUERY_ERROR] and aiohttp's
    [response.text()] as decoder.  Neither changes the state. *)
Theorem validate_response_status_messages :
  forall (resp : Response) (on_error : string) (L : Libs) (w : World),
    ((status_code resp = 200)%Z ->
       __validate_response_status resp on_error w = (Ok tt, w) /\
       __async_validate_response_status L resp w = (Ok tt, w)) /\
    ((status_code resp <> 200)%Z ->
       match bytes_decode (content resp) with
       | Some body =>
           exists msg,
             __validate_response_status resp on_error w = (Raise (ValueError msg), w) /\
             contains msg on_error /\ contains msg (py_str_int (status_code resp)) /\
             contains msg body
       | None => __validate_response_status resp on_error w = (Raise UnicodeDecodeError, w)
       end /\
       match response_text L (content resp) with
       | Some body =>
           exists msg,
             __async_validate_response_status L resp w = (Raise (ValueError msg), w) /\
             contains msg EXCEPT.EXECUTE_QUERY_ERROR /\
             contains msg (py_str_int (status_code resp)) /\ contains msg body
       | None => __async_validate_response_status L resp w = (Raise UnicodeDecodeError, w)
       end).
Proof.
  intros resp on_error L w. split.
  - intros H200. unfold __validate_response_status, __async_validate_response_status.
    rewrite H200. split; reflexivity.
  - intros Hne. apply Z.eqb_neq in Hne.
    unfold __validate_response_status, __async_validate_response_status, decode.
    rewrite Hne. simpl negb. cbv iota. split.
    + destruct (bytes_decode (content resp)) as [body|]; [|reflexivity].
      eexists; split; [reflexivity|]. rewrite http_error_message_eq. apply contains_three.
    + destruct (response_text L (content resp)) as [body|]; [|reflexivity].
      eexists; split; [reflexivity|]. rewrite http_error_message_eq. apply contains_three.
Qed.

(** Claim C4 fails as stated: a 404 answer whose body is not UTF-8 makes
    the validation raise the decoding error, whose message has neither the
    status code nor a body text. *)
Lemma validate_response_status_undecodable_body :
  __validate_response_status (mkResponse 404 [xff]) EXCEPT.EXECUTE_QUERY_ERROR (world_ex [])
  = (Raise UnicodeDecodeError, world_ex []).
Proof. reflexivity. Qed.

(** ** Rules for [spec] and [stateless] *)

Section Rules.
Context (I : World -> Prop) (P : Event -> Prop) (E : Exc -> Prop).

Lemma spec_ret {A} (Q : A -> Prop) (a : A) : Q a -> spec I P Q E (ret a).
Proof. intros HQ w Hw; cbn; split; [exact Hw | split; [exists []; split; [now rewrite app_nil_r | constructor] | exact HQ]]. Qed.

Lemma spec_raise {A} (Q : A -> Prop) (e : Exc) : E e -> spec I P Q E (raise e).
Proof. intros HE w Hw; cbn; split; [exact Hw | split; [exists []; split; [now rewrite app_nil_r | constructor] | exact HE]]. Qed.

Lemma spec_bind {A B} (Q1 : A -> Prop) (Q : B -> Prop) (m : M A) (k : A -> M B) :
  spec I P Q1 E m -> (forall a, Q1 a -> spec I P Q E (k a)) -> spec I P Q E (bind m k).
Proof.
  intros Hm Hk w Hw. specialize (Hm w Hw). unfold bind.
  destruct (m w) as [[a|e] w1]; cbn in Hm; destruct Hm as (HI & (evs & Hl & HP) & HQ).
  - specialize (Hk a HQ w1 HI). destruct (k a w1) as [r w2]; cbn in *.
    destruct Hk as (HI2 & (evs2 & Hl2 & HP2) & HQ2).
    split; [exact HI2|]. split; [|exact HQ2].
    exists (evs ++ evs2)%list. split; [now rewrite Hl2, Hl, app_assoc | now apply Forall_app].
  - cbn. split; [exact HI|]. split; [exists evs; split; assumption | exact HQ].
Qed.

Lemma spec_weaken {A} (Q Q' : A -> Prop) (m : M A) :
  (forall a, Q a -> Q' a) -> spec I P Q E m -> spec I P Q' E m.
Proof.
  intros HQQ Hm w Hw. specialize (Hm w Hw). destruct (m w) as [[a|e] w1]; cbn in *;
    intuition.
Qed.

Lemma spec_stateless {A} (m : M A) :
  stateless E m -> spec I P (fun _ => True) E m.
Proof.
  intros Hm w Hw. destruct (Hm w) as [Hs He]. rewrite Hs. split; [exact Hw|].
  split; [exists []; split; [now rewrite app_nil_r | constructor]|].
  destruct (fst (m w)) as [a|e] eqn:Hr; [exact Logic.I | now apply He].
Qed.

Lemma spec_lift {A} (r : res A) :
  (forall e, r = Raise e -> E e) -> spec I P (fun a => r = Ok a) E (lift r).
Proof.
  intros HE. destruct r as [a|e]; cbn; [now apply spec_ret | apply spec_raise; auto].
Qed.

Lemma spec_lib {A} (r : A + string) :
  (forall msg, E (LibraryError msg)) -> spec I P (fun _ => True) E (lib r).
Proof. intros HE. destruct r; cbn; [now apply spec_ret | now apply spec_raise]. Qed.

Lemma spec_of_option {A} (e : Exc) (o : option A) :
  E e -> spec I P (fun a => o = Some a) E (of_option e o).
Proof. intros HE. destruct o; cbn; [now apply spec_ret | now apply spec_raise]. Qed.

Lemma spec_get_config (cfg : Config) :
  (forall w, I w -> w_config w = cfg) -> spec I P (fun c => c = cfg) E get_config.
Proof.
  intros H w Hw; cbn; split; [exact Hw|]; split;
    [exists []; split; [now rewrite app_nil_r | constructor] | now apply H].
Qed.

Lemma spec_getToken (tok : option string) :
  (forall w, I w -> w_token w = tok) -> spec I P (fun o => o = tok) E getToken.
Proof.
  intros H w Hw; cbn; split; [exact Hw|]; split;
    [exists []; split; [now rewrite app_nil_r | constructor] | now apply H].
Qed.

Lemma spec_get_task (t : option string) :
  (forall w, I w -> w_task w = t) -> spec I P (fun o => o = t) E get_task.
Proof.
  intros H w Hw; cbn; split; [exact Hw|]; split;
    [exists []; split; [now rewrite app_nil_r | constructor] | now apply H].
Qed.

Lemma spec_put_task (t : option string) :
  (forall w, I w -> I (set_task t w)) -> spec I P (fun _ => True) E (put_task t).
Proof.
  intros H w Hw; cbn; split; [now apply H|]; split;
    [exists []; split; [now rewrite app_nil_r | constructor] | exact Logic.I].
Qed.

Lemma spec_emit (ev : Event) :
  stable I -> P ev -> spec I P (fun _ => True) E (emit ev).
Proof.
  intros HI HP w Hw; cbn; split; [now apply HI|]; split; [|exact Logic.I].
  exists [ev]; split; [reflexivity | now constructor].
Qed.

Lemma spec_keystone (t : string) :
  stable I -> P (EKeystone t) -> spec I P (fun _ => True) E (getKeystoneUserId t).
Proof.
  intros HI HP w Hw; cbn; split; [now apply HI|]; split; [|exact Logic.I].
  exists [EKeystone t]; split; [reflexivity | now constructor].
Qed.

Lemma spec_http (r : Request) :
  stable I -> P (ERequest r) -> E ConnectionError ->
  spec I P (fun _ => True) E (http r).
Proof.
  intros HI HP HE w Hw. unfold http.
  destruct (w_responses w) as [|resp rest]; cbn.
  - split; [now apply HI|]. split; [|exact HE].
    exists [ERequest r]; split; [reflexivity | now constructor].
  - split; [apply HI; now apply HI|]. split; [|exact Logic.I].
    exists [ERequest r]; split; [reflexivity | now constructor].
Qed.

Lemma spec_map_m {A B} (Q : B -> Prop) (f : A -> M B) (l : list A) :
  (forall x, In x l -> spec I P Q E (f x)) -> spec I P (Forall Q) E (map_m f l).
Proof.
  induction l as [|x l IH]; intros Hf; cbn.
  - apply spec_ret; constructor.
  - eapply spec_bind; [apply Hf; now left|]. intros y Hy.
    eapply spec_bind; [apply IH; intros; apply Hf; now right|]. intros ys Hys.
    apply spec_ret. now constructor.
Qed.
End Rules.

Section Stateless.
Context (E : Exc -> Prop).

Lemma stateless_ret {A} (a : A) : stateless E (ret a).
Proof. intros w; split; [reflexivity | discriminate]. Qed.

Lemma stateless_raise {A} (e : Exc) : E e -> stateless E (@raise A e).
Proof. intros HE w; split; [reflexivity | intros e' [= <-]; exact HE]. Qed.

Lemma stateless_bind {A B} (m : M A) (k : A -> M B) :
  stateless E m -> (forall a, stateless E (k a)) -> stateless E (bind m k).
Proof.
  intros Hm Hk w. destruct (Hm w) as [Hs He]. unfold bind.
  destruct (m w) as [[a|e] w1] eqn:Hmw; cbn in *; subst w1.
  - apply Hk.
  - split; [reflexivity|]. intros e' [= <-]. now apply He.
Qed.

Lemma stateless_lift {A} (r : res A) :
  (forall e, r = Raise e -> E e) -> stateless E (lift r).
Proof. intros H; destruct r; cbn; [apply stateless_ret | apply stateless_raise; auto]. Qed.

Lemma stateless_lib {A} (r : A + string) :
  (forall msg, E (LibraryError msg)) -> stateless E (lib r).
Proof. intros H; destruct r; cbn; [apply stateless_ret | apply stateless_raise; auto]. Qed.

Lemma stateless_of_option {A} (e : Exc) (o : option A) :
  E e -> stateless E (of_option e o).
Proof. intros H; destruct o; cbn; [apply stateless_ret | now apply stateless_raise]. Qed.

Lemma stateless_map_m {A B} (f : A -> M B) (l : list A) :
  (forall x, stateless E (f x)) -> stateless E (map_m f l).
Proof.
  intros Hf; induction l as [|x l IH]; cbn; [apply stateless_ret|].
  apply stateless_bind; [apply Hf|]; intros y.
  apply stateless_bind; [exact IH|]; intros ys. apply stateless_ret.
Qed.
End Stateless.

(** ** The building blocks of utils.py *)

Lemma py_getitem_error (v k : Json) (e : Exc) :
  py_getitem v k = Raise e -> e = KeyError \/ e = IndexError \/ e = TypeError.
Proof.
  unfold py_getitem; intros H.
  repeat match type of H with
         | context [match ?x with _ => _ end] => destruct x
         end; inversion H; auto.
Qed.

Lemma stateless_getitem (E : Exc -> Prop) (v k : Json) :
  E KeyError -> E IndexError -> E TypeError -> stateless E (getitem v k).
Proof.
  intros H1 H2 H3. apply stateless_lift. intros e He.
  destruct (py_getitem_error _ _ _ He) as [-> | [-> | ->]]; assumption.
Qed.

Lemma lift_py_len_error (v : Json) (e : Exc) : py_len v = Raise e -> e = TypeError.
Proof. destruct v; cbn; congruence. Qed.

Lemma lift_py_iter_error (v : Json) (e : Exc) : py_iter v = Raise e -> e = TypeError.
Proof. destruct v; cbn; congruence. Qed.

Lemma login_error_length : String.length EXCEPT.LOGIN_ERROR = 52%nat.
Proof. reflexivity. Qed.

Lemma http_error_not_login (on_error : string) (code : Z) (body : string) :
  not_login (ValueError (http_error_message on_error code body)).
Proof.
  intros [= H]. apply (f_equal String.length) in H.
  rewrite http_error_message_eq, login_error_length in H.
  rewrite !str_length_app in H. cbn [String.length] in H.
  pose proof (py_str_int_nonempty code). lia.
Qed.

Lemma illegal_format_not_login (f : string) :
  not_login (ValueError (EXCEPT.ILLEGAL_FORMAT_ERROR ++ f)).
Proof. intros [=]. Qed.

Lemma in_formats_false (f : string) (fs : list string) :
  ~ In f fs -> in_formats f fs = false.
Proof.
  intros H. unfold in_formats. apply Bool.not_true_iff_false. intros Hx.
  apply existsb_exists in Hx as (x & Hx & Hf). apply String.eqb_eq in Hf. subst. contradiction.
Qed.

Lemma stateless_validate (E : Exc -> Prop) (resp : Response) (on_error : string) :
  (forall e, not_login e -> E e) ->
  stateless E (__validate_response_status resp on_error).
Proof.
  intros HE. unfold __validate_response_status, decode.
  destruct (negb _).
  - apply stateless_bind; [apply stateless_of_option; apply HE; discriminate|].
    intros body. apply stateless_raise, HE, http_error_not_login.
  - apply stateless_ret.
Qed.

Lemma stateless_async_validate (E : Exc -> Prop) (L : Libs) (resp : Response) :
  (forall e, not_login e -> E e) ->
  stateless E (__async_validate_response_status L resp).
Proof.
  intros HE. unfold __async_validate_response_status.
  destruct (negb _).
  - apply stateless_bind; [apply stateless_of_option; apply HE; discriminate|].
    intros body. apply stateless_raise, HE, http_error_not_login.
  - apply stateless_ret.
Qed.

Ltac stateless_step :=
  match goal with
  | |- stateless _ (bind _ _) => apply stateless_bind; [ | intros ?]
  | |- stateless _ (ret _) => apply stateless_ret
  | |- stateless _ (getitem _ _) => apply stateless_getitem
  | |- stateless _ (lib _) => apply stateless_lib; intros ?
  | |- stateless _ (decode _) => apply stateless_of_option
  | |- stateless _ (of_option _ _) => apply stateless_of_option
  | |- stateless _ (lift (py_len _)) => apply stateless_lift; intros ? ?Hl;
                                         apply lift_py_len_error in Hl; subst
  | |- stateless _ (lift (py_iter _)) => apply stateless_lift; intros ? ?Hl;
                                          apply lift_py_iter_error in Hl; subst
  | |- stateless _ (map_m _ _) => apply stateless_map_m; intros ?
  | |- stateless _ (if ?b then _ else _) => destruct b
  end.

Ltac body_error_tac :=
  unfold body_error; intuition (eauto; discriminate).

(** [__parse_post] does not touch the state; it raises a body-decoding
    error or, for an unknown tag, the illegal-format error. *)
Lemma parse_post_stateless (L : Libs) (resp : Response) (f : string) :
  stateless (fun e => body_error e \/ e = ValueError (EXCEPT.ILLEGAL_FORMAT_ERROR ++ f))
            (__parse_post L resp f).
Proof.
  unfold __parse_post.
  repeat stateless_step; try apply stateless_raise; unfold body_error; eauto 10.
Qed.

(** For a recognized tag only body-decoding errors remain. *)
Lemma parse_post_recognized (L : Libs) (resp : Response) (f : string) :
  In f recognized_formats -> stateless body_error (__parse_post L resp f).
Proof.
  intros Hf.
  cbn in Hf; repeat destruct Hf as [<- | Hf]; try contradiction;
    unfold __parse_post; cbn -[bind];
    repeat stateless_step; unfold body_error; eauto 10.
Qed.

(** ** C3: format dispatch *)

Lemma not_in_sub (f : string) (fs : list string) :
  ~ In f recognized_formats -> (forall x, In x fs -> In x recognized_formats) -> ~ In f fs.
Proof. intros H Hs Hf. apply H, Hs, Hf. Qed.

Lemma eqb_not_recognized (f g : string) :
  ~ In f recognized_formats -> In g recognized_formats -> String.eqb f g = false.
Proof.
  intros H Hg. apply String.eqb_neq. intros ->. contradiction.
Qed.

(** Claim C3 (amended).  For a tag outside
    {pandas, json, dict, csv, readable, StringIO, fits, BytesIO} both
    [__format_to_accept_header] and [__parse_post] raise the illegal-format
    [ValueError] whose message is the fixed text followed by the tag.  For
    a tag inside the set, [__format_to_accept_header] returns a header and
    [__parse_post] raises no illegal-format error: the only exceptions it
    can raise come from decoding the body (invalid UTF-8, invalid JSON,
    missing or mistyped [Result]/[Data]/[Columns] entries, or pandas). *)
Theorem format_dispatch_illegal_iff_unrecognized :
  forall f : string,
    (~ In f recognized_formats ->
       __format_to_accept_header f = Raise (ValueError (EXCEPT.ILLEGAL_FORMAT_ERROR ++ f)) /\
       forall L resp w,
         __parse_post L resp f w = (Raise (ValueError (EXCEPT.ILLEGAL_FORMAT_ERROR ++ f)), w)) /\
    (In f recognized_formats ->
       (exists h, __format_to_accept_header f = Ok h) /\
       forall L resp w e, fst (__parse_post L resp f w) = Raise e -> body_error e).
Proof.
  intros f. split.
  - intros Hf.
    assert (Hr : forall g, In g recognized_formats -> String.eqb f g = false)
      by (intros g Hg; now apply eqb_not_recognized).
    split.
    + unfold __format_to_accept_header; cbn [existsb].
      rewrite !Hr by (cbn; tauto). reflexivity.
    + intros L resp w. unfold __parse_post, in_formats; cbn [existsb].
      rewrite !Hr by (cbn; tauto). reflexivity.
  - intros Hf. split.
    + cbn in Hf; repeat destruct Hf as [<- | Hf]; try contradiction; eexists; reflexivity.
    + intros L resp w e He. exact (proj2 (parse_post_recognized L resp f Hf w) e He).
Qed.

(** Claim C3 fails as stated: with the recognized tag "csv", [__parse_post]
    raises when the body of the answer is not UTF-8. *)
Lemma parse_post_csv_undecodable :
  __parse_post libs_ex (mkResponse 200 [xff]) "csv" (world_ex [])
  = (Raise UnicodeDecodeError, world_ex []).
Proof. reflexivity. Qed.

(** ** The building blocks of CasJobs.py under a fixed token *)

Lemma stable_token (P : option string -> Prop) :
  stable (fun w => P (w_token w)).
Proof. intros w Hw; split; intros; exact Hw. Qed.

Lemma stable_logged_in (t : string) : stable (logged_in t).
Proof. apply (stable_token (fun o => o = Some t)). Qed.

Lemma stable_logged_out : stable logged_out.
Proof. apply (stable_token (fun o => o = None \/ o = Some "")). Qed.

Lemma url_for_ok (key : string) (w : World) :
  In key url_keys -> url_for key w = (Ok (url_in (w_config w) key), w).
Proof. cbn; intros H; repeat destruct H as [<- | H]; try contradiction; reflexivity. Qed.

Section Blocks.
Context (I : World -> Prop) (P : Event -> Prop) (E : Exc -> Prop).

Lemma spec_url_for (key : string) :
  In key url_keys -> spec I P (fun _ => True) E (url_for key).
Proof.
  intros Hk w Hw. rewrite (url_for_ok key w Hk). cbn. split; [exact Hw|].
  split; [exists []; split; [now rewrite app_nil_r | constructor] | exact Logic.I].
Qed.

Lemma spec_config_any : spec I P (fun _ => True) E get_config.
Proof.
  intros w Hw; cbn; split; [exact Hw|]; split;
    [exists []; split; [now rewrite app_nil_r | constructor] | exact Logic.I].
Qed.

Lemma spec_get_taskname (x : string) :
  spec I P (fun _ => True) E (__get_taskname x).
Proof.
  unfold __get_taskname. eapply spec_bind; [apply spec_config_any|].
  intros; now apply spec_ret.
Qed.

Lemma spec_taskname_url (x : string) :
  spec I P (fun _ => True) E (__taskname_url x).
Proof.
  unfold __taskname_url. eapply spec_bind; [apply spec_config_any|].
  intros; now apply spec_ret.
Qed.

Lemma spec_print (s : string) :
  stable I -> P (EPrint s) -> spec I P (fun _ => True) E (print s).
Proof. intros; now apply spec_emit. Qed.

Lemma spec_sleep (z : Z) :
  stable I -> P (ESleep z) -> spec I P (fun _ => True) E (sleep z).
Proof. intros; now apply spec_emit. Qed.

Lemma spec_gather {A} (Q : A -> Prop) (tasks : list (M A)) :
  (forall m, In m tasks -> spec I P Q E m) -> E IndexError ->
  spec I P (Forall Q) E (gather tasks).
Proof.
  intros Ht HE. unfold gather.
  apply (spec_bind I P E (fun _ => True)).
  { intros w Hw; cbn; split; [exact Hw|]; split;
      [exists []; split; [now rewrite app_nil_r | constructor] | exact Logic.I]. }
  intros sched _.
  set (optQ := fun o : option A => match o with Some a => Q a | None => True end).
  assert (Hrun : forall order slots, Forall optQ slots ->
            spec I P (Forall optQ) E (run_in_order tasks order slots)).
  { induction order as [|i order IH]; intros slots Hs; cbn.
    - now apply spec_ret.
    - eapply spec_bind.
      + destruct (nth_in_or_default i tasks (raise IndexError)) as [Hin | ->].
        * apply Ht, Hin.
        * now apply spec_raise.
      + intros a Ha. apply IH.
        clear IH. revert i. induction Hs as [|o slots Ho Hs IHs]; intros [|i]; cbn;
          constructor; auto. }
  eapply spec_bind; [apply Hrun, Forall_forall; intros x Hx;
                     apply repeat_spec in Hx; now subst|].
  intros slots Hs. apply spec_ret.
  unfold somes. apply Forall_forall. intros a Ha.
  apply in_flat_map in Ha as (o & Ho & Ha).
  destruct o as [b|]; [|contradiction]. destruct Ha as [<- | []].
  exact (proj1 (Forall_forall _ _) Hs _ Ho).
Qed.
End Blocks.

Lemma spec_token_valid (t : string) (P : Event -> Prop) (E : Exc -> Prop) :
  t <> "" -> spec (logged_in t) P (fun x => x = t) E __token.
Proof.
  intros Ht. unfold __token. eapply spec_bind; [apply (spec_getToken _ _ _ (Some t)); auto|].
  intros o ->. apply String.eqb_neq in Ht. rewrite Ht. now apply spec_ret.
Qed.

Lemma spec_token_invalid (P : Event -> Prop) (E : Exc -> Prop) :
  E (ValueError EXCEPT.LOGIN_ERROR) -> spec logged_out P (fun _ => False) E __token.
Proof.
  intros HE w Hw. unfold __token, getToken, bind; cbn.
  destruct Hw as [Hw | Hw]; rewrite Hw; cbn; (split; [unfold logged_out; rewrite Hw; auto|]);
    (split; [exists []; split; [now rewrite app_nil_r | constructor] | exact HE]).
Qed.

Lemma get_headers_none (t : string) (hs : list (string * string)) :
  __get_headers t None = Ok hs -> hs = base_headers t.
Proof. unfold __get_headers; intros [= <-]; reflexivity. Qed.

Lemma get_headers_some (t f : string) (hs : list (string * string)) :
  __get_headers t (Some f) = Ok hs ->
  exists h, __format_to_accept_header f = Ok h /\
            hs = (base_headers t ++ [(CASJOBSCONST.ACCEPT, h)])%list.
Proof.
  unfold __get_headers. destruct (__format_to_accept_header f) as [h|e]; [|discriminate].
  intros [= <-]. now exists h.
Qed.

Lemma get_headers_error (t : string) (f : option string) (e : Exc) :
  __get_headers t f = Raise e -> not_login e.
Proof.
  destruct f as [f|]; unfold __get_headers; [|discriminate].
  unfold __format_to_accept_header.
  repeat match goal with |- context [if ?b then _ else _] => destruct b end;
    intros [= <-]; apply illegal_format_not_login.
Qed.

Lemma stateless_weaken (E E' : Exc -> Prop) {A} (m : M A) :
  (forall e, E e -> E' e) -> stateless E m -> stateless E' m.
Proof. intros H Hm w; destruct (Hm w) as [H1 H2]; split; auto. Qed.

Lemma body_error_not_login (e : Exc) : body_error e -> not_login e.
Proof.
  unfold body_error, not_login.
  intros [-> | [-> | [-> | [-> | [-> | [msg ->]]]]]]; discriminate.
Qed.

Lemma py_int_not_login (L : Libs) (v : Json) (e : Exc) :
  py_int L v = Raise e -> not_login e.
Proof.
  destruct v; cbn; try discriminate; try (intros [= <-]; discriminate).
  destruct (int_of_str L s); [discriminate | intros [= <-]; intros [=]].
Qed.

Lemma stateless_concat_data (E : Exc -> Prop) (r responses : list Json) :
  E KeyError -> E IndexError -> E TypeError -> stateless E (concat_data r responses).
Proof.
  intros H1 H2 H3. revert r; induction responses as [|x l IH]; intros r; cbn.
  - apply stateless_ret.
  - repeat stateless_step; auto.
Qed.

Lemma shape_get (t fmt url : string) (hs : list (string * string)) :
  __get_headers t None = Ok hs -> event_ok t fmt (ERequest (mkRequest GET url hs NoData)).
Proof. intros H; apply get_headers_none in H; subst; left; auto. Qed.

Lemma shape_delete (t fmt url : string) (hs : list (string * string)) :
  __get_headers t None = Ok hs -> event_ok t fmt (ERequest (mkRequest DELETE url hs NoData)).
Proof. intros H; apply get_headers_none in H; subst; left; auto. Qed.

Lemma shape_put (t fmt url q n : string) (hs : list (string * string)) :
  __get_headers t (Some "readable") = Ok hs ->
  event_ok t fmt (ERequest (mkRequest PUT url hs (__format_data q n))).
Proof.
  intros H; apply get_headers_some in H as (h & Hh & ->).
  vm_compute in Hh; injection Hh as <-. right; left; split; [reflexivity|].
  split; [reflexivity | do 2 eexists; reflexivity].
Qed.

Lemma shape_post (t f url q n : string) (hs : list (string * string)) :
  __get_headers t (Some f) = Ok hs ->
  event_ok t f (ERequest (mkRequest POST url hs (__format_data q n))).
Proof.
  intros H; apply get_headers_some in H as (h & Hh & ->).
  right; right; left; split; [reflexivity|].
  split; [exists h; auto | do 2 eexists; reflexivity].
Qed.

Lemma shape_upload (t fmt url : string) (bs : list byte) :
  event_ok t fmt (ERequest (mkRequest POST url [(CASJOBSCONST.X_AUTH_TOKEN, t)] (RawData bs))).
Proof. right; right; right; split; [reflexivity|]; split; [reflexivity | eexists; reflexivity]. Qed.

Lemma event_ok_carries_token (t fmt : string) (ev : Event) :
  event_ok t fmt ev -> carries_token t ev.
Proof.
  destruct ev as [r| | | |]; cbn; auto.
  unfold request_shape.
  intros [(_ & -> & _) | [(_ & -> & _) | [(_ & (h & _ & ->) & _) | (_ & -> & _)]]];
    cbn; auto.
Qed.

Lemma aio_result_not_login (a : AioJson) (e : Exc) :
  aio_result a = Raise e -> not_login e.
Proof. destruct a; cbn; intros [= <-]; discriminate. Qed.

Ltac nl_tac :=
  match goal with
  | |- forall _, not_login (LibraryError _) => intros ?; discriminate
  | |- not_login (ValueError (http_error_message _ _ _)) => apply http_error_not_login
  | |- not_login (ValueError (EXCEPT.ILLEGAL_FORMAT_ERROR ++ _)) => apply illegal_format_not_login
  | |- not_login _ => unfold not_login; first [discriminate | intros [=]]
  | |- forall e, not_login e -> not_login e => exact (fun _ h => h)
  end.

Ltac sl_tac :=
  repeat (first
    [ stateless_step
    | progress unfold __response_to_json
    | apply stateless_validate
    | apply stateless_async_validate
    | apply stateless_concat_data
    | apply stateless_raise
    | apply stateless_lift; intros ? ?He;
      first [ exact (py_int_not_login _ _ _ He) | exact (get_headers_error _ _ _ He)
            | exact (aio_result_not_login _ _ He) ]
    | eapply stateless_weaken; [|apply parse_post_stateless];
      intros ? [?He | ->]; [now apply body_error_not_login | apply illegal_format_not_login]
    | nl_tac ]).

Lemma spec_take_task_name (I : World -> Prop) (P : Event -> Prop) (E : Exc -> Prop) (d : string) :
  (forall w o, I w -> I (set_task o w)) -> spec I P (fun _ => True) E (take_task_name d).
Proof.
  intros HI. unfold take_task_name. apply (spec_bind _ _ _ (fun _ => True)).
  - intros w Hw; cbn; split; [exact Hw|]; split;
      [exists []; split; [now rewrite app_nil_r | constructor] | exact Logic.I].
  - intros [n|] _.
    + apply (spec_bind _ _ _ (fun _ => True)); [apply spec_put_task; intros w Hw; now apply HI|].
      intros; now apply spec_ret.
    + apply spec_get_taskname.
Qed.

(** Discharging the step of a run that does not send anything. *)
Ltac leaf I_stable :=
  first
  [ apply spec_url_for; cbn; tauto
  | apply spec_config_any
  | apply spec_get_taskname
  | apply spec_taskname_url
  | apply spec_take_task_name; intros ? ? ?; assumption
  | apply spec_keystone; [apply I_stable | reflexivity]
  | apply spec_print; [apply I_stable | exact Logic.I]
  | apply spec_sleep; [apply I_stable | exact Logic.I]
  | apply spec_emit; [apply I_stable | exact Logic.I]
  | apply spec_put_task; intros ? ?; assumption
  | apply spec_stateless; solve [sl_tac] ].

(** Verification conditions of a run with the valid token [t]. *)
Ltac vc_with t lemmas :=
  repeat (cbv beta zeta;
  match goal with
  | |- spec _ _ _ _ (bind __token _) =>
      apply (spec_bind _ _ _ (fun x => x = t)); [now apply spec_token_valid | intros ? ->]
  | |- spec _ _ _ _ (bind (lift (__get_headers ?tk ?f)) _) =>
      apply (spec_bind _ _ _ (fun hs => __get_headers tk f = Ok hs));
      [apply spec_lift; intros ? ?He; exact (get_headers_error _ _ _ He) | intros ?hs ?Hhs]
  | |- spec _ _ _ _ (bind (http _) _) =>
      apply (spec_bind _ _ _ (fun _ => True));
      [apply spec_http; [apply stable_logged_in
                        | first [ now apply shape_upload | eapply shape_get; eassumption
                                | eapply shape_delete; eassumption
                                | eapply shape_put; eassumption
                                | eapply shape_post; eassumption ]
                        | discriminate]
      | intros ? _]
  | |- spec _ _ _ _ (bind (if ?b then _ else _) _) => destruct b
  | |- spec _ _ _ _ (bind _ _) =>
      apply (spec_bind _ _ _ (fun _ => True));
      [first [lemmas | leaf stable_logged_in] | intros ? _]
  | |- spec _ _ _ _ (ret _) => now apply spec_ret
  | |- spec _ _ _ _ (raise _) => apply spec_raise; nl_tac
  | |- spec _ _ _ _ (match ?x with _ => _ end) => destruct x
  | |- spec _ _ _ _ (if ?b then _ else _) => destruct b
  | |- spec _ _ _ _ _ => first [lemmas | leaf stable_logged_in]
  end).

Section Logged.
Context (t : string) (Ht : t <> "").

Let I := logged_in t.

Lemma spec_response_get (fmt : string) (L : Libs) (url on_error : string) :
  spec I (event_ok t fmt) (fun _ => True) not_login (__response_get L url t on_error).
Proof. unfold __response_get. vc_with t fail. Qed.

Lemma spec_getSchemaName (fmt : string) (L : Libs) :
  spec I (event_ok t fmt) (fun _ => True) not_login (getSchemaName L).
Proof. unfold getSchemaName. vc_with t ltac:(apply spec_response_get). Qed.

Lemma spec_getTables (fmt : string) (L : Libs) (context : string) :
  spec I (event_ok t fmt) (fun _ => True) not_login (getTables L context).
Proof. unfold getTables. vc_with t ltac:(apply spec_response_get). Qed.

Lemma spec_executeQuery (L : Libs) (sql context format : string) :
  spec I (event_ok t format) (fun _ => True) not_login (executeQuery L sql context format).
Proof. unfold executeQuery. vc_with t fail. Qed.

Lemma spec_async_post (L : Libs) (url : string) (sqls : list string)
    (hs : list (string * string)) (f tn : string) :
  __get_headers t (Some f) = Ok hs ->
  spec I (event_ok t f) (fun _ => True) not_login (__async_post_request L url sqls hs tn).
Proof.
  intros Hhs. unfold __async_post_request.
  eapply spec_weaken; [|apply (spec_gather I (event_ok t f) not_login (fun _ => True))].
  - intros; exact Logic.I.
  - intros m Hm. apply in_map_iff in Hm as (d & <- & _).
    unfold __make_post_request, read_post_response. vc_with t fail.
  - discriminate.
Qed.

Lemma spec_executeQueryAsync (L : Libs) (sql : SqlArg) (context : string)
    (format : option string) :
  spec I (event_ok t "json") (fun _ => True) not_login (executeQueryAsync L sql context format).
Proof. unfold executeQueryAsync. vc_with t ltac:(eapply spec_async_post; eassumption). Qed.

Lemma spec_submitJob (fmt : string) (L : Libs) (sql context : string) :
  spec I (event_ok t fmt) (fun _ => True) not_login (submitJob L sql context).
Proof. unfold submitJob. vc_with t fail. Qed.

Lemma spec_getJobStatus (fmt : string) (L : Libs) (jobId : JobId) :
  spec I (event_ok t fmt) (fun _ => True) not_login (getJobStatus L jobId).
Proof. unfold getJobStatus. vc_with t ltac:(apply spec_response_get). Qed.

Lemma spec_cancelJob (fmt : string) (L : Libs) (jobId : JobId) :
  spec I (event_ok t fmt) (fun _ => True) not_login (cancelJob L jobId).
Proof. unfold cancelJob. vc_with t fail. Qed.

Lemma spec_wait_loop (fmt : string) (L : Libs) (fuel : nat) (jobId : JobId)
    (verbose : bool) (pollTime : Z) :
  spec I (event_ok t fmt) (fun _ => True) not_login (wait_loop L fuel jobId verbose pollTime).
Proof.
  induction fuel as [|fuel IH]; cbn [wait_loop];
    vc_with t ltac:(first [apply IH | apply spec_getJobStatus]).
Qed.

Lemma spec_waitForJob (fmt : string) (L : Libs) (fuel : nat) (jobId : JobId)
    (verbose : bool) (pollTime : Z) :
  spec I (event_ok t fmt) (fun _ => True) not_login (waitForJob L fuel jobId verbose pollTime).
Proof. unfold waitForJob. vc_with t ltac:(apply spec_wait_loop). Qed.

Lemma spec_uploadCSVDataToTable (fmt : string) (csvData : list byte) (tableName context : string) :
  spec I (event_ok t fmt) (fun _ => True) not_login (uploadCSVDataToTable csvData tableName context).
Proof. unfold uploadCSVDataToTable. vc_with t fail. Qed.

Lemma spec_writeFitsFileFromQuery (L : Libs) (fileName q context : string) :
  spec I (event_ok t "fits") (fun _ => True) not_login (writeFitsFileFromQuery L fileName q context).
Proof. unfold writeFitsFileFromQuery. vc_with t ltac:(apply spec_executeQuery). Qed.

Lemma spec_getPandasDataFrameFromQuery (L : Libs) (q context : string) :
  spec I (event_ok t "readable") (fun _ => True) not_login (getPandasDataFrameFromQuery L q context).
Proof. unfold getPandasDataFrameFromQuery. vc_with t ltac:(apply spec_executeQuery). Qed.

Lemma spec_getNumpyArrayFromQuery (L : Libs) (q context : string) :
  spec I (event_ok t "readable") (fun _ => True) not_login (getNumpyArrayFromQuery L q context).
Proof.
  unfold getNumpyArrayFromQuery. vc_with t ltac:(apply spec_getPandasDataFrameFromQuery).
Qed.

Lemma spec_uploadPandasDataFrameToTable (fmt : string) (df : Frame) (tableName context : string) :
  spec I (event_ok t fmt) (fun _ => True) not_login (uploadPandasDataFrameToTable df tableName context).
Proof. unfold uploadPandasDataFrameToTable. vc_with t ltac:(apply spec_uploadCSVDataToTable). Qed.

(** Every public operation, run with the valid token [t]: requests of the
    shapes of [request_shape], with the Accept header of the call's output
    format on its query POSTs, and never the login error. *)
Lemma spec_run_call (L : Libs) (c : Call) :
  spec I (event_ok t (post_format c)) (fun _ => True) not_login (run_call L c).
Proof.
  destruct c; cbn [run_call post_format]; unfold discard;
    apply (spec_bind _ _ _ (fun _ => True)); try (intros; now apply spec_ret);
    first [ apply spec_getSchemaName | apply spec_getTables | apply spec_executeQuery
          | apply spec_executeQueryAsync | apply spec_submitJob | apply spec_getJobStatus
          | apply spec_cancelJob | apply spec_waitForJob | apply spec_writeFitsFileFromQuery
          | apply spec_getPandasDataFrameFromQuery | apply spec_getNumpyArrayFromQuery
          | apply spec_uploadPandasDataFrameToTable | apply spec_uploadCSVDataToTable ].
Qed.
End Logged.

(** Verification conditions of a run without a valid token: the login
    error is raised at the first [__token], so nothing after it runs. *)
Ltac lo_with lemmas :=
  repeat (cbv beta zeta;
  match goal with
  | |- spec _ _ _ _ (bind __token _) =>
      apply (spec_bind _ _ _ (fun _ => False)); [now apply spec_token_invalid | intros ? []]
  | |- spec _ _ _ _ (bind (if ?b then _ else _) _) => destruct b
  | |- spec _ _ _ _ (bind _ _) =>
      first [ apply (spec_bind _ _ _ (fun _ => False)); [lemmas | intros ? []]
            | apply (spec_bind _ _ _ (fun _ => True)); [leaf stable_logged_out | intros ? _] ]
  | |- spec _ _ _ _ _ => lemmas
  end).

Section LoggedOut.
Let E := fun e => e = ValueError EXCEPT.LOGIN_ERROR.

Lemma lo_getSchemaName (L : Libs) :
  spec logged_out no_network (fun _ => False) E (getSchemaName L).
Proof. unfold getSchemaName. lo_with fail. Qed.

Lemma lo_getTables (L : Libs) (context : string) :
  spec logged_out no_network (fun _ => False) E (getTables L context).
Proof. unfold getTables. lo_with fail. Qed.

Lemma lo_executeQuery (L : Libs) (sql context format : string) :
  spec logged_out no_network (fun _ => False) E (executeQuery L sql context format).
Proof. unfold executeQuery. lo_with fail. Qed.

Lemma lo_executeQueryAsync (L : Libs) (sql : SqlArg) (context : string) (format : option string) :
  spec logged_out no_network (fun _ => False) E (executeQueryAsync L sql context format).
Proof. unfold executeQueryAsync. lo_with fail. Qed.

Lemma lo_submitJob (L : Libs) (sql context : string) :
  spec logged_out no_network (fun _ => False) E (submitJob L sql context).
Proof. unfold submitJob. lo_with fail. Qed.

Lemma lo_getJobStatus (L : Libs) (jobId : JobId) :
  spec logged_out no_network (fun _ => False) E (getJobStatus L jobId).
Proof. unfold getJobStatus. lo_with fail. Qed.

Lemma lo_cancelJob (L : Libs) (jobId : JobId) :
  spec logged_out no_network (fun _ => False) E (cancelJob L jobId).
Proof. unfold cancelJob. lo_with fail. Qed.

Lemma lo_waitForJob (L : Libs) (fuel : nat) (jobId : JobId) (verbose : bool) (pollTime : Z) :
  spec logged_out no_network (fun _ => False) E (waitForJob L (S fuel) jobId verbose pollTime).
Proof. unfold waitForJob. cbn [wait_loop]. lo_with ltac:(apply lo_getJobStatus). Qed.

Lemma lo_uploadCSVDataToTable (csvData : list byte) (tableName context : string) :
  spec logged_out no_network (fun _ => False) E (uploadCSVDataToTable csvData tableName context).
Proof. unfold uploadCSVDataToTable. lo_with fail. Qed.

Lemma lo_writeFitsFileFromQuery (L : Libs) (fileName q context : string) :
  spec logged_out no_network (fun _ => False) E (writeFitsFileFromQuery L fileName q context).
Proof. unfold writeFitsFileFromQuery. lo_with ltac:(apply lo_executeQuery). Qed.

Lemma lo_getPandasDataFrameFromQuery (L : Libs) (q context : string) :
  spec logged_out no_network (fun _ => False) E (getPandasDataFrameFromQuery L q context).
Proof. unfold getPandasDataFrameFromQuery. lo_with ltac:(apply lo_executeQuery). Qed.

Lemma lo_getNumpyArrayFromQuery (L : Libs) (q context : string) :
  spec logged_out no_network (fun _ => False) E (getNumpyArrayFromQuery L q context).
Proof. unfold getNumpyArrayFromQuery. lo_with ltac:(apply lo_getPandasDataFrameFromQuery). Qed.

Lemma lo_uploadPandasDataFrameToTable (df : Frame) (tableName context : string) :
  spec logged_out no_network (fun _ => False) E (uploadPandasDataFrameToTable df tableName context).
Proof. unfold uploadPandasDataFrameToTable. lo_with ltac:(apply lo_uploadCSVDataToTable). Qed.

(** Every public operation, run without a valid token. *)
Lemma lo_run_call (L : Libs) (c : Call) :
  spec logged_out no_network (fun _ => False) E (run_call L c).
Proof.
  destruct c; cbn [run_call]; unfold discard;
    (apply (spec_bind _ _ _ (fun _ => False)); [|intros ? []]);
    first [ apply lo_getSchemaName | apply lo_getTables | apply lo_executeQuery
          | apply lo_executeQueryAsync | apply lo_submitJob | apply lo_getJobStatus
          | apply lo_cancelJob | apply lo_waitForJob | apply lo_writeFitsFileFromQuery
          | apply lo_getPandasDataFrameFromQuery | apply lo_getNumpyArrayFromQuery
          | apply lo_uploadPandasDataFrameToTable | apply lo_uploadCSVDataToTable ].
Qed.
End LoggedOut.

(** ** C6: concurrent queries *)

Lemma bind_ok {A B} (m : M A) (k : A -> M B) (w : World) (b : B) :
  fst (bind m k w) = Ok b -> exists a, fst (m w) = Ok a /\ fst (k a (snd (m w))) = Ok b.
Proof. unfold bind. destruct (m w) as [[a|e] w1]; cbn; [eauto | discriminate]. Qed.

Ltac peel H := apply bind_ok in H as (?a & ?Ha & H); cbv beta in H.

Lemma set_nth_length {A} (n : nat) (x : A) (l : list A) :
  length (set_nth n x l) = length l.
Proof. revert n; induction l as [|y l IH]; intros [|n]; cbn; auto. Qed.

Lemma nth_error_set_nth {A} (n : nat) (x : A) (l : list A) (j : nat) :
  nth_error (set_nth n x l) j =
  if Nat.eqb n j then match nth_error l j with Some _ => Some x | None => None end
  else nth_error l j.
Proof.
  revert n j; induction l as [|y l IH]; intros [|n] [|j]; cbn; auto.
  destruct (Nat.eqb n j); reflexivity.
Qed.

Lemma completion_order_covers (sched : list nat) (k i : nat) :
  (i < k)%nat -> In i (completion_order sched k).
Proof.
  intros Hi. unfold completion_order. apply in_or_app.
  set (first := dedup_nat [] (filter (fun i => Nat.ltb i k) sched)).
  destruct (existsb (Nat.eqb i) first) eqn:He.
  - left. apply existsb_exists in He as (x & Hx & Hxi). apply Nat.eqb_eq in Hxi. now subst.
  - right. apply filter_In. split; [apply in_seq; lia | now rewrite He].
Qed.

Lemma run_in_order_ok {A} (tasks : list (M A)) (order : list nat) :
  forall slots w slots',
    fst (run_in_order tasks order slots w) = Ok slots' -> slots_ok tasks slots ->
    slots_ok tasks slots' /\
    (forall i, (i < length tasks)%nat -> In i order \/ filled slots i -> filled slots' i).
Proof.
  induction order as [|i0 order IH]; intros slots w slots' H [Hlen Hres]; cbn [run_in_order] in H.
  - injection H as <-. split; [now split|]. intros i _ [[] | Hf]; exact Hf.
  - peel H.
    destruct (Nat.lt_ge_cases i0 (length tasks)) as [Hlt | Hge];
      [| rewrite nth_overflow in Ha by exact Hge; discriminate].
    assert (Hslots : slots_ok tasks (set_nth i0 (Some a) slots)).
    { split; [now rewrite set_nth_length|].
      intros j m b Hm Hb. rewrite nth_error_set_nth in Hb.
      destruct (Nat.eqb_spec i0 j) as [<- | Hne].
      - destruct (nth_error slots i0); [injection Hb as <- | discriminate].
        rewrite (nth_error_nth' tasks (raise IndexError) Hlt) in Hm. injection Hm as <-.
        exists w; exact Ha.
      - eapply Hres; eassumption. }
    destruct (IH _ _ _ H Hslots) as [Hok Hfill]. split; [exact Hok|].
    intros i Hi Hor. apply Hfill; [exact Hi|].
    destruct (Nat.eq_dec i0 i) as [<- | Hne].
    + right. exists a. rewrite nth_error_set_nth, Nat.eqb_refl.
      destruct (nth_error slots i0) eqn:Hn; [reflexivity|].
      apply nth_error_None in Hn. lia.
    + destruct Hor as [[Heq | Hin] | (b & Hb)]; [contradiction | now left |].
      right. exists b. rewrite nth_error_set_nth. apply Nat.eqb_neq in Hne. now rewrite Hne.
Qed.

Lemma somes_filled {A} (tasks : list (M A)) :
  forall slots, slots_ok tasks slots -> (forall i, (i < length tasks)%nat -> filled slots i) ->
  Forall2 result_of tasks (somes slots).
Proof.
  induction tasks as [|m tasks IH]; intros [|o slots] [Hlen Hres] Hf; cbn in Hlen; try discriminate.
  - constructor.
  - destruct (Hf 0%nat ltac:(cbn; lia)) as (a & Ha). cbn in Ha. injection Ha as ->.
    cbn. constructor.
    + now apply (Hres 0%nat).
    + apply IH.
      * split; [lia|]. intros i m' b Hm Hb. now apply (Hres (S i)).
      * intros i Hi. apply (Hf (S i)). cbn; lia.
Qed.

(** [asyncio.gather] returns the results in the order of its tasks,
    whatever the order in which they complete. *)
Lemma gather_in_order {A} (tasks : list (M A)) (w : World) (rs : list A) :
  fst (gather tasks w) = Ok rs -> Forall2 result_of tasks rs.
Proof.
  intros H. unfold gather in H. peel H. peel H. cbn in H. injection H as <-.
  assert (Hinit : slots_ok tasks (repeat None (length tasks))).
  { split; [apply repeat_length|]. intros i m b _ Hb.
    apply nth_error_In, repeat_spec in Hb. discriminate. }
  destruct (run_in_order_ok _ _ _ _ _ Ha0 Hinit) as [Hok Hfill].
  apply somes_filled; [exact Hok|].
  intros i Hi. apply Hfill; [exact Hi|]. left. now apply completion_order_covers.
Qed.

Lemma Forall2_map_l {A B C} (f : A -> B) (R : B -> C -> Prop) (l : list A) (l' : list C) :
  Forall2 R (map f l) l' -> Forall2 (fun x y => R (f x) y) l l'.
Proof.
  revert l'; induction l as [|x l IH]; intros l' H; inversion H; subst; constructor; auto.
Qed.

(** [__make_post_request] returns a Python list: the ["Result"] level of
    the response has already been taken off. *)
Lemma make_post_request_list (L : Libs) (hs : list (string * string)) (url data tn : string)
    (w : World) (j : Json) :
  fst (__make_post_request L hs url data tn w) = Ok j -> exists l, j = JArr l.
Proof.
  unfold __make_post_request, read_post_response. intros H.
  do 6 peel H. cbn in H. injection H as <-. eauto.
Qed.

(** Without a format, the results of [executeQueryAsync] are, in the order
    of the queries, results of the requests sent for them. *)
Lemma executeQueryAsync_results_in_order (L : Libs) (sql : SqlArg) (context : string)
    (w : World) (rs : list Json) :
  fst (executeQueryAsync L sql context None w) = Ok (AsyncList rs) ->
  exists hs tn,
    Forall2 (fun q r => result_of (__make_post_request L hs
                                     (CasJobsRESTUri (w_config w) ++ "/contexts/" ++ context ++ "/query")
                                     q tn) r)
            (sql_list sql) rs.
Proof.
  intros H. unfold executeQueryAsync in H. cbv beta zeta in H.
  peel H. cbn in Ha; injection Ha as <-. cbn [snd get_config] in H.
  do 4 peel H. cbn in H. injection H as <-.
  exists a0, a1. unfold __async_post_request in Ha2.
  apply gather_in_order, Forall2_map_l in Ha2.
  destruct sql; exact Ha2.
Qed.

Lemma getitem_raise (v k : Json) (e : Exc) (w : World) :
  py_getitem v k = Raise e -> fst (getitem v k w) = Raise e.
Proof. unfold getitem; intros ->; reflexivity. Qed.

(** C6: [executeQueryAsync] with a format, whatever the queries, the
    service's answers and the order in which the requests complete, never
    returns a table: every run raises.  The combined path indexes each
    per-query result with ["Result"], a level [__make_post_request] has
    already taken off (TypeError), and with no query [responses[0]] is out
    of range (IndexError). *)
Theorem executeQueryAsync_combined_always_raises (L : Libs) (sql : SqlArg) (context f : string)
    (w : World) :
  exists e, fst (executeQueryAsync L sql context (Some f) w) = Raise e.
Proof.
  destruct (fst (executeQueryAsync L sql context (Some f) w)) as [v|e] eqn:H; [exfalso | eauto].
  unfold executeQueryAsync in H. cbv beta zeta in H.
  do 5 peel H. cbv beta iota in H.
  unfold __async_post_request in Ha3.
  apply gather_in_order, Forall2_map_l in Ha3.
  destruct a3 as [|r0 rest].
  - peel H. cbn in Ha4. injection Ha4 as <-.
    peel H. rewrite getitem_raise with (e := IndexError) in Ha4 by reflexivity. discriminate.
  - inversion Ha3 as [|q r0' qs rest' (w0 & Hr0) _]; subst.
    apply make_post_request_list in Hr0 as (l & ->).
    peel H. cbn [concat_data] in Ha4. peel Ha4.
    rewrite getitem_raise with (e := TypeError) in Ha5 by reflexivity. discriminate.
Qed.

(** ** C5: the login check *)

(** C5: for every public operation: without a token or with the empty
    token it raises the login error, and before doing so it has sent no
    HTTP request and made no call to the authentication service; with a
    non-empty token it does not raise the login error, every request it
    sends carries the header [X-Auth-Token] with that token, and the
    authentication service is called with it. *)
Theorem token_checked_before_network (L : Libs) (c : Call) (w : World) :
  exists evs, w_log (snd (run_call L c w)) = (w_log w ++ evs)%list /\
  match w_token w with
  | Some t =>
      if String.eqb t "" then
        fst (run_call L c w) = Raise (ValueError EXCEPT.LOGIN_ERROR) /\ Forall no_network evs
      else
        fst (run_call L c w) <> Raise (ValueError EXCEPT.LOGIN_ERROR) /\
        Forall (carries_token t) evs
  | None => fst (run_call L c w) = Raise (ValueError EXCEPT.LOGIN_ERROR) /\ Forall no_network evs
  end.
Proof.
  destruct (w_token w) as [t|] eqn:Htok.
  - destruct (String.eqb_spec t "") as [-> | Hne].
    + destruct (lo_run_call L c w (or_intror Htok)) as (_ & (evs & Hl & Hf) & Hr).
      exists evs. split; [exact Hl|].
      destruct (fst (run_call L c w)); [destruct Hr | now subst].
    + destruct (spec_run_call t Hne L c w Htok) as (_ & (evs & Hl & Hf) & Hr).
      exists evs. split; [exact Hl|]. split.
      * destruct (fst (run_call L c w)); [discriminate|]. intros [= ->]. exact (Hr eq_refl).
      * eapply Forall_impl; [|exact Hf]. apply event_ok_carries_token.
  - destruct (lo_run_call L c w (or_introl Htok)) as (_ & (evs & Hl & Hf) & Hr).
    exists evs. split; [exact Hl|].
    destruct (fst (run_call L c w)); [destruct Hr | now subst].
Qed.

(** ** C9: request headers *)

(** C9 (counterexample): a plain GET carries the content-type header,
    and the POST of a CSV upload carries neither a content-type nor an
    accept header. *)
Lemma get_has_content_type_upload_has_none :
  (exists r, In (ERequest r) (w_log (snd (getTables libs_ex "MyDB"
                                              (world_ex [mkResponse 200 []])))) /\
             req_method r = GET /\
             In (CASJOBSCONST.CONTENT_TYPE, CASJOBSCONST.CONTENT_JSON) (req_headers r)) /\
  (exists r, In (ERequest r) (w_log (snd (uploadCSVDataToTable [x61] "T" "MyDB"
                                              (world_ex [mkResponse 200 []])))) /\
             req_method r = POST /\
             req_headers r = [(CASJOBSCONST.X_AUTH_TOKEN, "tok")]).
Proof.
  split; (eexists; split; [vm_compute; left; reflexivity | split; [reflexivity|]]);
    [vm_compute; right; left; reflexivity | reflexivity].
Qed.

(** C9: with a non-empty token [t], every request a public operation
    sends has one of the shapes of [request_shape]: GET and DELETE carry
    [X-Auth-Token: t] and [Content-Type: application/json]; the PUT of
    submitJob carries these and [Accept: text/plain]; the query POSTs carry
    these and the Accept header of the call's output format [post_format c]
    (the requested format for executeQuery, "json" for executeQueryAsync
    whatever format was asked, "fits" or "readable" for the helpers built on
    executeQuery); the CSV-upload POST carries [X-Auth-Token: t] only. *)
Theorem request_headers_by_kind (L : Libs) (c : Call) (w : World) (t : string)
    (Htok : w_token w = Some t) (Hne : t <> "") :
  exists evs, w_log (snd (run_call L c w)) = (w_log w ++ evs)%list /\
              Forall (event_ok t (post_format c)) evs.
Proof.
  destruct (spec_run_call t Hne L c w Htok) as (_ & (evs & Hl & Hf) & _).
  exists evs; split; assumption.
Qed.

Lemma request_headers_by_kind_witness :
  w_token (world_ex [mkResponse 200 []]) = Some "tok" /\ "tok" <> "" /\
  exists evs, w_log (snd (run_call libs_ex (CexecuteQuery "select 1" "MyDB" "csv")
                                    (world_ex [mkResponse 200 []]))) =
              (w_log (world_ex [mkResponse 200 []]) ++ evs)%list /\
              Forall (event_ok "tok" (post_format (CexecuteQuery "select 1" "MyDB" "csv"))) evs.
Proof.
  split; [reflexivity|]. split; [discriminate|].
  apply (request_headers_by_kind libs_ex (CexecuteQuery "select 1" "MyDB" "csv")
                                 (world_ex [mkResponse 200 []]) "tok"); [reflexivity | discriminate].
Defined.

(** ** Frames: what an operation leaves unchanged *)

Section Keeps.
Context (R : World -> Prop) (HR : stable R).

Lemma keeps_bind {A B} (m : M A) (k : A -> M B) :
  keeps R m -> (forall a, keeps R (k a)) -> keeps R (bind m k).
Proof.
  intros Hm Hk w Hw. specialize (Hm w Hw). unfold bind.
  destruct (m w) as [[a|e] w1]; cbn in *; [now apply Hk | exact Hm].
Qed.

Lemma keeps_stateless {A} (E : Exc -> Prop) (m : M A) : stateless E m -> keeps R m.
Proof. intros Hm w Hw. now rewrite (proj1 (Hm w)). Qed.

Lemma keeps_emit (ev : Event) : keeps R (emit ev).
Proof. intros w Hw. now apply HR. Qed.

Lemma keeps_keystone (t : string) : keeps R (getKeystoneUserId t).
Proof. intros w Hw. now apply HR. Qed.

Lemma keeps_http (r : Request) : keeps R (http r).
Proof.
  intros w Hw. unfold http. destruct (w_responses w); cbn; apply HR; [|apply HR]; exact Hw.
Qed.

Lemma keeps_map_m {A B} (f : A -> M B) (l : list A) :
  (forall x, keeps R (f x)) -> keeps R (map_m f l).
Proof.
  intros Hf; induction l as [|x l IH]; cbn; [intros w Hw; exact Hw|].
  apply keeps_bind; [apply Hf|]; intros y.
  apply keeps_bind; [exact IH|]; intros ys. intros w Hw; exact Hw.
Qed.

Lemma keeps_gather {A} (tasks : list (M A)) :
  (forall m, In m tasks -> keeps R m) -> keeps R (gather tasks).
Proof.
  intros Ht. unfold gather. apply keeps_bind; [intros w Hw; exact Hw|]; intros sched.
  apply keeps_bind; [|intros; intros w Hw; exact Hw].
  generalize (repeat (@None A) (length tasks)).
  induction (completion_order sched (length tasks)) as [|i order IH]; intros slots; cbn.
  - intros w Hw; exact Hw.
  - apply keeps_bind; [|intros; apply IH].
    destruct (nth_in_or_default i tasks (raise IndexError)) as [Hin | ->];
      [now apply Ht | intros w Hw; exact Hw].
Qed.

Lemma ends_bind {A B} (m : M A) (k : A -> M B) :
  ends R m -> (forall a, keeps R (k a)) -> ends R (bind m k).
Proof.
  intros Hm Hk w. specialize (Hm w). unfold bind.
  destruct (m w) as [[a|e] w1]; cbn in *; [now apply Hk | exact Hm].
Qed.

Lemma ends_bind_ok {A B} (m : M A) (k : A -> M B) :
  (forall w, exists a w', m w = (Ok a, w')) -> (forall a, ends R (k a)) -> ends R (bind m k).
Proof.
  intros Hm Hk w. destruct (Hm w) as (a & w' & Hw). unfold bind. rewrite Hw. apply Hk.
Qed.
End Keeps.

Ltac sl_true :=
  repeat (first
    [ stateless_step
    | exact Logic.I
    | intros; exact Logic.I
    | progress unfold __response_to_json
    | apply stateless_validate
    | apply stateless_async_validate
    | apply stateless_concat_data
    | apply stateless_raise
    | apply stateless_lift
    | eapply stateless_weaken; [|apply parse_post_stateless] ]).

Ltac kleaf :=
  first
  [ intros ?w ?Hw; exact Hw
  | apply keeps_emit; assumption
  | apply keeps_http; assumption
  | apply keeps_keystone; assumption
  | apply (keeps_stateless _ (fun _ => True)); solve [sl_true]
  | progress unfold __token, __get_taskname, __taskname_url, url_for, print, sleep,
                    __response_get, getJobStatus, __async_post_request ].

Ltac kp lemmas :=
  repeat (cbv beta zeta;
  match goal with
  | |- keeps _ (bind (if ?b then _ else _) _) => destruct b
  | |- keeps _ (bind _ _) => apply keeps_bind; [first [lemmas | kleaf] | intros ?]
  | |- keeps _ (match ?x with _ => _ end) => destruct x
  | |- keeps _ (if ?b then _ else _) => destruct b
  | |- keeps _ _ => first [lemmas | kleaf]
  end).

(** ** C7: the task-name override *)

Lemma stable_task_eq (X : option string) : stable (fun w => w_task w = X).
Proof. intros w Hw; split; intros; exact Hw. Qed.

Section TaskFrame.
Context (X : option string).
Let R := fun w => w_task w = X.

Lemma task_getSchemaName (L : Libs) : keeps R (getSchemaName L).
Proof. pose proof (stable_task_eq X) as HR. unfold getSchemaName. kp fail. Qed.

Lemma task_getTables (L : Libs) (context : string) : keeps R (getTables L context).
Proof. pose proof (stable_task_eq X) as HR. unfold getTables. kp fail. Qed.

Lemma task_executeQueryAsync (L : Libs) (sql : SqlArg) (context : string) (f : option string) :
  keeps R (executeQueryAsync L sql context f).
Proof.
  pose proof (stable_task_eq X) as HR. unfold executeQueryAsync.
  kp ltac:(apply keeps_gather; intros ?m ?Hm;
           apply in_map_iff in Hm as (?d & <- & _); unfold __make_post_request, read_post_response; kp fail).
Qed.

Lemma task_submitJob (L : Libs) (sql context : string) : keeps R (submitJob L sql context).
Proof. pose proof (stable_task_eq X) as HR. unfold submitJob. kp fail. Qed.

Lemma task_getJobStatus (L : Libs) (jobId : JobId) : keeps R (getJobStatus L jobId).
Proof. pose proof (stable_task_eq X) as HR. unfold getJobStatus. kp fail. Qed.

Lemma task_cancelJob (L : Libs) (jobId : JobId) : keeps R (cancelJob L jobId).
Proof. pose proof (stable_task_eq X) as HR. unfold cancelJob. kp fail. Qed.

Lemma task_waitForJob (L : Libs) (fuel : nat) (jobId : JobId) (verbose : bool) (pollTime : Z) :
  keeps R (waitForJob L fuel jobId verbose pollTime).
Proof.
  pose proof (stable_task_eq X) as HR. unfold waitForJob.
  apply keeps_bind; [destruct verbose; kp fail|]; intros _.
  induction fuel as [|fuel IH]; cbn [wait_loop]; kp ltac:(first [apply IH | apply task_getJobStatus]).
Qed.
End TaskFrame.

Lemma take_task_name_eq (d : string) (w : World) :
  take_task_name d w =
  (Ok (task_name_for w d), match w_task w with Some _ => set_task None w | None => w end).
Proof. unfold take_task_name, task_name_for, bind; cbn. destruct (w_task w); reflexivity. Qed.

Lemma take_task_name_clears (d : string) : ends (fun w => w_task w = None) (take_task_name d).
Proof. intros w. rewrite take_task_name_eq. cbn. destruct (w_task w) eqn:H; [reflexivity | exact H]. Qed.

Section Clears.
Let R := fun w => w_task w = None.

Lemma clears_executeQuery (L : Libs) (sql context format : string) :
  ends R (executeQuery L sql context format).
Proof.
  pose proof (stable_task_eq None) as HR. unfold executeQuery.
  apply ends_bind; [apply take_task_name_clears|]. intros ?. kp fail.
Qed.

Lemma clears_uploadCSVDataToTable (csvData : list byte) (tableName context : string) :
  ends R (uploadCSVDataToTable csvData tableName context).
Proof.
  pose proof (stable_task_eq None) as HR. unfold uploadCSVDataToTable.
  apply ends_bind; [apply take_task_name_clears|]. intros ?. kp fail.
Qed.

Lemma set_override_ok (x : string) :
  forall w, exists a w', (__get_taskname x) w = (Ok a, w').
Proof. intros w; do 2 eexists; reflexivity. Qed.

Lemma put_task_ok (o : option string) :
  forall w, exists a w', put_task o w = (Ok a, w').
Proof. intros w; do 2 eexists; reflexivity. Qed.

Lemma clears_writeFitsFileFromQuery (L : Libs) (fileName q context : string) :
  ends R (writeFitsFileFromQuery L fileName q context).
Proof.
  pose proof (stable_task_eq None) as HR. unfold writeFitsFileFromQuery.
  apply ends_bind_ok; [apply set_override_ok|]; intros ?.
  apply ends_bind_ok; [apply put_task_ok|]; intros ?.
  apply ends_bind; [apply clears_executeQuery|]; intros ?. kp fail.
Qed.

Lemma clears_getPandasDataFrameFromQuery (L : Libs) (q context : string) :
  ends R (getPandasDataFrameFromQuery L q context).
Proof.
  pose proof (stable_task_eq None) as HR. unfold getPandasDataFrameFromQuery.
  apply ends_bind_ok; [apply set_override_ok|]; intros ?.
  apply ends_bind_ok; [apply put_task_ok|]; intros ?.
  apply ends_bind; [apply clears_executeQuery|]; intros ?. kp fail.
Qed.

Lemma clears_getNumpyArrayFromQuery (L : Libs) (q context : string) :
  ends R (getNumpyArrayFromQuery L q context).
Proof.
  pose proof (stable_task_eq None) as HR. unfold getNumpyArrayFromQuery.
  apply ends_bind_ok; [apply set_override_ok|]; intros ?.
  apply ends_bind_ok; [apply put_task_ok|]; intros ?.
  apply ends_bind; [apply clears_getPandasDataFrameFromQuery|]; intros ?. kp fail.
Qed.

Lemma clears_uploadPandasDataFrameToTable (df : Frame) (tableName context : string) :
  ends R (uploadPandasDataFrameToTable df tableName context).
Proof.
  unfold uploadPandasDataFrameToTable.
  apply ends_bind_ok; [apply set_override_ok|]; intros ?.
  apply ends_bind_ok; [apply put_task_ok|]; intros ?.
  apply clears_uploadCSVDataToTable.
Qed.
End Clears.

(** The override after a public operation: cleared by the operations
    that read it, untouched by the others. *)
Lemma run_call_task (L : Libs) (c : Call) (w : World) :
  w_task (snd (run_call L c w)) = if consults c then None else w_task w.
Proof.
  pose proof (stable_task_eq None) as HN.
  pose proof (stable_task_eq (w_task w)) as HX.
  destruct c; cbn [run_call consults]; unfold discard;
    first
    [ apply (ends_bind (fun w => w_task w = None)); [|intros; intros ?w ?Hw; exact Hw];
      first [ apply clears_executeQuery | apply clears_writeFitsFileFromQuery
            | apply clears_getPandasDataFrameFromQuery | apply clears_getNumpyArrayFromQuery
            | apply clears_uploadPandasDataFrameToTable | apply clears_uploadCSVDataToTable ]
    | apply (keeps_bind (fun w' => w_task w' = w_task w)); [|intros; intros ?w ?Hw; exact Hw| reflexivity];
      first [ apply task_getSchemaName | apply task_getTables | apply task_executeQueryAsync
            | apply task_submitJob | apply task_getJobStatus | apply task_cancelJob
            | apply task_waitForJob ] ].
Qed.

Lemma http_then {A} (req : Request) (k : Response -> M A) (w : World) :
  (forall r, stateless (fun _ => True) (k r)) ->
  w_log (snd (bind (http req) k w)) = (w_log w ++ [ERequest req])%list.
Proof.
  intros Hk. unfold bind, http. destruct (w_responses w) as [|r rest]; [reflexivity|].
  cbv zeta. destruct (Hk r (set_responses rest (log_event (ERequest req) w))) as [Hs _].
  destruct (k r _) as [x w']; cbn in *. now subst.
Qed.

Lemma token_same (w : World) : snd (__token w) = w.
Proof.
  unfold __token, bind, getToken; cbn. destruct (w_token w) as [t|]; [destruct (String.eqb t "")|]; reflexivity.
Qed.

Lemma taskname_url_eq (x : string) (w : World) :
  __taskname_url x w = (Ok (taskname_url_in (w_config w) x), w).
Proof. reflexivity. Qed.

Lemma after_take (w : World) :
  w_config (match w_task w with Some _ => set_task None w | None => w end) = w_config w /\
  w_log (match w_task w with Some _ => set_task None w | None => w end) = w_log w.
Proof. destruct (w_task w); split; reflexivity. Qed.

(** [executeQuery] sends at most one request: a POST to the query URL
    built from the task name, with the query and the task name as body. *)
Lemma executeQuery_log (L : Libs) (sql context format : string) (w : World) :
  exists evs, w_log (snd (executeQuery L sql context format w)) = (w_log w ++ evs)%list /\
  (evs = [] \/
   exists hs, evs = [ERequest (mkRequest POST
                                (query_url (w_config w) context (task_name_for w TASKNAMES.EXECUTEQUERY))
                                hs (QueryData sql (task_name_for w TASKNAMES.EXECUTEQUERY)))]).
Proof.
  unfold executeQuery. unfold bind at 1. rewrite take_task_name_eq. cbv beta iota.
  destruct (after_take w) as [Hc Hl].
  set (w1 := match w_task w with Some _ => set_task None w | None => w end) in *.
  set (n := task_name_for w TASKNAMES.EXECUTEQUERY).
  unfold bind at 1. rewrite url_for_ok by (cbn; tauto). cbv beta iota zeta.
  unfold bind at 1. rewrite taskname_url_eq. cbv beta iota.
  unfold bind at 1. destruct (__token w1) as [[t|e] w2] eqn:Htk.
  2:{ pose proof (f_equal snd Htk) as Hs. rewrite token_same in Hs. cbn in Hs. subst w2.
      exists []. rewrite app_nil_r. split; [exact Hl | now left]. }
  pose proof (f_equal snd Htk) as Hs. rewrite token_same in Hs. cbn in Hs. subst w2.
  unfold bind at 1. destruct (__get_headers t (Some format)) as [hs|e]; cbn [lift ret raise].
  2:{ exists []. rewrite app_nil_r. split; [exact Hl | now left]. }
  eexists. rewrite http_then.
  - split; [rewrite Hl; reflexivity|]. right. exists hs. rewrite Hc. reflexivity.
  - intros r. sl_true.
Qed.

(** [uploadCSVDataToTable] sends at most one request: a POST of the raw
    CSV bytes to the URL built from the task name. *)
Lemma uploadCSVDataToTable_log (csvData : list byte) (tableName context : string) (w : World) :
  exists evs, w_log (snd (uploadCSVDataToTable csvData tableName context w)) = (w_log w ++ evs)%list /\
  (evs = [] \/
   exists t, w_token w = Some t /\
   evs = [ERequest (mkRequest POST
                     (upload_url (w_config w) context tableName
                                 (task_name_for w TASKNAMES.UPLOADCSVDATATOTABLE))
                     [(CASJOBSCONST.X_AUTH_TOKEN, t)] (RawData csvData))]).
Proof.
  unfold uploadCSVDataToTable. unfold bind at 1. rewrite take_task_name_eq. cbv beta iota.
  destruct (after_take w) as [Hc Hl].
  assert (Ht : w_token (match w_task w with Some _ => set_task None w | None => w end) = w_token w)
    by (destruct (w_task w); reflexivity).
  set (w1 := match w_task w with Some _ => set_task None w | None => w end) in *.
  unfold bind at 1. rewrite url_for_ok by (cbn; tauto). cbv beta iota zeta.
  unfold bind at 1. rewrite taskname_url_eq. cbv beta iota.
  unfold bind at 1. destruct (__token w1) as [[t|e] w2] eqn:Htk.
  2:{ pose proof (f_equal snd Htk) as Hs. rewrite token_same in Hs. cbn in Hs. subst w2.
      exists []. rewrite app_nil_r. split; [exact Hl | now left]. }
  pose proof (f_equal snd Htk) as Hs. rewrite token_same in Hs. cbn in Hs. subst w2.
  assert (Htw : w_token w = Some t).
  { rewrite <- Ht. unfold __token, bind, getToken in Htk. cbn in Htk.
    destruct (w_token w1) as [t'|]; [|discriminate].
    destruct (String.eqb t' ""); [discriminate|]. now injection Htk as ->. }
  eexists. rewrite http_then.
  - split; [rewrite Hl; reflexivity|]. right. exists t. split; [exact Htw|]. rewrite Hc. reflexivity.
  - intros r. sl_true.
Qed.

(** C7: the override [task.name] is one-shot.  After any public operation
    it is [None] if the operation reads it (executeQuery,
    uploadCSVDataToTable and the operations built on them, whatever the
    outcome) and unchanged otherwise; the one request executeQuery and
    uploadCSVDataToTable may send uses the override when it is set, and the
    operation's default task name when it is not. *)
Theorem task_override_one_shot (L : Libs) :
  (forall c w, w_task (snd (run_call L c w)) = if consults c then None else w_task w) /\
  (forall sql context format w,
     exists evs, w_log (snd (executeQuery L sql context format w)) = (w_log w ++ evs)%list /\
     (evs = [] \/
      exists hs, evs = [ERequest (mkRequest POST
                                   (query_url (w_config w) context
                                              (task_name_for w TASKNAMES.EXECUTEQUERY))
                                   hs (QueryData sql (task_name_for w TASKNAMES.EXECUTEQUERY)))])) /\
  (forall csvData tableName context w,
     exists evs, w_log (snd (uploadCSVDataToTable csvData tableName context w)) = (w_log w ++ evs)%list /\
     (evs = [] \/
      exists t, w_token w = Some t /\
      evs = [ERequest (mkRequest POST
                        (upload_url (w_config w) context tableName
                                    (task_name_for w TASKNAMES.UPLOADCSVDATATOTABLE))
                        [(CASJOBSCONST.X_AUTH_TOKEN, t)] (RawData csvData))])).
Proof.
  split; [|split].
  - intros c w. apply run_call_task.
  - intros. apply executeQuery_log.
  - intros. apply uploadCSVDataToTable_log.
Qed.

(** ** C8: the CSV of an uploaded dataframe *)

(** C8: the only request [uploadPandasDataFrameToTable] may send carries
    as body the UTF-8 CSV text of the dataframe: with a named index (a name
    that is not [None] and not empty) its header row starts with the index
    name and each row with its index label; otherwise it has the columns
    and the rows only. *)
Theorem uploaded_csv_index_column (df : Frame) (tableName context : string) (w : World) :
  exists evs, w_log (snd (uploadPandasDataFrameToTable df tableName context w)) = (w_log w ++ evs)%list /\
  Forall (fun ev => match ev with
                    | ERequest r =>
                        if index_is_named df then
                          exists n, df_index_name df = Some n /\ n <> "" /\
                          req_data r = RawData (str_encode (csv_text
                                         ((n :: df_columns df) :: zip_cons (df_index df) (df_rows df))))
                        else
                          req_data r = RawData (str_encode (csv_text (df_columns df :: df_rows df)))
                    | _ => True
                    end) evs.
Proof.
  set (w1 := set_task (Some (get_taskname_in (w_config w) TASKNAMES.UPLOADPANDASDATAFRAMETOTABLE)) w).
  set (sio := if index_is_named df then str_encode (to_csv df true) else str_encode (to_csv df false)).
  change (uploadPandasDataFrameToTable df tableName context w)
    with (uploadCSVDataToTable sio tableName context w1).
  destruct (uploadCSVDataToTable_log sio tableName context w1) as (evs & Hl & Hev).
  exists evs. split; [exact Hl|].
  destruct Hev as [-> | (t & _ & ->)]; [constructor|]. constructor; [|constructor].
  cbn [req_data]. unfold sio, index_is_named, to_csv, to_csv_rows.
  destruct (df_index_name df) as [n|]; [|reflexivity].
  destruct (String.eqb_spec n ""); cbn [negb]; [reflexivity|].
  exists n. auto.
Qed.

(** ** C10: the task name in the URL *)

Lemma no_lt_cons (c : ascii) (s : string) :
  no_lt (String c s) = negb (Ascii.eqb c "<") && no_lt s.
Proof. reflexivity. Qed.

Lemma replace_no_lt (p rep s r : string) :
  no_lt s = true -> replace_from (String "<" p) rep 0 (s ++ r) = s ++ replace_from (String "<" p) rep 0 r.
Proof.
  induction s as [|c s IH]; intros H; [reflexivity|].
  rewrite no_lt_cons in H. apply andb_prop in H as [Hc Hs].
  cbn [append replace_from]. rewrite <- IH by exact Hs.
  cbn [String.prefix]. destruct (ascii_dec "<" c) as [<- | _]; [discriminate | reflexivity].
Qed.

Lemma replace_skip (pat rep s r : string) :
  replace_from pat rep (String.length s) (s ++ r) = replace_from pat rep 0 r.
Proof. induction s as [|c s IH]; [reflexivity|]. exact IH. Qed.

Lemma prefix_app (p r : string) : String.prefix p (p ++ r) = true.
Proof.
  induction p as [|c p IH]; [destruct r; reflexivity|]. cbn.
  destruct (ascii_dec c c) as [_ | []]; [exact IH | reflexivity].
Qed.

Lemma replace_at (c : ascii) (p rep r : string) :
  replace_from (String c p) rep 0 (String c p ++ r) = rep ++ replace_from (String c p) rep 0 r.
Proof.
  cbn [append replace_from].
  replace (String.prefix (String c p) (String c (p ++ r))) with true
    by (symmetry; exact (prefix_app (String c p) r)).
  cbn [String.length pred].
  rewrite replace_skip. reflexivity.
Qed.

Lemma py_replace_lt (s p rep : string) :
  py_replace s (String "<" p) rep = replace_from (String "<" p) rep 0 s.
Proof. reflexivity. Qed.

Lemma url_in_executeQuery (cfg : Config) :
  url_in cfg TASKNAMES.EXECUTEQUERY = CasJobsRESTUri cfg ++ "/contexts/<context>/query<taskname>".
Proof. unfold url_in. cbn. rewrite !str_app_assoc. reflexivity. Qed.

Lemma context_replaced (cfg : Config) (context : string) :
  no_lt (CasJobsRESTUri cfg) = true ->
  py_replace (url_in cfg TASKNAMES.EXECUTEQUERY) DCONST.CONTEXT_ID context =
  CasJobsRESTUri cfg ++ "/contexts/" ++ context ++ "/query<taskname>".
Proof.
  intros Hu. rewrite url_in_executeQuery. unfold DCONST.CONTEXT_ID. rewrite py_replace_lt.
  change "/contexts/<context>/query<taskname>"
    with ("/contexts/" ++ "<context>" ++ "/query<taskname>").
  rewrite replace_no_lt by exact Hu.
  rewrite (replace_no_lt _ _ "/contexts/") by reflexivity.
  rewrite replace_at. reflexivity.
Qed.

Lemma taskname_replaced (cfg : Config) (context tn : string) :
  no_lt (CasJobsRESTUri cfg) = true -> no_lt context = true ->
  py_replace (CasJobsRESTUri cfg ++ "/contexts/" ++ context ++ "/query<taskname>")
             DCONST.TASKNAME_ID tn =
  CasJobsRESTUri cfg ++ "/contexts/" ++ context ++ "/query" ++ tn.
Proof.
  intros Hu Hc. unfold DCONST.TASKNAME_ID. rewrite py_replace_lt.
  rewrite replace_no_lt by exact Hu.
  rewrite (replace_no_lt _ _ "/contexts/") by reflexivity.
  rewrite replace_no_lt by exact Hc.
  change "/query<taskname>" with ("/query" ++ "<taskname>" ++ "").
  rewrite (replace_no_lt _ _ "/query") by reflexivity.
  rewrite replace_at. cbn [replace_from]. rewrite str_app_nil_r. reflexivity.
Qed.

(** If [u] is shorter than [rest] and [a] does not occur in [rest], then
    [rest] is not a prefix of [u ++ String a t]. *)
Lemma prefix_short_false (a : ascii) (rest u t : string) :
  forallb (fun c => negb (Ascii.eqb c a)) (list_ascii_of_string rest) = true ->
  String.length u < String.length rest ->
  String.prefix rest (u ++ String a t) = false.
Proof.
  revert rest. induction u as [|e u IH]; intros rest Hr Hl;
    destruct rest as [|d rest]; cbn in Hl; try lia.
  - cbn in Hr |- *. apply andb_prop in Hr as [Hd _].
    destruct (ascii_dec d a) as [-> | _]; [|reflexivity].
    rewrite Ascii.eqb_refl in Hd. discriminate.
  - cbn in Hr |- *. apply andb_prop in Hr as [_ Hr].
    destruct (ascii_dec d e); [|reflexivity]. apply IH; [exact Hr | lia].
Qed.

(** [str.replace] keeps what it makes of a tail [String a t] at the end of
    the text, whatever comes before it, when the pattern [String b rest]
    cannot start before the tail and end inside it ([a] does not occur in
    [rest]). *)
Lemma replace_tail (b a : ascii) (rest rep t t2 : string) :
  forallb (fun c => negb (Ascii.eqb c a)) (list_ascii_of_string rest) = true ->
  replace_from (String b rest) rep 0 (String a t) = t2 ->
  forall (s : string) (k : nat), k <= String.length s ->
  exists x, replace_from (String b rest) rep k (s ++ String a t) = x ++ t2.
Proof.
  intros Hr Ht. induction s as [|c s IH]; intros k Hk.
  - cbn in Hk. assert (k = 0) as -> by lia. exists "". exact Ht.
  - destruct k as [|k].
    + cbn [append replace_from].
      destruct (String.prefix (String b rest) (String c (s ++ String a t))) eqn:Hp.
      * cbn [String.length pred].
        destruct (Nat.le_gt_cases (String.length rest) (String.length s)) as [Hle | Hgt].
        -- destruct (IH _ Hle) as [x Hx]. exists (rep ++ x). rewrite Hx, str_app_assoc. reflexivity.
        -- exfalso. cbn in Hp. destruct (ascii_dec b c); [|discriminate].
           rewrite prefix_short_false in Hp by assumption. discriminate.
      * destruct (IH 0 ltac:(lia)) as [x Hx]. exists (String c x). rewrite Hx. reflexivity.
    + cbn [append replace_from]. apply IH. cbn in Hk. lia.
Qed.

(** Whatever the service URI and the context, the URL of [executeQuery]
    ends with the [TaskName] parameter substituted for its placeholder. *)
Lemma query_url_suffix (cfg : Config) (context p : string) :
  exists u, py_replace (py_replace (url_in cfg TASKNAMES.EXECUTEQUERY) DCONST.CONTEXT_ID context)
                       DCONST.TASKNAME_ID p = u ++ p.
Proof.
  rewrite url_in_executeQuery. unfold DCONST.CONTEXT_ID, DCONST.TASKNAME_ID. rewrite !py_replace_lt.
  replace (CasJobsRESTUri cfg ++ "/contexts/<context>/query<taskname>")
    with ((CasJobsRESTUri cfg ++ "/contexts/<context>") ++ String "/" "query<taskname>")
    by (rewrite str_app_assoc; reflexivity).
  destruct (replace_tail "<" "/" "context>" context "query<taskname>" "/query<taskname>"
              eq_refl eq_refl (CasJobsRESTUri cfg ++ "/contexts/<context>") 0 ltac:(lia)) as [x1 ->].
  replace (x1 ++ "/query<taskname>") with ((x1 ++ "/query") ++ String "<" "taskname>")
    by (rewrite str_app_assoc; reflexivity).
  destruct (replace_tail "<" "<" "taskname>" p "taskname>" p eq_refl
              ltac:(cbn; apply str_app_nil_r) (x1 ++ "/query") 0 ltac:(lia)) as [x2 ->].
  eauto.
Qed.

(** Whatever the service URI, the context and the table name, the URL of
    [uploadCSVDataToTable] ends with the [TaskName] parameter substituted
    for its placeholder. *)
Lemma upload_url_suffix (cfg : Config) (context tableName p : string) :
  exists u, py_replace (py_replace (py_replace (url_in cfg TASKNAMES.EXECUTEQUERY)
                                               DCONST.CONTEXT_ID context)
                                   DCONST.TABLENAME_ID tableName)
                       DCONST.TASKNAME_ID p = u ++ p.
Proof.
  rewrite url_in_executeQuery. unfold DCONST.CONTEXT_ID, DCONST.TABLENAME_ID, DCONST.TASKNAME_ID.
  rewrite !py_replace_lt.
  replace (CasJobsRESTUri cfg ++ "/contexts/<context>/query<taskname>")
    with ((CasJobsRESTUri cfg ++ "/contexts/<context>") ++ String "/" "query<taskname>")
    by (rewrite str_app_assoc; reflexivity).
  destruct (replace_tail "<" "/" "context>" context "query<taskname>" "/query<taskname>"
              eq_refl eq_refl (CasJobsRESTUri cfg ++ "/contexts/<context>") 0 ltac:(lia)) as [x1 ->].
  destruct (replace_tail "<" "/" "tablename>" tableName "query<taskname>" "/query<taskname>"
              eq_refl eq_refl x1 0 ltac:(lia)) as [x2 ->].
  replace (x2 ++ "/query<taskname>") with ((x2 ++ "/query") ++ String "<" "taskname>")
    by (rewrite str_app_assoc; reflexivity).
  destruct (replace_tail "<" "<" "taskname>" p "taskname>" p eq_refl
              ltac:(cbn; apply str_app_nil_r) (x2 ++ "/query") 0 ltac:(lia)) as [x3 ->].
  eauto.
Qed.

Lemma default_taskname_url (cfg : Config) (d : string) :
  taskname_url_in cfg (get_taskname_in cfg d) =
  "?TaskName=" ++ taskname_prefix cfg ++ taskname_prefix cfg ++ d.
Proof.
  unfold taskname_url_in, get_taskname_in, taskname_prefix.
  destruct (isSciServerComputeEnvironment cfg); reflexivity.
Qed.

Lemma default_taskname (cfg : Config) (d : string) :
  get_taskname_in cfg d = taskname_prefix cfg ++ d.
Proof. unfold get_taskname_in, taskname_prefix. destruct (isSciServerComputeEnvironment cfg); reflexivity. Qed.

(** C10 (counterexample): the body of the request [uploadCSVDataToTable]
    sends is the raw CSV, with no TaskName field. *)
Lemma upload_body_has_no_taskname :
  exists u,
  w_log (snd (uploadCSVDataToTable [x61] "T" "MyDB" (world_ex [mkResponse 200 []]))) =
  [ERequest (mkRequest POST u [("X-Auth-Token", "tok")] (RawData [x61]))].
Proof. vm_compute. eexists. reflexivity. Qed.

(** C10: for a call without override, whatever the service URI and the
    context: the URL of the POST executeQuery sends is the query template
    with the context and, for the TaskName placeholder, a parameter that
    carries the prefix of [__get_taskname] twice, and it ends with that
    parameter; the body carries the task name with the prefix once.  The
    URL of the POST uploadCSVDataToTable sends likewise ends with a
    TaskName parameter carrying the prefix twice, and its body is the raw
    CSV, with no task name. *)
Theorem taskname_url_doubly_prefixed (L : Libs) (sql context format : string)
    (csvData : list byte) (tableName : string) (w : World)
    (Htask : w_task w = None) :
  (exists evs, w_log (snd (executeQuery L sql context format w)) = (w_log w ++ evs)%list /\
   (evs = [] \/
    exists hs u,
      evs = [ERequest (mkRequest POST
               (u ++ "?TaskName=" ++ taskname_prefix (w_config w) ++ taskname_prefix (w_config w)
                  ++ "executeQuery")
               hs (QueryData sql (taskname_prefix (w_config w) ++ "executeQuery")))] /\
      u ++ "?TaskName=" ++ taskname_prefix (w_config w) ++ taskname_prefix (w_config w) ++ "executeQuery" =
      py_replace (py_replace (url_in (w_config w) TASKNAMES.EXECUTEQUERY) DCONST.CONTEXT_ID context)
        DCONST.TASKNAME_ID
        ("?TaskName=" ++ taskname_prefix (w_config w) ++ taskname_prefix (w_config w) ++ "executeQuery"))) /\
  (exists evs, w_log (snd (uploadCSVDataToTable csvData tableName context w)) = (w_log w ++ evs)%list /\
   (evs = [] \/
    exists t u,
      evs = [ERequest (mkRequest POST
               (u ++ "?TaskName=" ++ taskname_prefix (w_config w) ++ taskname_prefix (w_config w)
                  ++ "uploadCSVDataToTable")
               [(CASJOBSCONST.X_AUTH_TOKEN, t)] (RawData csvData))])).
Proof.
  split.
  - destruct (executeQuery_log L sql context format w) as (evs & Hl & Hev).
    exists evs. split; [exact Hl|]. destruct Hev as [-> | (hs & ->)]; [now left|]. right.
    unfold query_url, task_name_for. rewrite Htask, default_taskname_url, default_taskname.
    destruct (query_url_suffix (w_config w) context
                ("?TaskName=" ++ taskname_prefix (w_config w) ++ taskname_prefix (w_config w)
                   ++ TASKNAMES.EXECUTEQUERY)) as [u Hu].
    exists hs, u. split; [rewrite Hu; reflexivity | symmetry; exact Hu].
  - destruct (uploadCSVDataToTable_log csvData tableName context w) as (evs & Hl & Hev).
    exists evs. split; [exact Hl|]. destruct Hev as [-> | (t & _ & ->)]; [now left|]. right.
    unfold upload_url, task_name_for. rewrite Htask, default_taskname_url.
    destruct (upload_url_suffix (w_config w) context tableName
                ("?TaskName=" ++ taskname_prefix (w_config w) ++ taskname_prefix (w_config w)
                   ++ TASKNAMES.UPLOADCSVDATATOTABLE)) as [u Hu].
    exists t, u. rewrite Hu. reflexivity.
Qed.

Lemma taskname_url_doubly_prefixed_witness :
  w_task (world_ex [mkResponse 200 []]) = None /\
  ((exists evs, w_log (snd (executeQuery libs_ex "select 1" "<MyDB>" "csv" (world_ex [mkResponse 200 []]))) =
                (w_log (world_ex [mkResponse 200 []]) ++ evs)%list /\
     (evs = [] \/
      exists hs u,
        evs = [ERequest (mkRequest POST
                 (u ++ "?TaskName=" ++ taskname_prefix config_ex ++ taskname_prefix config_ex
                    ++ "executeQuery")
                 hs (QueryData "select 1" (taskname_prefix config_ex ++ "executeQuery")))] /\
        u ++ "?TaskName=" ++ taskname_prefix config_ex ++ taskname_prefix config_ex ++ "executeQuery" =
        py_replace (py_replace (url_in config_ex TASKNAMES.EXECUTEQUERY) DCONST.CONTEXT_ID "<MyDB>")
          DCONST.TASKNAME_ID
          ("?TaskName=" ++ taskname_prefix config_ex ++ taskname_prefix config_ex ++ "executeQuery"))) /\
   (exists evs, w_log (snd (uploadCSVDataToTable [x61] "T" "<MyDB>" (world_ex [mkResponse 200 []]))) =
                (w_log (world_ex [mkResponse 200 []]) ++ evs)%list /\
     (evs = [] \/
      exists t u,
        evs = [ERequest (mkRequest POST
                 (u ++ "?TaskName=" ++ taskname_prefix config_ex ++ taskname_prefix config_ex
                    ++ "uploadCSVDataToTable")
                 [(CASJOBSCONST.X_AUTH_TOKEN, t)] (RawData [x61]))]))).
Proof.
  split; [reflexivity|].
  apply (taskname_url_doubly_prefixed libs_ex "select 1" "<MyDB>" "csv" [x61] "T"
                                      (world_ex [mkResponse 200 []])); reflexivity.
Defined.

(** ** C1, C2: polling a job *)

Lemma bind_step {A B} (m : M A) (k : A -> M B) (w w1 : World) (a : A) :
  m w = (Ok a, w1) -> bind m k w = k a w1.
Proof. intros H. unfold bind. rewrite H. reflexivity. Qed.

Lemma token_step (w : World) (t : string) :
  w_token w = Some t -> t <> "" -> __token w = (Ok t, w).
Proof.
  intros Ht Hne. unfold __token, bind, getToken. rewrite Ht.
  apply String.eqb_neq in Hne. rewrite Hne. reflexivity.
Qed.

Lemma poll_answer_inv (L : Libs) (resp : Response) (j : Json) (z : Z) :
  poll_answer L resp = Some (j, z) ->
  status_code resp = 200%Z /\
  exists text st, bytes_decode (content resp) = Some text /\ json_loads L text = Some j /\
                  py_getitem j (JStr "Status") = Ok st /\ py_int L st = Ok z.
Proof.
  unfold poll_answer. destruct (Z.eqb_spec (status_code resp) 200); [|discriminate].
  destruct (bytes_decode (content resp)) as [text|]; [|discriminate].
  destruct (json_loads L text) as [j'|] eqn:Hj; [|discriminate].
  destruct (py_getitem j' (JStr "Status")) as [st|] eqn:Hs; [|discriminate].
  destruct (py_int L st) as [z'|] eqn:Hz; [|discriminate].
  intros [= <- <-]. split; [assumption|]. eauto 7.
Qed.

Lemma response_get_step (L : Libs) (url t on_error : string) (w : World)
    (resp : Response) (rest : list Response) (text : string) (j : Json) :
  w_responses w = resp :: rest -> status_code resp = 200%Z ->
  bytes_decode (content resp) = Some text -> json_loads L text = Some j ->
  __response_get L url t on_error w =
  (Ok j, set_responses rest (log_event (ERequest (mkRequest GET url (base_headers t) NoData)) w)).
Proof.
  intros Hr Hs Hd Hj. unfold __response_get. cbn [lift __get_headers]. unfold ret at 1, bind at 1.
  unfold bind at 1, http. rewrite Hr. unfold bind at 1, __validate_response_status.
  rewrite Hs. cbn [Z.eqb negb Pos.eqb]. unfold ret at 1.
  unfold __response_to_json, bind, decode, of_option. rewrite Hd. unfold ret. cbv beta iota. rewrite Hj. reflexivity.
Qed.

Lemma getJobStatus_step (L : Libs) (jobId : JobId) (w : World) (t : string)
    (resp : Response) (rest : list Response) (j : Json) (z : Z) :
  w_token w = Some t -> t <> "" -> w_responses w = resp :: rest ->
  poll_answer L resp = Some (j, z) ->
  getJobStatus L jobId w =
  (Ok j, set_responses rest (log_event (ERequest (status_request (w_config w) t jobId)) w)).
Proof.
  intros Ht Hne Hr Hp. apply poll_answer_inv in Hp as (Hs & text & st & Hd & Hj & _).
  unfold getJobStatus. rewrite (bind_step _ _ _ _ _ (url_for_ok TASKNAMES.GETJOBSTATUS w ltac:(cbn; tauto))).
  rewrite (bind_step _ _ _ _ _ (token_step _ _ Ht Hne)).
  apply (response_get_step L _ _ _ w resp rest text j); assumption.
Qed.

Lemma append_log_nil (w : World) : append_log [] w = w.
Proof. destruct w; unfold append_log; cbn; rewrite app_nil_r; reflexivity. Qed.

Lemma verbose_print_step (v : bool) (s : string) (w : World) :
  (if v then print s else ret tt) w = (Ok tt, append_log (verbose_print v s) w).
Proof. destruct v; cbn; [reflexivity | rewrite append_log_nil; reflexivity]. Qed.

Lemma wait_loop_again (L : Libs) (fuel : nat) (jobId : JobId) (v : bool) (p : Z)
    (w : World) (t : string) (resp : Response) (rest : list Response) (j : Json) (z : Z) :
  w_token w = Some t -> t <> "" -> w_responses w = resp :: rest ->
  poll_answer L resp = Some (j, z) -> is_terminal z = false ->
  wait_loop L (S fuel) jobId v p w =
  wait_loop L fuel jobId v p
    (append_log (poll_again_events v (status_request (w_config w) t jobId) p) (set_responses rest w)).
Proof.
  intros Ht Hne Hr Hp Hz. pose proof (poll_answer_inv _ _ _ _ Hp) as (_ & text & st & _ & _ & Hst & Hi).
  cbn [wait_loop]. rewrite (bind_step _ _ _ _ _ (verbose_print_step v "Waiting..." w)).
  rewrite (bind_step _ _ _ _ _ (getJobStatus_step L jobId (append_log (verbose_print v "Waiting...") w) t resp rest j z Ht Hne Hr Hp)).
  unfold getitem, lift. rewrite Hst. unfold bind at 1, ret at 1.
  unfold bind at 1. rewrite Hi. unfold ret at 1. rewrite Hz.
  unfold bind, sleep, emit. f_equal.
  unfold append_log, set_responses, log_event, poll_again_events. cbn.
  rewrite <- !app_assoc. reflexivity.
Qed.

Lemma wait_loop_done (L : Libs) (fuel : nat) (jobId : JobId) (v : bool) (p : Z)
    (w : World) (t : string) (resp : Response) (rest : list Response) (j : Json) (z : Z) :
  w_token w = Some t -> t <> "" -> w_responses w = resp :: rest ->
  poll_answer L resp = Some (j, z) -> is_terminal z = true ->
  wait_loop L (S fuel) jobId v p w =
  (Ok (Some j), append_log (poll_done_events v (status_request (w_config w) t jobId)) (set_responses rest w)).
Proof.
  intros Ht Hne Hr Hp Hz. pose proof (poll_answer_inv _ _ _ _ Hp) as (_ & text & st & _ & _ & Hst & Hi).
  cbn [wait_loop]. rewrite (bind_step _ _ _ _ _ (verbose_print_step v "Waiting..." w)).
  rewrite (bind_step _ _ _ _ _ (getJobStatus_step L jobId (append_log (verbose_print v "Waiting...") w) t resp rest j z Ht Hne Hr Hp)).
  unfold getitem, lift. rewrite Hst. unfold bind at 1, ret at 1.
  unfold bind at 1. rewrite Hi. unfold ret at 1. rewrite Hz.
  rewrite (bind_step _ _ _ _ _ (verbose_print_step v _ _)). unfold ret. f_equal.
  unfold append_log, set_responses, log_event, poll_done_events. cbn.
  rewrite <- !app_assoc. reflexivity.
Qed.

Lemma append_log_twice (a b : list Event) (w : World) :
  append_log b (append_log a w) = append_log (a ++ b) w.
Proof. unfold append_log; cbn; rewrite app_assoc; reflexivity. Qed.

Lemma set_responses_append_log (rs : list Response) (evs : list Event) (w : World) :
  set_responses rs (append_log evs w) = append_log evs (set_responses rs w).
Proof. reflexivity. Qed.

Lemma wait_loop_run (L : Libs) (jobId : JobId) (v : bool) (p : Z) (t : string)
    (r : Response) (rest : list Response) (j : Json) (z : Z) (pre : list Response) :
  forall (fuel : nat) (w : World),
  w_token w = Some t -> t <> "" -> w_responses w = (pre ++ r :: rest)%list ->
  Forall (fun a => exists j' z', poll_answer L a = Some (j', z') /\ is_terminal z' = false) pre ->
  poll_answer L r = Some (j, z) -> is_terminal z = true -> (length pre < fuel)%nat ->
  wait_loop L fuel jobId v p w =
  (Ok (Some j),
   append_log (concat (map (fun _ => poll_again_events v (status_request (w_config w) t jobId) p) pre)
               ++ poll_done_events v (status_request (w_config w) t jobId))
              (set_responses rest w)).
Proof.
  induction pre as [|a pre IH]; intros fuel w Ht Hne Hr Hpre Hp Hz Hf;
    (destruct fuel as [|fuel]; [cbn in Hf; lia|]).
  - apply (wait_loop_done L fuel jobId v p w t r rest j z); assumption.
  - inversion Hpre as [|? ? (j' & z' & Ha & Haz) Hpre']; subst.
    rewrite (wait_loop_again L fuel jobId v p w t a (pre ++ r :: rest) j' z') by assumption.
    rewrite IH with (fuel := fuel) by (cbn in *; first [reflexivity | assumption | lia]).
    cbn [map concat]. rewrite set_responses_append_log, append_log_twice, app_assoc.
    reflexivity.
Qed.

Lemma waitForJob_run (L : Libs) (fuel : nat) (jobId : JobId) (v : bool) (p : Z) (w : World)
    (t : string) (pre : list Response) (r : Response) (rest : list Response) (j : Json) (z : Z) :
  w_token w = Some t -> t <> "" -> w_responses w = (pre ++ r :: rest)%list ->
  Forall (fun a => exists j' z', poll_answer L a = Some (j', z') /\ is_terminal z' = false) pre ->
  poll_answer L r = Some (j, z) -> is_terminal z = true -> (length pre < fuel)%nat ->
  waitForJob L fuel jobId v p w =
  (Ok (Some j),
   append_log (verbose_print v "Waiting..."
               ++ concat (map (fun _ => poll_again_events v (status_request (w_config w) t jobId) p) pre)
               ++ poll_done_events v (status_request (w_config w) t jobId))
              (set_responses rest w)).
Proof.
  intros Ht Hne Hr Hpre Hp Hz Hf. unfold waitForJob.
  rewrite (bind_step _ _ _ _ _ (verbose_print_step v "Waiting..." w)).
  rewrite (wait_loop_run L jobId v p t r rest j z pre fuel) by (cbn; assumption).
  rewrite set_responses_append_log, append_log_twice. reflexivity.
Qed.

(** C1: when the status answers to the polls are [pre ++ r :: rest], the
    answers in [pre] carrying a non-terminal status and [r] a terminal one,
    [waitForJob] polls once per answer of [pre], polls once more, and
    returns the status record of [r]: it answers [Some] of that record and
    leaves the answers of [rest] unread, so it polls no further. *)
Theorem waitForJob_returns_first_terminal (L : Libs) (fuel : nat) (jobId : JobId) (verbose : bool)
    (pollTime : Z) (w : World) (t : string) (pre : list Response) (r : Response)
    (rest : list Response) (j : Json) (z : Z)
    (Ht : w_token w = Some t) (Hne : t <> "") (Hr : w_responses w = (pre ++ r :: rest)%list)
    (Hpre : Forall (fun a => exists j' z', poll_answer L a = Some (j', z') /\ is_terminal z' = false) pre)
    (Hp : poll_answer L r = Some (j, z)) (Hz : is_terminal z = true) (Hf : (length pre < fuel)%nat) :
  fst (waitForJob L fuel jobId verbose pollTime w) = Ok (Some j) /\
  w_responses (snd (waitForJob L fuel jobId verbose pollTime w)) = rest.
Proof. rewrite (waitForJob_run L fuel jobId verbose pollTime w t pre r rest j z) by assumption. split; reflexivity. Qed.

Lemma waitForJob_returns_first_terminal_witness :
  w_token (mkWorld config_ex (Some "tok") "uid" None [answer_running; answer_finished] [] []) = Some "tok" /\
  "tok" <> "" /\
  fst (waitForJob libs_jobs 2 (JobInt 7) true 1
         (mkWorld config_ex (Some "tok") "uid" None [answer_running; answer_finished] [] [])) =
    Ok (Some (JObj [("Status", JNum 5)])) /\
  w_responses (snd (waitForJob libs_jobs 2 (JobInt 7) true 1
         (mkWorld config_ex (Some "tok") "uid" None [answer_running; answer_finished] [] []))) = [].
Proof.
  split; [reflexivity|]. split; [discriminate|].
  apply (waitForJob_returns_first_terminal libs_jobs 2 (JobInt 7) true 1
           (mkWorld config_ex (Some "tok") "uid" None [answer_running; answer_finished] [] [])
           "tok" [answer_running] answer_finished [] (JObj [("Status", JNum 5)]) 5%Z);
    [reflexivity | discriminate | reflexivity | | vm_compute; reflexivity | reflexivity | cbn; lia].
  constructor; [|constructor]. exists (JObj [("Status", JNum 1)]), 1%Z. split; vm_compute; reflexivity.
Defined.

Lemma sleeps_app (a b : list Event) : sleeps (a ++ b) = (sleeps a ++ sleeps b)%list.
Proof. apply flat_map_app. Qed.

Lemma sleeps_verbose_print (v : bool) (s : string) : sleeps (verbose_print v s) = [].
Proof. destruct v; reflexivity. Qed.

Lemma sleeps_polls (v : bool) (q : Request) (p : Z) (pre : list Response) :
  sleeps (concat (map (fun _ => poll_again_events v q p) pre)) = repeat (Z.max 5 p) (length pre).
Proof.
  induction pre as [|a pre IH]; [reflexivity|]. cbn [map concat length repeat].
  rewrite sleeps_app, IH. unfold poll_again_events. rewrite sleeps_app, sleeps_verbose_print.
  reflexivity.
Qed.

Lemma sleeps_done (v : bool) (q : Request) : sleeps (poll_done_events v q) = [].
Proof. unfold poll_done_events. rewrite !sleeps_app, !sleeps_verbose_print. reflexivity. Qed.

(** C2: in the same run, the events [waitForJob] adds to the log are the
    optional first "Waiting...", then for each non-terminal answer an
    optional "Waiting...", its poll and a sleep of [max(pollTime, 5)]
    seconds, then the last poll and the optional "Done!" with no sleep: the
    sleeps of the run are [max(pollTime, 5)] seconds each, one per
    non-terminal poll. *)
Theorem waitForJob_sleeps_clamped (L : Libs) (fuel : nat) (jobId : JobId) (verbose : bool)
    (pollTime : Z) (w : World) (t : string) (pre : list Response) (r : Response)
    (rest : list Response) (j : Json) (z : Z)
    (Ht : w_token w = Some t) (Hne : t <> "") (Hr : w_responses w = (pre ++ r :: rest)%list)
    (Hpre : Forall (fun a => exists j' z', poll_answer L a = Some (j', z') /\ is_terminal z' = false) pre)
    (Hp : poll_answer L r = Some (j, z)) (Hz : is_terminal z = true) (Hf : (length pre < fuel)%nat) :
  exists evs,
    w_log (snd (waitForJob L fuel jobId verbose pollTime w)) = (w_log w ++ evs)%list /\
    evs = (verbose_print verbose "Waiting..."
           ++ concat (map (fun _ => poll_again_events verbose (status_request (w_config w) t jobId) pollTime) pre)
           ++ poll_done_events verbose (status_request (w_config w) t jobId))%list /\
    sleeps evs = repeat (Z.max 5 pollTime) (length pre).
Proof.
  rewrite (waitForJob_run L fuel jobId verbose pollTime w t pre r rest j z) by assumption.
  eexists. split; [reflexivity|]. split; [reflexivity|].
  rewrite !sleeps_app, sleeps_verbose_print, sleeps_polls, sleeps_done, app_nil_r. reflexivity.
Qed.

Lemma waitForJob_sleeps_clamped_witness :
  w_token (mkWorld config_ex (Some "tok") "uid" None [answer_running; answer_finished] [] []) = Some "tok" /\
  "tok" <> "" /\
  exists evs,
    w_log (snd (waitForJob libs_jobs 2 (JobInt 7) false 1
         (mkWorld config_ex (Some "tok") "uid" None [answer_running; answer_finished] [] []))) = ([] ++ evs)%list /\
    evs = (verbose_print false "Waiting..."
           ++ concat (map (fun _ => poll_again_events false (status_request config_ex "tok" (JobInt 7)) 1) [answer_running])
           ++ poll_done_events false (status_request config_ex "tok" (JobInt 7)))%list /\
    sleeps evs = repeat (Z.max 5 1) (length [answer_running]).
Proof.
  split; [reflexivity|]. split; [discriminate|].
  apply (waitForJob_sleeps_clamped libs_jobs 2 (JobInt 7) false 1
           (mkWorld config_ex (Some "tok") "uid" None [answer_running; answer_finished] [] [])
           "tok" [answer_running] answer_finished [] (JObj [("Status", JNum 5)]) 5%Z);
    [reflexivity | discriminate | reflexivity | | vm_compute; reflexivity | reflexivity | cbn; lia].
  constructor; [|constructor]. exists (JObj [("Status", JNum 1)]), 1%Z. split; vm_compute; reflexivity.
Defined.

(** ** Further properties of the module *)

Lemma http_step (r : Request) (w : World) (resp : Response) (rest : list Response) :
  w_responses w = resp :: rest ->
  http r w = (Ok resp, set_responses rest (log_event (ERequest r) w)).
Proof. intros H. unfold http. rewrite H. reflexivity. Qed.

Lemma validate_ok (resp : Response) (on_error : string) (w : World) :
  status_code resp = 200%Z -> __validate_response_status resp on_error w = (Ok tt, w).
Proof. intros H. unfold __validate_response_status. rewrite H. reflexivity. Qed.

Lemma validate_error (resp : Response) (on_error body : string) (w : World) :
  status_code resp <> 200%Z -> bytes_decode (content resp) = Some body ->
  __validate_response_status resp on_error w =
  (Raise (ValueError (http_error_message on_error (status_code resp) body)), w).
Proof.
  intros Hs Hb. unfold __validate_response_status.
  apply Z.eqb_neq in Hs. rewrite Hs. unfold bind, decode, of_option. rewrite Hb. reflexivity.
Qed.

Lemma validate_fail (resp : Response) (on_error : string) (w : World) :
  status_code resp <> 200%Z ->
  __validate_response_status resp on_error w =
  (match bytes_decode (content resp) with
   | Some body => Raise (ValueError (http_error_message on_error (status_code resp) body))
   | None => Raise UnicodeDecodeError
   end, w).
Proof.
  intros Hs. unfold __validate_response_status.
  apply Z.eqb_neq in Hs. rewrite Hs. unfold bind, decode, of_option.
  destruct (bytes_decode (content resp)); reflexivity.
Qed.

Lemma validate_fail_bind {A} (resp : Response) (on_error : string) (k : unit -> M A) (w : World) :
  status_code resp <> 200%Z ->
  fst (bind (__validate_response_status resp on_error) k w) =
  match bytes_decode (content resp) with
  | Some body => Raise (ValueError (http_error_message on_error (status_code resp) body))
  | None => Raise UnicodeDecodeError
  end.
Proof.
  intros Hs. unfold bind at 1. rewrite (validate_fail _ _ _ Hs).
  destruct (bytes_decode (content resp)); reflexivity.
Qed.

Lemma response_to_json_fst (L : Libs) (resp : Response) (w : World) :
  fst (__response_to_json L resp w) =
  match bytes_decode (content resp) with
  | Some text => match json_loads L text with Some j => Ok j | None => Raise JSONDecodeError end
  | None => Raise UnicodeDecodeError
  end.
Proof.
  unfold __response_to_json, bind, decode, of_option.
  destruct (bytes_decode (content resp)); [|reflexivity]. cbn. destruct (json_loads L _); reflexivity.
Qed.

Lemma bind_raise {A B} (m : M A) (k : A -> M B) (w w1 : World) (e : Exc) :
  m w = (Raise e, w1) -> bind m k w = (Raise e, w1).
Proof. intros H. unfold bind. rewrite H. reflexivity. Qed.

Lemma validate_same (resp : Response) (on_error : string) (w : World) :
  snd (__validate_response_status resp on_error w) = w.
Proof.
  unfold __validate_response_status. destruct (negb _); [|reflexivity].
  unfold bind, decode, of_option. destruct (bytes_decode _); reflexivity.
Qed.

Lemma response_to_json_same (L : Libs) (resp : Response) (w : World) :
  snd (__response_to_json L resp w) = w.
Proof.
  unfold __response_to_json, bind, decode, of_option.
  destruct (bytes_decode _); [|reflexivity]. cbn. destruct (json_loads L _); reflexivity.
Qed.

(** [__response_get(url, token, on_error)] with the next answer [resp]. *)
Lemma response_get_outcome (L : Libs) (url t on_error : string) (w : World)
    (resp : Response) (rest : list Response) :
  w_responses w = resp :: rest ->
  snd (__response_get L url t on_error w) =
    set_responses rest (log_event (ERequest (mkRequest GET url (base_headers t) NoData)) w) /\
  (status_code resp = 200%Z ->
     fst (__response_get L url t on_error w) =
     match bytes_decode (content resp) with
     | Some text => match json_loads L text with Some j => Ok j | None => Raise JSONDecodeError end
     | None => Raise UnicodeDecodeError
     end) /\
  (status_code resp <> 200%Z ->
     fst (__response_get L url t on_error w) =
     match bytes_decode (content resp) with
     | Some body => Raise (ValueError (http_error_message on_error (status_code resp) body))
     | None => Raise UnicodeDecodeError
     end).
Proof.
  intros Hr.
  set (w1 := set_responses rest (log_event (ERequest (mkRequest GET url (base_headers t) NoData)) w)).
  assert (Hrun : __response_get L url t on_error w =
                 (__validate_response_status resp on_error ;;; __response_to_json L resp) w1).
  { unfold __response_get. cbn [lift __get_headers]. unfold ret at 1, bind at 1.
    exact (bind_step _ _ _ _ _ (http_step _ _ _ _ Hr)). }
  rewrite Hrun.
  split; [|split].
  - unfold bind. pose proof (validate_same resp on_error w1) as Hv.
    destruct (__validate_response_status resp on_error w1) as [[[]|e] w2]; cbn in Hv; subst w2;
      [apply response_to_json_same | reflexivity].
  - intros Hs. rewrite (bind_step _ _ _ _ _ (validate_ok _ _ w1 Hs)). apply response_to_json_fst.
  - intros Hs. apply validate_fail_bind; exact Hs.
Qed.

Lemma no_lt_app (a b : string) : no_lt (a ++ b) = no_lt a && no_lt b.
Proof.
  induction a as [|c a IH]; [reflexivity|].
  rewrite !no_lt_cons. cbn [append]. rewrite no_lt_cons, IH. apply andb_assoc.
Qed.

Lemma replace_none (p rep s : string) :
  no_lt s = true -> replace_from (String "<" p) rep 0 s = s.
Proof.
  intros H. pose proof (replace_no_lt p rep s "" H) as E.
  cbn [replace_from] in E. rewrite str_app_nil_r in E. exact E.
Qed.

(** Replacing the one placeholder of a template whose other parts have no [<]. *)
Lemma replace_one (p rep a b : string) :
  no_lt a = true -> no_lt b = true ->
  py_replace (a ++ String "<" p ++ b) (String "<" p) rep = a ++ rep ++ b.
Proof.
  intros Ha Hb. rewrite py_replace_lt, replace_no_lt by exact Ha.
  rewrite replace_at, replace_none by exact Hb. reflexivity.
Qed.

Lemma no_lt_taskname_url (cfg : Config) (x : string) :
  no_lt x = true -> no_lt (taskname_url_in cfg x) = true.
Proof.
  intros H. unfold taskname_url_in, get_taskname_in.
  destruct (isSciServerComputeEnvironment cfg); rewrite !no_lt_app, H; reflexivity.
Qed.

Lemma url_in_getTables (cfg : Config) :
  url_in cfg TASKNAMES.GETTABLES =
  CasJobsRESTUri cfg ++ "/contexts/" ++ DCONST.CONTEXT_ID ++ "/Tables" ++ taskname_url_in cfg TASKNAMES.GETTABLES.
Proof. unfold url_in. cbn. rewrite !str_app_assoc. reflexivity. Qed.

Lemma url_in_getJobStatus (cfg : Config) :
  url_in cfg TASKNAMES.GETJOBSTATUS =
  CasJobsRESTUri cfg ++ "/jobs/" ++ DCONST.JOB_ID ++ taskname_url_in cfg TASKNAMES.GETJOBSTATUS.
Proof. unfold url_in. cbn. rewrite !str_app_assoc. reflexivity. Qed.

Lemma url_in_cancelJob (cfg : Config) :
  url_in cfg TASKNAMES.CANCELJOB =
  CasJobsRESTUri cfg ++ "/jobs/" ++ DCONST.JOB_ID ++ taskname_url_in cfg TASKNAMES.CANCELJOB.
Proof. unfold url_in. cbn. rewrite !str_app_assoc. reflexivity. Qed.



Lemma replace_mid (u a p rep b : string) :
  no_lt u = true -> no_lt a = true -> no_lt b = true ->
  py_replace (u ++ a ++ String "<" p ++ b) (String "<" p) rep = u ++ a ++ rep ++ b.
Proof.
  intros Hu Ha Hb. rewrite <- !(str_app_assoc u a).
  apply replace_one; [rewrite no_lt_app, Hu, Ha|]; reflexivity || assumption.
Qed.

Ltac url_tac :=
  first [ rewrite (replace_mid _ "/contexts/" "context>")
        | rewrite (replace_mid _ "/jobs/" "job_id>")
        | rewrite (replace_mid _ "/users/" "keystone_user_id>") ];
  [ reflexivity | assumption | reflexivity
  | rewrite ?no_lt_app; apply no_lt_taskname_url; reflexivity ].

Lemma getTables_url (cfg : Config) (context : string) :
  no_lt (CasJobsRESTUri cfg) = true ->
  py_replace (url_in cfg TASKNAMES.GETTABLES) DCONST.CONTEXT_ID context =
  CasJobsRESTUri cfg ++ "/contexts/" ++ context ++ "/Tables" ++ taskname_url_in cfg TASKNAMES.GETTABLES.
Proof. intros Hu. rewrite url_in_getTables. url_tac. Qed.


Lemma getJobStatus_url (cfg : Config) (jid : string) :
  no_lt (CasJobsRESTUri cfg) = true ->
  py_replace (url_in cfg TASKNAMES.GETJOBSTATUS) DCONST.JOB_ID jid =
  CasJobsRESTUri cfg ++ "/jobs/" ++ jid ++ taskname_url_in cfg TASKNAMES.GETJOBSTATUS.
Proof. intros Hu. rewrite url_in_getJobStatus. url_tac. Qed.

Lemma cancelJob_url (cfg : Config) (jid : string) :
  no_lt (CasJobsRESTUri cfg) = true ->
  py_replace (url_in cfg TASKNAMES.CANCELJOB) DCONST.JOB_ID jid =
  CasJobsRESTUri cfg ++ "/jobs/" ++ jid ++ taskname_url_in cfg TASKNAMES.CANCELJOB.
Proof. intros Hu. rewrite url_in_cancelJob. url_tac. Qed.


Lemma get_table_error_eq (context : string) :
  py_replace EXCEPT.GET_TABLE_ERROR DCONST.CONTEXT_ID context =
  "Error when getting table description from database context " ++ context ++ "." ++ newline.
Proof.
  change EXCEPT.GET_TABLE_ERROR
    with ("" ++ "Error when getting table description from database context " ++ DCONST.CONTEXT_ID ++ "." ++ newline).
  rewrite (replace_mid "" _ "context>") by reflexivity. reflexivity.
Qed.

Lemma get_job_status_error_eq (jid : string) :
  py_replace EXCEPT.GET_JOB_STATUS_ERROR DCONST.JOB_ID jid =
  "Error when getting the status of job " ++ jid ++ "." ++ newline.
Proof.
  change EXCEPT.GET_JOB_STATUS_ERROR
    with ("" ++ "Error when getting the status of job " ++ DCONST.JOB_ID ++ "." ++ newline).
  rewrite (replace_mid "" _ "job_id>") by reflexivity. reflexivity.
Qed.

Lemma cancel_job_error_eq (jid : string) :
  py_replace EXCEPT.CANCEL_JOB_ERROR DCONST.JOB_ID jid =
  "Error when canceling job " ++ jid ++ "." ++ newline.
Proof.
  change EXCEPT.CANCEL_JOB_ERROR
    with ("" ++ "Error when canceling job " ++ DCONST.JOB_ID ++ "." ++ newline).
  rewrite (replace_mid "" _ "job_id>") by reflexivity. reflexivity.
Qed.

Lemma upload_csv_error_eq (tableName : string) :
  py_replace EXCEPT.UPLOAD_CSV_ERROR DCONST.TABLENAME_ID tableName =
  "Error when uploading CSV data into CasJobs table " ++ tableName ++ "." ++ newline.
Proof.
  change EXCEPT.UPLOAD_CSV_ERROR
    with ("" ++ "Error when uploading CSV data into CasJobs table " ++ DCONST.TABLENAME_ID ++ "." ++ newline).
  rewrite (replace_mid "" _ "tablename>") by reflexivity. reflexivity.
Qed.

Lemma http_run {A} (req : Request) (k : Response -> M A) (w : World)
    (resp : Response) (rest : list Response) :
  w_responses w = resp :: rest -> stateless (fun _ => True) (k resp) ->
  snd (bind (http req) k w) = set_responses rest (log_event (ERequest req) w) /\
  fst (bind (http req) k w) = fst (k resp (set_responses rest (log_event (ERequest req) w))).
Proof.
  intros Hr Hk. rewrite (bind_step _ _ _ _ _ (http_step _ _ _ _ Hr)).
  split; [apply Hk | reflexivity].
Qed.

Lemma response_get_facts (L : Libs) (url t on_error : string) (w : World)
    (resp : Response) (rest : list Response) :
  w_responses w = resp :: rest ->
  w_log (snd (__response_get L url t on_error w)) =
    (w_log w ++ [ERequest (mkRequest GET url (base_headers t) NoData)])%list /\
  w_responses (snd (__response_get L url t on_error w)) = rest /\
  (status_code resp = 200%Z ->
     fst (__response_get L url t on_error w) =
     match bytes_decode (content resp) with
     | Some text => match json_loads L text with Some j => Ok j | None => Raise JSONDecodeError end
     | None => Raise UnicodeDecodeError
     end) /\
  (status_code resp <> 200%Z ->
     fst (__response_get L url t on_error w) =
     match bytes_decode (content resp) with
     | Some body => Raise (ValueError (http_error_message on_error (status_code resp) body))
     | None => Raise UnicodeDecodeError
     end).
Proof.
  intros Hr. destruct (response_get_outcome L url t on_error w resp rest Hr) as (Hs & Hok & Herr).
  rewrite Hs. split; [reflexivity|]. split; [reflexivity|]. split; assumption.
Qed.

Lemma getTables_eq (L : Libs) (context : string) (w : World) (t : string) :
  w_token w = Some t -> t <> "" ->
  getTables L context w =
  __response_get L (py_replace (url_in (w_config w) TASKNAMES.GETTABLES) DCONST.CONTEXT_ID context) t
    (py_replace EXCEPT.GET_TABLE_ERROR DCONST.CONTEXT_ID context) w.
Proof.
  intros Ht Hne. unfold getTables.
  rewrite (bind_step _ _ _ _ _ (url_for_ok TASKNAMES.GETTABLES w ltac:(cbn; tauto))).
  exact (bind_step _ _ _ _ _ (token_step _ _ Ht Hne)).
Qed.

(** X2: [getTables(context)] sends one GET to the Tables URL of the context
    and returns the parsed JSON body of a 200 answer; any other answer
    raises the HTTP error of the table-description message naming the
    context. *)
Theorem getTables_outcome (L : Libs) (context : string) (w : World) (t : string)
    (resp : Response) (rest : list Response)
    (Ht : w_token w = Some t) (Hne : t <> "") (Hu : no_lt (CasJobsRESTUri (w_config w)) = true)
    (Hr : w_responses w = resp :: rest) :
  w_log (snd (getTables L context w)) =
    (w_log w ++ [ERequest (mkRequest GET
       (CasJobsRESTUri (w_config w) ++ "/contexts/" ++ context ++ "/Tables"
        ++ taskname_url_in (w_config w) TASKNAMES.GETTABLES)
       (base_headers t) NoData)])%list /\
  w_responses (snd (getTables L context w)) = rest /\
  (status_code resp = 200%Z ->
     fst (getTables L context w) =
     match bytes_decode (content resp) with
     | Some text => match json_loads L text with Some j => Ok j | None => Raise JSONDecodeError end
     | None => Raise UnicodeDecodeError
     end) /\
  (status_code resp <> 200%Z ->
     fst (getTables L context w) =
     match bytes_decode (content resp) with
     | Some body => Raise (ValueError (http_error_message
                      ("Error when getting table description from database context " ++ context ++ "." ++ newline)
                      (status_code resp) body))
     | None => Raise UnicodeDecodeError
     end).
Proof.
  rewrite (getTables_eq L context w t Ht Hne), getTables_url, get_table_error_eq by exact Hu.
  exact (response_get_facts L _ t _ w resp rest Hr).
Qed.

Lemma getJobStatus_eq (L : Libs) (jobId : JobId) (w : World) (t : string) :
  w_token w = Some t -> t <> "" ->
  getJobStatus L jobId w =
  __response_get L (py_replace (url_in (w_config w) TASKNAMES.GETJOBSTATUS) DCONST.JOB_ID (str_jobid jobId)) t
    (py_replace EXCEPT.GET_JOB_STATUS_ERROR DCONST.JOB_ID (str_jobid jobId)) w.
Proof.
  intros Ht Hne. unfold getJobStatus.
  rewrite (bind_step _ _ _ _ _ (url_for_ok TASKNAMES.GETJOBSTATUS w ltac:(cbn; tauto))).
  exact (bind_step _ _ _ _ _ (token_step _ _ Ht Hne)).
Qed.

(** X3: [getJobStatus(jobId)] sends one GET to the URL of the job [str(jobId)]
    and returns the parsed JSON body of a 200 answer; any other answer
    raises the HTTP error of the job-status message naming the job. *)
Theorem getJobStatus_outcome (L : Libs) (jobId : JobId) (w : World) (t : string)
    (resp : Response) (rest : list Response)
    (Ht : w_token w = Some t) (Hne : t <> "") (Hu : no_lt (CasJobsRESTUri (w_config w)) = true)
    (Hr : w_responses w = resp :: rest) :
  w_log (snd (getJobStatus L jobId w)) =
    (w_log w ++ [ERequest (mkRequest GET
       (CasJobsRESTUri (w_config w) ++ "/jobs/" ++ str_jobid jobId
        ++ taskname_url_in (w_config w) TASKNAMES.GETJOBSTATUS)
       (base_headers t) NoData)])%list /\
  w_responses (snd (getJobStatus L jobId w)) = rest /\
  (status_code resp = 200%Z ->
     fst (getJobStatus L jobId w) =
     match bytes_decode (content resp) with
     | Some text => match json_loads L text with Some j => Ok j | None => Raise JSONDecodeError end
     | None => Raise UnicodeDecodeError
     end) /\
  (status_code resp <> 200%Z ->
     fst (getJobStatus L jobId w) =
     match bytes_decode (content resp) with
     | Some body => Raise (ValueError (http_error_message
                      ("Error when getting the status of job " ++ str_jobid jobId ++ "." ++ newline)
                      (status_code resp) body))
     | None => Raise UnicodeDecodeError
     end).
Proof.
  rewrite (getJobStatus_eq L jobId w t Ht Hne), getJobStatus_url, get_job_status_error_eq by exact Hu.
  exact (response_get_facts L _ t _ w resp rest Hr).
Qed.

(** X4: [cancelJob(jobId)] sends one DELETE to the URL of the job and returns
    [True] on a 200 answer; any other answer raises the HTTP error of the
    cancel message naming the job. *)
Theorem cancelJob_outcome (L : Libs) (jobId : JobId) (w : World) (t : string)
    (resp : Response) (rest : list Response)
    (Ht : w_token w = Some t) (Hne : t <> "") (Hu : no_lt (CasJobsRESTUri (w_config w)) = true)
    (Hr : w_responses w = resp :: rest) :
  w_log (snd (cancelJob L jobId w)) =
    (w_log w ++ [ERequest (mkRequest DELETE
       (CasJobsRESTUri (w_config w) ++ "/jobs/" ++ str_jobid jobId
        ++ taskname_url_in (w_config w) TASKNAMES.CANCELJOB)
       (base_headers t) NoData)])%list /\
  w_responses (snd (cancelJob L jobId w)) = rest /\
  (status_code resp = 200%Z -> fst (cancelJob L jobId w) = Ok true) /\
  (status_code resp <> 200%Z ->
     fst (cancelJob L jobId w) =
     match bytes_decode (content resp) with
     | Some body => Raise (ValueError (http_error_message
                      ("Error when canceling job " ++ str_jobid jobId ++ "." ++ newline)
                      (status_code resp) body))
     | None => Raise UnicodeDecodeError
     end).
Proof.
  unfold cancelJob. cbv zeta.
  rewrite (bind_step _ _ _ _ _ (url_for_ok TASKNAMES.CANCELJOB w ltac:(cbn; tauto))).
  rewrite (bind_step _ _ _ _ _ (token_step _ _ Ht Hne)).
  cbn [lift __get_headers]. rewrite (bind_step (ret (base_headers t)) _ w w (base_headers t) eq_refl).
  rewrite cancelJob_url, cancel_job_error_eq by exact Hu.
  destruct (http_run (mkRequest DELETE (CasJobsRESTUri (w_config w) ++ "/jobs/" ++ str_jobid jobId
        ++ taskname_url_in (w_config w) TASKNAMES.CANCELJOB) (base_headers t) NoData)
        (fun response => __validate_response_status response
           ("Error when canceling job " ++ str_jobid jobId ++ "." ++ newline) ;;; ret true)
        w resp rest Hr) as [Hs Hf]; [sl_true|].
  rewrite Hs, Hf. split; [reflexivity|]. split; [reflexivity|]. split.
  - intros H200. rewrite (bind_step _ _ _ _ _ (validate_ok _ _ _ H200)). reflexivity.
  - intros Hn. apply validate_fail_bind; exact Hn.
Qed.

Lemma bind_fst_ok {A B} (m : M A) (k : A -> M B) (w : World) (a : A) :
  fst (m w) = Ok a -> bind m k w = k a (snd (m w)).
Proof. intros H. unfold bind. destruct (m w) as [r w']; cbn in *. now subst. Qed.

Lemma bind_fst_raise {A B} (m : M A) (k : A -> M B) (w : World) (e : Exc) :
  fst (m w) = Raise e -> fst (bind m k w) = Raise e.
Proof. intros H. unfold bind. destruct (m w) as [r w']; cbn in *. now subst. Qed.

Lemma bind_snd_stateless {A B} (m : M A) (k : A -> M B) (w : World) :
  (forall a, stateless (fun _ => True) (k a)) -> snd (bind m k w) = snd (m w).
Proof. intros Hk. unfold bind. destruct (m w) as [[a|e] w']; [apply Hk | reflexivity]. Qed.

Lemma http_run_snd {A} (req : Request) (k : Response -> M A) (w : World)
    (resp : Response) (rest : list Response) :
  w_responses w = resp :: rest -> (forall r, stateless (fun _ => True) (k r)) ->
  snd (bind (http req) k w) = set_responses rest (log_event (ERequest req) w).
Proof. intros Hr Hk. exact (proj1 (http_run req k w resp rest Hr (Hk resp))). Qed.

Lemma http_run_fst {A} (req : Request) (k : Response -> M A) (w : World)
    (resp : Response) (rest : list Response) :
  w_responses w = resp :: rest ->
  fst (bind (http req) k w) = fst (k resp (set_responses rest (log_event (ERequest req) w))).
Proof. intros Hr. rewrite (bind_step _ _ _ _ _ (http_step _ _ _ _ Hr)). reflexivity. Qed.




(** The world after [take_task_name]. *)
Lemma executeQuery_run (L : Libs) (sql context format : string) (w : World) (t : string)
    (hs : list (string * string)) (resp : Response) (rest : list Response) :
  w_token w = Some t -> t <> "" -> __get_headers t (Some format) = Ok hs ->
  w_responses w = resp :: rest ->
  executeQuery L sql context format w =
  (__validate_response_status resp EXCEPT.EXECUTE_QUERY_ERROR ;;; __parse_post L resp format)
    (set_responses rest
       (log_event (ERequest (mkRequest POST
                               (query_url (w_config w) context (task_name_for w TASKNAMES.EXECUTEQUERY))
                               hs (QueryData sql (task_name_for w TASKNAMES.EXECUTEQUERY))))
                  (match w_task w with Some _ => set_task None w | None => w end))).
Proof.
  intros Ht Hne Hh Hr. unfold executeQuery.
  rewrite (bind_step _ _ _ _ _ (take_task_name_eq _ w)).
  destruct (after_take w) as [Hc _].
  assert (Ht1 : w_token (match w_task w with Some _ => set_task None w | None => w end) = Some t)
    by (destruct (w_task w); exact Ht).
  assert (Hr1 : w_responses (match w_task w with Some _ => set_task None w | None => w end) = resp :: rest)
    by (destruct (w_task w); exact Hr).
  set (w1 := match w_task w with Some _ => set_task None w | None => w end) in *.
  rewrite (bind_step _ _ _ _ _ (url_for_ok TASKNAMES.EXECUTEQUERY w1 ltac:(cbn; tauto))).
  rewrite (bind_step _ _ _ _ _ (taskname_url_eq _ w1)). cbv zeta.
  rewrite (bind_step _ _ _ _ _ (token_step _ _ Ht1 Hne)).
  rewrite Hh. cbn [lift]. rewrite (bind_step (ret hs) _ w1 w1 hs eq_refl).
  rewrite (bind_step _ _ _ _ _ (http_step _ _ _ _ Hr1)).
  rewrite Hc. reflexivity.
Qed.

Lemma parse_post_fits (L : Libs) (resp : Response) (w : World) :
  __parse_post L resp "fits" w = (Ok (RBytesIO (content resp)), w).
Proof. reflexivity. Qed.

Lemma parse_post_readable (L : Libs) (resp : Response) (w : World) (text : string) :
  bytes_decode (content resp) = Some text ->
  __parse_post L resp "readable" w = (Ok (RStringIO text), w).
Proof. intros Hd. unfold __parse_post, in_formats. cbn [existsb String.eqb Ascii.eqb Bool.eqb orb andb].
  unfold bind, decode, of_option. rewrite Hd. reflexivity. Qed.



Lemma readable_headers (t : string) :
  __get_headers t (Some "readable") = Ok (base_headers t ++ [(CASJOBSCONST.ACCEPT, "text/plain")])%list.
Proof. reflexivity. Qed.

(** X13: [uploadCSVDataToTable(csvData, tableName, context)] sends one
    POST of the raw bytes, with only the token header, to the upload URL
    under the override task name or its own; it clears the override,
    returns [True] on a 200 answer and otherwise raises the HTTP error of
    the upload message naming the table. *)
Theorem uploadCSVDataToTable_outcome (csvData : list byte) (tableName context : string)
    (w : World) (t : string) (resp : Response) (rest : list Response)
    (Ht : w_token w = Some t) (Hne : t <> "") (Hr : w_responses w = resp :: rest) :
  w_log (snd (uploadCSVDataToTable csvData tableName context w)) =
    (w_log w ++
     [ERequest (mkRequest POST
        (upload_url (w_config w) context tableName (task_name_for w TASKNAMES.UPLOADCSVDATATOTABLE))
        [(CASJOBSCONST.X_AUTH_TOKEN, t)] (RawData csvData))])%list /\
  w_responses (snd (uploadCSVDataToTable csvData tableName context w)) = rest /\
  w_task (snd (uploadCSVDataToTable csvData tableName context w)) = None /\
  (status_code resp = 200%Z -> fst (uploadCSVDataToTable csvData tableName context w) = Ok true) /\
  (status_code resp <> 200%Z ->
     fst (uploadCSVDataToTable csvData tableName context w) =
     match bytes_decode (content resp) with
     | Some body => Raise (ValueError (http_error_message
                      ("Error when uploading CSV data into CasJobs table " ++ tableName ++ "." ++ newline)
                      (status_code resp) body))
     | None => Raise UnicodeDecodeError
     end).
Proof.
  unfold uploadCSVDataToTable.
  rewrite (bind_step _ _ _ _ _ (take_task_name_eq _ w)).
  destruct (after_take w) as [Hc Hl].
  assert (Ht1 : w_token (match w_task w with Some _ => set_task None w | None => w end) = Some t)
    by (destruct (w_task w); exact Ht).
  assert (Hr1 : w_responses (match w_task w with Some _ => set_task None w | None => w end) = resp :: rest)
    by (destruct (w_task w); exact Hr).
  assert (Hk1 : w_task (match w_task w with Some _ => set_task None w | None => w end) = None)
    by (destruct (w_task w) eqn:E; [reflexivity | exact E]).
  set (w1 := match w_task w with Some _ => set_task None w | None => w end) in *.
  rewrite (bind_step _ _ _ _ _ (url_for_ok TASKNAMES.EXECUTEQUERY w1 ltac:(cbn; tauto))).
  rewrite (bind_step _ _ _ _ _ (taskname_url_eq _ w1)). cbv zeta.
  rewrite (bind_step _ _ _ _ _ (token_step _ _ Ht1 Hne)).
  rewrite upload_csv_error_eq.
  rewrite (http_run_snd _ _ w1 resp rest Hr1) by (intros; sl_true).
  rewrite (http_run_fst _ _ w1 resp rest Hr1).
  split; [cbn [w_log set_responses log_event]; rewrite Hl, Hc; reflexivity|].
  split; [reflexivity|]. split; [exact Hk1|]. split.
  - intros H200. rewrite (bind_step _ _ _ _ _ (validate_ok _ _ _ H200)). reflexivity.
  - intros Hn. apply validate_fail_bind; exact Hn.
Qed.

(** X14: [executeQuery] with a token but a format tag outside the known
    ones raises the illegal-format [ValueError] naming the tag before any
    request: nothing is logged and no answer consumed; the task-name
    override has already been cleared. *)
Theorem executeQuery_illegal_format_no_request (L : Libs) (sql context format : string)
    (w : World) (t : string)
    (Ht : w_token w = Some t) (Hne : t <> "") (Hf : ~ In format recognized_formats) :
  fst (executeQuery L sql context format w) =
    Raise (ValueError (EXCEPT.ILLEGAL_FORMAT_ERROR ++ format)) /\
  w_log (snd (executeQuery L sql context format w)) = w_log w /\
  w_responses (snd (executeQuery L sql context format w)) = w_responses w /\
  w_task (snd (executeQuery L sql context format w)) = None.
Proof.
  assert (Hh : __get_headers t (Some format) = Raise (ValueError (EXCEPT.ILLEGAL_FORMAT_ERROR ++ format))).
  { unfold __get_headers, __format_to_accept_header. cbn [existsb].
    rewrite !(eqb_not_recognized format) by (assumption || (cbn; tauto)). reflexivity. }
  unfold executeQuery.
  rewrite (bind_step _ _ _ _ _ (take_task_name_eq _ w)).
  destruct (after_take w) as [Hc Hl].
  assert (Ht1 : w_token (match w_task w with Some _ => set_task None w | None => w end) = Some t)
    by (destruct (w_task w); exact Ht).
  assert (Hr1 : w_responses (match w_task w with Some _ => set_task None w | None => w end) = w_responses w)
    by (destruct (w_task w); reflexivity).
  assert (Hk1 : w_task (match w_task w with Some _ => set_task None w | None => w end) = None)
    by (destruct (w_task w) eqn:E; [reflexivity | exact E]).
  set (w1 := match w_task w with Some _ => set_task None w | None => w end) in *.
  rewrite (bind_step _ _ _ _ _ (url_for_ok TASKNAMES.EXECUTEQUERY w1 ltac:(cbn; tauto))).
  rewrite (bind_step _ _ _ _ _ (taskname_url_eq _ w1)). cbv zeta.
  rewrite (bind_step _ _ _ _ _ (token_step _ _ Ht1 Hne)).
  rewrite Hh. cbn. auto.
Qed.

Lemma map_m_ok {A B} (f : A -> M B) (l : list A) (ys : list B) (w : World) :
  Forall2 (fun x y => f x w = (Ok y, w)) l ys -> map_m f l w = (Ok ys, w).
Proof.
  intros H. induction H as [|x y l ys Hxy Hrest IH]; [reflexivity|].
  cbn [map_m]. rewrite (bind_step _ _ _ _ _ Hxy), (bind_step _ _ _ _ _ IH). reflexivity.
Qed.

(** X8: what [__parse_post] returns for the formats other than pandas:
    fits and BytesIO give the raw bytes, without decoding; readable and
    StringIO the decoded text as a StringIO, csv and json the decoded text;
    dict the parsed JSON.  A body that does not decode raises
    [UnicodeDecodeError], an unparsable one for dict [JSONDecodeError].
    The state is never touched. *)
Theorem parse_post_plain_formats (L : Libs) (resp : Response) (w : World) :
  (forall f, In f ["fits"; "BytesIO"] ->
     __parse_post L resp f w = (Ok (RBytesIO (content resp)), w)) /\
  (forall f, In f ["readable"; "StringIO"] ->
     __parse_post L resp f w =
     (match bytes_decode (content resp) with
      | Some text => Ok (RStringIO text) | None => Raise UnicodeDecodeError end, w)) /\
  (forall f, In f ["csv"; "json"] ->
     __parse_post L resp f w =
     (match bytes_decode (content resp) with
      | Some text => Ok (RText text) | None => Raise UnicodeDecodeError end, w)) /\
  __parse_post L resp "dict" w =
  (match bytes_decode (content resp) with
   | Some text => match json_loads L text with
                  | Some j => Ok (RDict j) | None => Raise JSONDecodeError end
   | None => Raise UnicodeDecodeError end, w).
Proof.
  unfold __parse_post, in_formats, bind, decode, of_option, ret, raise.
  split; [|split; [|split]].
  - intros f Hf; cbn in Hf; repeat destruct Hf as [<- | Hf]; try contradiction; reflexivity.
  - intros f Hf; cbn in Hf; repeat destruct Hf as [<- | Hf]; try contradiction;
      cbn; destruct (bytes_decode (content resp)); reflexivity.
  - intros f Hf; cbn in Hf; repeat destruct Hf as [<- | Hf]; try contradiction;
      cbn; destruct (bytes_decode (content resp)); reflexivity.
  - cbn; destruct (bytes_decode (content resp)); [destruct (json_loads L _)|]; reflexivity.
Qed.

Lemma parse_post_pandas_prefix (L : Libs) (resp : Response) (w : World) (text : string) (r : Json)
    (results : list Json) :
  bytes_decode (content resp) = Some text -> json_loads L text = Some r ->
  py_getitem r (JStr "Result") = Ok (JArr results) ->
  __parse_post L resp "pandas" w =
  (if (1 <? length results)%nat then
     items <- lift (py_iter (JArr results)) ;;
     res <- map_m (fun result =>
                     data <- getitem result (JStr "Data") ;;
                     columns <- getitem result (JStr "Columns") ;;
                     lib (DataFrame L data columns)) items ;;
     ret (RFrames res)
   else
     first <- getitem (JArr results) (JNum 0) ;;
     data <- getitem first (JStr "Data") ;;
     first' <- getitem (JArr results) (JNum 0) ;;
     columns <- getitem first' (JStr "Columns") ;;
     f <- lib (DataFrame L data columns) ;;
     ret (RFrame f)) w.
Proof.
  intros Hd Hj Hres. unfold __parse_post, in_formats. cbn [existsb String.eqb Ascii.eqb Bool.eqb orb andb].
  unfold decode, of_option. rewrite Hd. rewrite (bind_step (ret text) _ w w text eq_refl).
  rewrite Hj. rewrite (bind_step (ret r) _ w w r eq_refl).
  unfold getitem at 1, lift at 1. rewrite Hres.
  rewrite (bind_step (ret (JArr results)) _ w w _ eq_refl).
  cbn [py_len lift]. exact (bind_step (ret (length results)) _ w w _ eq_refl).
Qed.

(** X7: [__parse_post] with the pandas format, on a body whose
    ["Result"] entry is a list: an empty list raises [IndexError], one
    result set gives one DataFrame of its ["Data"] and ["Columns"], and
    two or more give the list of their DataFrames in order. *)
Theorem parse_post_pandas_frames (L : Libs) (resp : Response) (w : World) (text : string)
    (r : Json) (results : list Json)
    (Hd : bytes_decode (content resp) = Some text) (Hj : json_loads L text = Some r)
    (Hres : py_getitem r (JStr "Result") = Ok (JArr results)) :
  snd (__parse_post L resp "pandas" w) = w /\
  (results = [] -> fst (__parse_post L resp "pandas" w) = Raise IndexError) /\
  (forall x d c, results = [x] ->
     py_getitem x (JStr "Data") = Ok d -> py_getitem x (JStr "Columns") = Ok c ->
     fst (__parse_post L resp "pandas" w) =
     match DataFrame L d c with inl f => Ok (RFrame f) | inr msg => Raise (LibraryError msg) end) /\
  (forall fs, (2 <= length results)%nat ->
     Forall2 (fun x f => exists d c, py_getitem x (JStr "Data") = Ok d /\
                                     py_getitem x (JStr "Columns") = Ok c /\
                                     DataFrame L d c = inl f) results fs ->
     fst (__parse_post L resp "pandas" w) = Ok (RFrames fs)).
Proof.
  split; [exact (proj1 (parse_post_stateless L resp "pandas" w))|].
  rewrite (parse_post_pandas_prefix L resp w text r results Hd Hj Hres).
  split; [|split].
  - intros ->. reflexivity.
  - intros x d c -> Hx Hc. change ((1 <? length [x])%nat) with false. cbv iota.
    rewrite (bind_step (getitem (JArr [x]) (JNum 0)) _ w w x eq_refl).
    unfold getitem at 1, lift at 1. rewrite Hx. rewrite (bind_step (ret d) _ w w _ eq_refl).
    rewrite (bind_step (getitem (JArr [x]) (JNum 0)) _ w w x eq_refl).
    unfold getitem at 1, lift at 1. rewrite Hc. rewrite (bind_step (ret c) _ w w _ eq_refl).
    unfold lib. destruct (DataFrame L d c); reflexivity.
  - intros fs Hlen Hfs.
    assert (Hn : (1 <? length results)%nat = true) by (apply Nat.ltb_lt; lia).
    rewrite Hn. cbn [py_iter lift]. rewrite (bind_step (ret results) _ w w _ eq_refl).
    assert (Hm : map_m (fun result =>
                          data <- getitem result (JStr "Data") ;;
                          columns <- getitem result (JStr "Columns") ;;
                          lib (DataFrame L data columns)) results w = (Ok fs, w)).
    { apply map_m_ok. revert Hfs. apply Forall2_impl. intros x f (d & c & Hx & Hc & Hf).
      unfold getitem, lift. rewrite Hx. rewrite (bind_step (ret d) _ w w _ eq_refl).
      rewrite Hc. rewrite (bind_step (ret c) _ w w _ eq_refl). unfold lib. rewrite Hf. reflexivity. }
    rewrite (bind_step _ _ _ _ _ Hm). reflexivity.
Qed.

Lemma response_get_fail (L : Libs) (url t on_error : string) (w : World)
    (resp : Response) (rest : list Response) :
  w_responses w = resp :: rest -> status_code resp <> 200%Z ->
  __response_get L url t on_error w =
  (match bytes_decode (content resp) with
   | Some body => Raise (ValueError (http_error_message on_error (status_code resp) body))
   | None => Raise UnicodeDecodeError
   end,
   set_responses rest (log_event (ERequest (mkRequest GET url (base_headers t) NoData)) w)).
Proof.
  intros Hr Hs. unfold __response_get. cbn [lift __get_headers].
  rewrite (bind_step (ret (base_headers t)) _ w w _ eq_refl).
  rewrite (bind_step _ _ _ _ _ (http_step _ _ _ _ Hr)).
  unfold bind at 1. rewrite (validate_fail _ _ _ Hs).
  destruct (bytes_decode (content resp)); reflexivity.
Qed.

Lemma wait_loop_fail (L : Libs) (fuel : nat) (jobId : JobId) (v : bool) (p : Z)
    (w : World) (t : string) (r : Response) (rest : list Response) :
  w_token w = Some t -> t <> "" -> w_responses w = r :: rest ->
  status_code r <> 200%Z ->
  wait_loop L (S fuel) jobId v p w =
  (match bytes_decode (content r) with
   | Some body =>
       Raise (ValueError (http_error_message
                (py_replace EXCEPT.GET_JOB_STATUS_ERROR DCONST.JOB_ID (str_jobid jobId))
                (status_code r) body))
   | None => Raise UnicodeDecodeError
   end,
   append_log (verbose_print v "Waiting..." ++ [ERequest (status_request (w_config w) t jobId)])
              (set_responses rest w)).
Proof.
  intros Ht Hne Hr Hs.
  cbn [wait_loop]. rewrite (bind_step _ _ _ _ _ (verbose_print_step v "Waiting..." w)).
  set (w1 := append_log (verbose_print v "Waiting...") w).
  assert (Hg : getJobStatus L jobId w1 =
               (match bytes_decode (content r) with
   | Some body =>
       Raise (ValueError (http_error_message
                (py_replace EXCEPT.GET_JOB_STATUS_ERROR DCONST.JOB_ID (str_jobid jobId))
                (status_code r) body))
   | None => Raise UnicodeDecodeError
   end,
                set_responses rest (log_event (ERequest (status_request (w_config w1) t jobId)) w1))).
  { unfold getJobStatus. cbv zeta.
    rewrite (bind_step _ _ _ _ _ (url_for_ok TASKNAMES.GETJOBSTATUS w1 ltac:(cbn; tauto))).
    rewrite (bind_step _ _ _ _ _ (token_step w1 t Ht Hne)).
    exact (response_get_fail L _ t _ w1 r rest Hr Hs). }
  destruct (bytes_decode (content r)) as [body|];
    rewrite (bind_raise _ _ _ _ _ Hg);
    f_equal; unfold append_log, set_responses, log_event, status_request; cbn;
    rewrite <- !app_assoc; reflexivity.
Qed.

Lemma wait_loop_run_fail (L : Libs) (jobId : JobId) (v : bool) (p : Z) (t : string)
    (r : Response) (rest : list Response) (pre : list Response) :
  forall (fuel : nat) (w : World),
  w_token w = Some t -> t <> "" -> w_responses w = (pre ++ r :: rest)%list ->
  Forall (fun a => exists j' z', poll_answer L a = Some (j', z') /\ is_terminal z' = false) pre ->
  status_code r <> 200%Z -> (length pre < fuel)%nat ->
  wait_loop L fuel jobId v p w =
  (match bytes_decode (content r) with
   | Some body =>
       Raise (ValueError (http_error_message
                (py_replace EXCEPT.GET_JOB_STATUS_ERROR DCONST.JOB_ID (str_jobid jobId))
                (status_code r) body))
   | None => Raise UnicodeDecodeError
   end,
   append_log (concat (map (fun _ => poll_again_events v (status_request (w_config w) t jobId) p) pre)
               ++ verbose_print v "Waiting..." ++ [ERequest (status_request (w_config w) t jobId)])
              (set_responses rest w)).
Proof.
  induction pre as [|a pre IH]; intros fuel w Ht Hne Hr Hpre Hs Hf;
    (destruct fuel as [|fuel]; [cbn in Hf; lia|]).
  - apply (wait_loop_fail L fuel jobId v p w t r rest); assumption.
  - inversion Hpre as [|? ? (j' & z' & Ha & Haz) Hpre']; subst.
    rewrite (wait_loop_again L fuel jobId v p w t a (pre ++ r :: rest) j' z') by assumption.
    rewrite IH with (fuel := fuel) by (cbn in *; first [reflexivity | assumption | lia]).
    cbn [map concat]. rewrite set_responses_append_log, append_log_twice, app_assoc.
    reflexivity.
Qed.

(** X15: when a status poll of [waitForJob] gets a non-200 answer after
    [pre] non-terminal ones, the loop stops there: it raises the HTTP error
    of the job-status message naming the job, leaves the later answers
    unread, and has slept [max(5, pollTime)] seconds once per earlier
    poll. *)
Theorem waitForJob_status_error (L : Libs) (fuel : nat) (jobId : JobId) (verbose : bool)
    (pollTime : Z) (w : World) (t : string) (pre : list Response) (r : Response)
    (rest : list Response)
    (Ht : w_token w = Some t) (Hne : t <> "") (Hr : w_responses w = (pre ++ r :: rest)%list)
    (Hpre : Forall (fun a => exists j' z', poll_answer L a = Some (j', z') /\ is_terminal z' = false) pre)
    (Hs : status_code r <> 200%Z)
    (Hf : (length pre < fuel)%nat) :
  fst (waitForJob L fuel jobId verbose pollTime w) =
    match bytes_decode (content r) with
    | Some body =>
        Raise (ValueError (http_error_message
                 ("Error when getting the status of job " ++ str_jobid jobId ++ "." ++ newline)
                 (status_code r) body))
    | None => Raise UnicodeDecodeError
    end /\
  w_responses (snd (waitForJob L fuel jobId verbose pollTime w)) = rest /\
  sleeps (w_log (snd (waitForJob L fuel jobId verbose pollTime w))) =
    (sleeps (w_log w) ++ repeat (Z.max 5 pollTime) (length pre))%list.
Proof.
  unfold waitForJob.
  rewrite (bind_step _ _ _ _ _ (verbose_print_step verbose "Waiting..." w)).
  rewrite (wait_loop_run_fail L jobId verbose pollTime t r rest pre fuel) by (cbn; assumption).
  rewrite get_job_status_error_eq.
  split; [reflexivity|]. split; [reflexivity|].
  cbn [snd w_log append_log set_responses].
  rewrite !sleeps_app, !sleeps_verbose_print, sleeps_polls.
  rewrite !app_nil_r. reflexivity.
Qed.

Lemma pure_ret {A} (a : A) : pure_m (ret a).
Proof. exists (Ok a). reflexivity. Qed.
Lemma pure_raise {A} (e : Exc) : pure_m (@raise A e).
Proof. exists (Raise e). reflexivity. Qed.
Lemma pure_lift {A} (r : res A) : pure_m (lift r).
Proof. exists r. destruct r; reflexivity. Qed.
Lemma pure_lib {A} (r : A + string) : pure_m (lib r).
Proof. destruct r; [apply pure_ret | apply pure_raise]. Qed.
Lemma pure_of_option {A} (e : Exc) (o : option A) : pure_m (of_option e o).
Proof. destruct o; [apply pure_ret | apply pure_raise]. Qed.
Lemma pure_bind {A B} (m : M A) (k : A -> M B) :
  pure_m m -> (forall a, pure_m (k a)) -> pure_m (bind m k).
Proof.
  intros [r Hm] Hk. destruct r as [a|e].
  - destruct (Hk a) as [r' Hk']. exists r'. intros w. unfold bind. rewrite Hm. apply Hk'.
  - exists (Raise e). intros w. unfold bind. rewrite Hm. reflexivity.
Qed.
Lemma pure_map_m {A B} (f : A -> M B) (l : list A) :
  (forall x, pure_m (f x)) -> pure_m (map_m f l).
Proof.
  intros Hf. induction l as [|x l IH]; cbn [map_m];
    [apply pure_ret | apply pure_bind; [apply Hf | intros; apply pure_bind; [exact IH | intros; apply pure_ret]]].
Qed.

Lemma pure_parse_post (L : Libs) (resp : Response) (f : string) : pure_m (__parse_post L resp f).
Proof.
  unfold __parse_post, getitem, decode.
  repeat match goal with
         | |- pure_m (if ?b then _ else _) => destruct b
         | |- pure_m (bind _ _) => apply pure_bind; [|intros]
         | |- pure_m (map_m _ _) => apply pure_map_m; intros
         | |- pure_m (ret _) => apply pure_ret
         | |- pure_m (raise _) => apply pure_raise
         | |- pure_m (lift _) => apply pure_lift
         | |- pure_m (lib _) => apply pure_lib
         | |- pure_m (of_option _ _) => apply pure_of_option
         end.
Qed.

Lemma pure_fst {A} (m : M A) (w1 w2 : World) : pure_m m -> fst (m w1) = fst (m w2).
Proof. intros [r H]. rewrite !H. reflexivity. Qed.
Lemma pure_snd {A} (m : M A) (w : World) : pure_m m -> snd (m w) = w.
Proof. intros [r H]. rewrite H. reflexivity. Qed.

Lemma pure_stateless {A} (m : M A) : pure_m m -> stateless (fun _ => True) m.
Proof. intros [r H] w. rewrite H. split; [reflexivity | intros; exact Logic.I]. Qed.

Lemma async_validate_ok (L : Libs) (resp : Response) (w : World) :
  status_code resp = 200%Z -> __async_validate_response_status L resp w = (Ok tt, w).
Proof. intros H. unfold __async_validate_response_status. rewrite H. reflexivity. Qed.

Lemma async_validate_fail_bind {A} (L : Libs) (resp : Response) (k : unit -> M A) (w : World) :
  status_code resp <> 200%Z ->
  fst (bind (__async_validate_response_status L resp) k w) =
  match response_text L (content resp) with
  | Some body => Raise (ValueError (http_error_message EXCEPT.EXECUTE_QUERY_ERROR (status_code resp) body))
  | None => Raise UnicodeDecodeError
  end.
Proof.
  intros Hs. unfold bind at 1, __async_validate_response_status.
  apply Z.eqb_neq in Hs. rewrite Hs. cbn [negb]. unfold bind, of_option.
  destruct (response_text L (content resp)); reflexivity.
Qed.

Lemma pure_read_post_response (L : Libs) (resp : Response) : pure_m (read_post_response L resp).
Proof.
  unfold read_post_response, __async_validate_response_status, getitem.
  repeat match goal with
         | |- pure_m (if ?b then _ else _) => destruct b
         | |- pure_m (bind _ _) => apply pure_bind; [|intros]
         | |- pure_m (map_m _ _) => apply pure_map_m; intros
         | |- pure_m (ret _) => apply pure_ret
         | |- pure_m (raise _) => apply pure_raise
         | |- pure_m (lift _) => apply pure_lift
         | |- pure_m (of_option _ _) => apply pure_of_option
         end.
Qed.

Lemma make_post_request_step (L : Libs) (headers : list (string * string))
    (url data task_name : string) (w : World) (resp : Response) (rest : list Response) :
  w_responses w = resp :: rest ->
  __make_post_request L headers url data task_name w =
  (fst (read_post_response L resp w),
   set_responses rest (log_event (ERequest (mkRequest POST url headers (QueryData data task_name))) w)).
Proof.
  intros Hr. unfold __make_post_request, __format_data.
  rewrite (bind_step _ _ _ _ _ (http_step _ _ _ _ Hr)).
  destruct (pure_read_post_response L resp) as [r Hp]. rewrite !Hp. reflexivity.
Qed.

(** X9: [__make_post_request] posts the query with the session headers
    and consumes one answer.  A non-200 answer raises the HTTP error of the
    query-execution message with the body aiohttp's [text()] reads, or the
    decoding error when the body does not decode.  On a 200 answer, an
    error of aiohttp's [json()] (the [ContentTypeError] of an answer whose
    Content-Type is not JSON, a decoding or parsing error) propagates; a
    document whose ["Result"] is a list gives, in order, one
    [{"Columns", "Data"}] dictionary per entry. *)
Theorem make_post_request_result (L : Libs) (headers : list (string * string))
    (url data task_name : string) (w : World) (resp : Response) (rest : list Response)
    (Hr : w_responses w = resp :: rest) :
  w_log (snd (__make_post_request L headers url data task_name w)) =
    (w_log w ++ [ERequest (mkRequest POST url headers (QueryData data task_name))])%list /\
  w_responses (snd (__make_post_request L headers url data task_name w)) = rest /\
  (status_code resp <> 200%Z ->
     fst (__make_post_request L headers url data task_name w) =
     match response_text L (content resp) with
     | Some body => Raise (ValueError (http_error_message EXCEPT.EXECUTE_QUERY_ERROR (status_code resp) body))
     | None => Raise UnicodeDecodeError
     end) /\
  (forall e, status_code resp = 200%Z -> aio_result (resp_json L resp) = Raise e ->
     fst (__make_post_request L headers url data task_name w) = Raise e) /\
  (forall r results outs, status_code resp = 200%Z ->
     resp_json L resp = AioDoc r ->
     py_getitem r (JStr "Result") = Ok (JArr results) ->
     Forall2 (fun x o => exists c d, py_getitem x (JStr "Columns") = Ok c /\
                                     py_getitem x (JStr "Data") = Ok d /\
                                     o = JObj [("Columns", c); ("Data", d)]) results outs ->
     fst (__make_post_request L headers url data task_name w) = Ok (JArr outs)).
Proof.
  rewrite (make_post_request_step L headers url data task_name w resp rest Hr). cbn [fst snd].
  split; [reflexivity|]. split; [reflexivity|]. split; [|split].
  - intros Hn. unfold read_post_response. apply async_validate_fail_bind; exact Hn.
  - intros e H200 He. unfold read_post_response.
    rewrite (bind_step _ _ _ _ _ (async_validate_ok L resp w H200)).
    unfold bind at 1, lift at 1. rewrite He. reflexivity.
  - intros r results outs H200 Hj Hres Houts. unfold read_post_response.
    rewrite (bind_step _ _ _ _ _ (async_validate_ok L resp w H200)).
    unfold lift at 1. rewrite Hj. cbn [aio_result]. rewrite (bind_step (ret r) _ w w _ eq_refl).
    unfold getitem at 1, lift at 1. rewrite Hres. rewrite (bind_step (ret (JArr results)) _ w w _ eq_refl).
    cbn [py_iter lift]. rewrite (bind_step (ret results) _ w w _ eq_refl).
    assert (Hm : map_m (fun response =>
                          columns <- getitem response (JStr "Columns") ;;
                          data <- getitem response (JStr "Data") ;;
                          ret (JObj [("Columns", columns); ("Data", data)])) results w = (Ok outs, w)).
    { apply map_m_ok. revert Houts. apply Forall2_impl. intros x o (c & d & Hc & Hd & ->).
      unfold getitem, lift. rewrite Hc. rewrite (bind_step (ret c) _ w w _ eq_refl).
      rewrite Hd. reflexivity. }
    rewrite (bind_step _ _ _ _ _ Hm). reflexivity.
Qed.

Lemma executeQuery_facts (L : Libs) (sql context format : string) (w : World) (t h : string)
    (resp : Response) (rest : list Response) :
  w_token w = Some t -> t <> "" -> __format_to_accept_header format = Ok h ->
  w_responses w = resp :: rest ->
  w_log (snd (executeQuery L sql context format w)) =
    (w_log w ++
     [ERequest (mkRequest POST
        (query_url (w_config w) context (task_name_for w TASKNAMES.EXECUTEQUERY))
        (base_headers t ++ [(CASJOBSCONST.ACCEPT, h)])
        (QueryData sql (task_name_for w TASKNAMES.EXECUTEQUERY)))])%list /\
  w_responses (snd (executeQuery L sql context format w)) = rest /\
  w_task (snd (executeQuery L sql context format w)) = None /\
  (status_code resp = 200%Z ->
     fst (executeQuery L sql context format w) = fst (__parse_post L resp format w)) /\
  (status_code resp <> 200%Z ->
     fst (executeQuery L sql context format w) =
     match bytes_decode (content resp) with
     | Some body => Raise (ValueError (http_error_message EXCEPT.EXECUTE_QUERY_ERROR (status_code resp) body))
     | None => Raise UnicodeDecodeError
     end).
Proof.
  intros Ht Hne Hh Hr.
  assert (Hhs : __get_headers t (Some format) = Ok (base_headers t ++ [(CASJOBSCONST.ACCEPT, h)])%list)
    by (unfold __get_headers; rewrite Hh; reflexivity).
  rewrite (executeQuery_run L sql context format w t _ resp rest Ht Hne Hhs Hr).
  destruct (after_take w) as [Hc Hl].
  assert (Hk1 : w_task (match w_task w with Some _ => set_task None w | None => w end) = None)
    by (destruct (w_task w) eqn:E; [reflexivity | exact E]).
  set (w1 := match w_task w with Some _ => set_task None w | None => w end) in *.
  set (w2 := set_responses rest _).
  assert (Hs : snd ((__validate_response_status resp EXCEPT.EXECUTE_QUERY_ERROR ;;;
                     __parse_post L resp format) w2) = w2).
  { unfold bind. pose proof (validate_same resp EXCEPT.EXECUTE_QUERY_ERROR w2) as Hv.
    destruct (__validate_response_status resp EXCEPT.EXECUTE_QUERY_ERROR w2) as [[[]|e] w3];
      cbn in Hv; subst w3; [apply pure_snd, pure_parse_post | reflexivity]. }
  rewrite Hs. split; [subst w2; cbn [w_log set_responses log_event]; rewrite Hl; reflexivity|].
  split; [reflexivity|]. split; [exact Hk1|]. split.
  - intros H200. rewrite (bind_step _ _ _ _ _ (validate_ok _ _ _ H200)). apply pure_fst, pure_parse_post.
  - intros Hn. apply validate_fail_bind; exact Hn.
Qed.

(** X16: [executeQuery] with a token and a known format sends one POST
    with that format's [Accept] header to the query URL under the override
    task name or its own, clears the override, and returns what
    [__parse_post] makes of a 200 answer; any other answer raises the HTTP
    error of the query-execution message with the body, or the decoding
    error when the body does not decode. *)
Theorem executeQuery_outcome (L : Libs) (sql context format : string) (w : World) (t h : string)
    (resp : Response) (rest : list Response)
    (Ht : w_token w = Some t) (Hne : t <> "") (Hh : __format_to_accept_header format = Ok h)
    (Hr : w_responses w = resp :: rest) :
  w_log (snd (executeQuery L sql context format w)) =
    (w_log w ++
     [ERequest (mkRequest POST
        (query_url (w_config w) context (task_name_for w TASKNAMES.EXECUTEQUERY))
        (base_headers t ++ [(CASJOBSCONST.ACCEPT, h)])
        (QueryData sql (task_name_for w TASKNAMES.EXECUTEQUERY)))])%list /\
  w_responses (snd (executeQuery L sql context format w)) = rest /\
  w_task (snd (executeQuery L sql context format w)) = None /\
  (status_code resp = 200%Z ->
     fst (executeQuery L sql context format w) = fst (__parse_post L resp format w)) /\
  (status_code resp <> 200%Z ->
     fst (executeQuery L sql context format w) =
     match bytes_decode (content resp) with
     | Some body => Raise (ValueError (http_error_message EXCEPT.EXECUTE_QUERY_ERROR (status_code resp) body))
     | None => Raise UnicodeDecodeError
     end).
Proof. exact (executeQuery_facts L sql context format w t h resp rest Ht Hne Hh Hr). Qed.

Lemma parse_post_readable_fst (L : Libs) (resp : Response) (w : World) :
  fst (__parse_post L resp "readable" w) =
  match bytes_decode (content resp) with
  | Some text => Ok (RStringIO text)
  | None => Raise UnicodeDecodeError
  end.
Proof.
  unfold __parse_post, in_formats. cbn [existsb String.eqb Ascii.eqb Bool.eqb orb andb].
  unfold bind, decode, of_option. destruct (bytes_decode (content resp)); reflexivity.
Qed.

Lemma getPandas_facts (L : Libs) (queryString context : string)
    (w : World) (t : string) (resp : Response) (rest : list Response)
    (Ht : w_token w = Some t) (Hne : t <> "") (Hr : w_responses w = resp :: rest) :
  w_log (snd (getPandasDataFrameFromQuery L queryString context w)) =
    (w_log w ++
     [ERequest (mkRequest POST
        (query_url (w_config w) context
           (get_taskname_in (w_config w) TASKNAMES.GETPANDASDATAFRAMEFROMQUERY))
        (base_headers t ++ [(CASJOBSCONST.ACCEPT, "text/plain")])
        (QueryData queryString (get_taskname_in (w_config w) TASKNAMES.GETPANDASDATAFRAMEFROMQUERY)))])%list /\
  w_responses (snd (getPandasDataFrameFromQuery L queryString context w)) = rest /\
  w_task (snd (getPandasDataFrameFromQuery L queryString context w)) = None /\
  (status_code resp = 200%Z ->
     fst (getPandasDataFrameFromQuery L queryString context w) =
     match bytes_decode (content resp) with
     | Some text => match read_csv L text with inl f => Ok f | inr msg => Raise (LibraryError msg) end
     | None => Raise UnicodeDecodeError
     end) /\
  (status_code resp <> 200%Z ->
     fst (getPandasDataFrameFromQuery L queryString context w) =
     match bytes_decode (content resp) with
     | Some body => Raise (ValueError (http_error_message EXCEPT.EXECUTE_QUERY_ERROR (status_code resp) body))
     | None => Raise UnicodeDecodeError
     end).
Proof.
  unfold getPandasDataFrameFromQuery.
  rewrite (bind_step (__get_taskname _) _ w w _ eq_refl).
  set (w1 := set_task (Some (get_taskname_in (w_config w) TASKNAMES.GETPANDASDATAFRAMEFROMQUERY)) w).
  rewrite (bind_step (put_task _) _ w w1 tt eq_refl).
  destruct (executeQuery_facts L queryString context "readable" w1 t "text/plain" resp rest Ht Hne eq_refl Hr)
    as (Hl & Hrs & Hk & Hok & Herr).
  rewrite bind_snd_stateless
    by (intros a; apply pure_stateless; destruct a; first [apply pure_lib | apply pure_raise]).
  rewrite Hl, Hrs, Hk. split; [reflexivity|]. split; [reflexivity|]. split; [reflexivity|]. split.
  - intros H200. specialize (Hok H200). rewrite parse_post_readable_fst in Hok.
    destruct (bytes_decode (content resp)) as [text|].
    + rewrite (bind_fst_ok _ _ _ _ Hok). unfold lib. destruct (read_csv L text); reflexivity.
    + exact (bind_fst_raise _ _ _ _ Hok).
  - intros Hn. specialize (Herr Hn).
    destruct (bytes_decode (content resp)); exact (bind_fst_raise _ _ _ _ Herr).
Qed.

Lemma getNumpy_bind (L : Libs) (queryString context : string) (w : World) :
  getNumpyArrayFromQuery L queryString context w =
  bind (getPandasDataFrameFromQuery L queryString context) (fun df => lib (as_matrix L df)) w.
Proof. reflexivity. Qed.

(** X11: [getPandasDataFrameFromQuery] posts the query under its own task
    name with [Accept: text/plain] and clears the override, whatever the
    answer.  A 200 answer gives [read_csv] of the decoded body; any other
    answer raises the HTTP error of the query-execution message; a body
    that does not decode raises the decoding error in both cases. *)
Theorem getPandasDataFrameFromQuery_outcome (L : Libs) (queryString context : string)
    (w : World) (t : string) (resp : Response) (rest : list Response)
    (Ht : w_token w = Some t) (Hne : t <> "") (Hr : w_responses w = resp :: rest) :
  w_log (snd (getPandasDataFrameFromQuery L queryString context w)) =
    (w_log w ++
     [ERequest (mkRequest POST
        (query_url (w_config w) context
           (get_taskname_in (w_config w) TASKNAMES.GETPANDASDATAFRAMEFROMQUERY))
        (base_headers t ++ [(CASJOBSCONST.ACCEPT, "text/plain")])
        (QueryData queryString (get_taskname_in (w_config w) TASKNAMES.GETPANDASDATAFRAMEFROMQUERY)))])%list /\
  w_responses (snd (getPandasDataFrameFromQuery L queryString context w)) = rest /\
  w_task (snd (getPandasDataFrameFromQuery L queryString context w)) = None /\
  (status_code resp = 200%Z ->
     fst (getPandasDataFrameFromQuery L queryString context w) =
     match bytes_decode (content resp) with
     | Some text => match read_csv L text with inl f => Ok f | inr msg => Raise (LibraryError msg) end
     | None => Raise UnicodeDecodeError
     end) /\
  (status_code resp <> 200%Z ->
     fst (getPandasDataFrameFromQuery L queryString context w) =
     match bytes_decode (content resp) with
     | Some body => Raise (ValueError (http_error_message EXCEPT.EXECUTE_QUERY_ERROR (status_code resp) body))
     | None => Raise UnicodeDecodeError
     end).
Proof. exact (getPandas_facts L queryString context w t resp rest Ht Hne Hr). Qed.

(** X12: [getNumpyArrayFromQuery] sends the one request of
    [getPandasDataFrameFromQuery], under the getPandasDataFrameFromQuery
    task name (the override it sets is overwritten before it is read),
    whatever the answer.  A 200 answer gives [as_matrix] of the DataFrame
    read from the decoded body; any other answer raises the HTTP error of
    the query-execution message; a body that does not decode raises the
    decoding error in both cases. *)
Theorem getNumpyArrayFromQuery_outcome (L : Libs) (queryString context : string)
    (w : World) (t : string) (resp : Response) (rest : list Response)
    (Ht : w_token w = Some t) (Hne : t <> "") (Hr : w_responses w = resp :: rest) :
  w_log (snd (getNumpyArrayFromQuery L queryString context w)) =
    (w_log w ++
     [ERequest (mkRequest POST
        (query_url (w_config w) context
           (get_taskname_in (w_config w) TASKNAMES.GETPANDASDATAFRAMEFROMQUERY))
        (base_headers t ++ [(CASJOBSCONST.ACCEPT, "text/plain")])
        (QueryData queryString (get_taskname_in (w_config w) TASKNAMES.GETPANDASDATAFRAMEFROMQUERY)))])%list /\
  w_responses (snd (getNumpyArrayFromQuery L queryString context w)) = rest /\
  w_task (snd (getNumpyArrayFromQuery L queryString context w)) = None /\
  (status_code resp = 200%Z ->
     fst (getNumpyArrayFromQuery L queryString context w) =
     match bytes_decode (content resp) with
     | Some text =>
         match read_csv L text with
         | inl f => match as_matrix L f with inl m => Ok m | inr msg => Raise (LibraryError msg) end
         | inr msg => Raise (LibraryError msg)
         end
     | None => Raise UnicodeDecodeError
     end) /\
  (status_code resp <> 200%Z ->
     fst (getNumpyArrayFromQuery L queryString context w) =
     match bytes_decode (content resp) with
     | Some body => Raise (ValueError (http_error_message EXCEPT.EXECUTE_QUERY_ERROR (status_code resp) body))
     | None => Raise UnicodeDecodeError
     end).
Proof.
  destruct (getPandas_facts L queryString context w t resp rest Ht Hne Hr)
    as (H2 & H3 & H4 & Hok & Herr).
  rewrite !getNumpy_bind.
  rewrite !bind_snd_stateless by (intros a; apply pure_stateless, pure_lib).
  split; [exact H2|]. split; [exact H3|]. split; [exact H4|]. split.
  - intros H200. specialize (Hok H200).
    destruct (bytes_decode (content resp)) as [text|]; [destruct (read_csv L text) as [f|msg]|].
    + rewrite (bind_fst_ok _ _ _ _ Hok). unfold lib. destruct (as_matrix L f); reflexivity.
    + exact (bind_fst_raise _ _ _ _ Hok).
    + exact (bind_fst_raise _ _ _ _ Hok).
  - intros Hn. specialize (Herr Hn).
    destruct (bytes_decode (content resp)); exact (bind_fst_raise _ _ _ _ Herr).
Qed.

(** X1: [__response_get(url, token, on_error)] sends one GET to [url]
    with the token and JSON content-type headers and consumes one answer;
    it returns the parsed JSON body of a 200 answer and otherwise raises
    the HTTP error of [on_error] with the status code and the body. *)
Theorem response_get_result (L : Libs) (url token on_error : string) (w : World)
    (resp : Response) (rest : list Response) (Hr : w_responses w = resp :: rest) :
  w_log (snd (__response_get L url token on_error w)) =
    (w_log w ++ [ERequest (mkRequest GET url (base_headers token) NoData)])%list /\
  w_responses (snd (__response_get L url token on_error w)) = rest /\
  (status_code resp = 200%Z ->
     fst (__response_get L url token on_error w) =
     match bytes_decode (content resp) with
     | Some text => match json_loads L text with Some j => Ok j | None => Raise JSONDecodeError end
     | None => Raise UnicodeDecodeError
     end) /\
  (status_code resp <> 200%Z ->
     fst (__response_get L url token on_error w) =
     match bytes_decode (content resp) with
     | Some body => Raise (ValueError (http_error_message on_error (status_code resp) body))
     | None => Raise UnicodeDecodeError
     end).
Proof. exact (response_get_facts L url token on_error w resp rest Hr). Qed.










(** ** Witnesses of the further properties *)

Lemma response_get_result_witness :
  w_responses (world_ex [mkResponse 200 []]) = (mkResponse 200 []) :: ([]) /\
  (w_log (snd (__response_get (libs_ex) ("https://casjobs.example/RestApi/x") ("tok") ("e") (world_ex [mkResponse 200 []]))) =
    (w_log (world_ex [mkResponse 200 []]) ++ [ERequest (mkRequest GET ("https://casjobs.example/RestApi/x") (base_headers ("tok")) NoData)])%list /\
  w_responses (snd (__response_get (libs_ex) ("https://casjobs.example/RestApi/x") ("tok") ("e") (world_ex [mkResponse 200 []]))) = ([]) /\
  (status_code (mkResponse 200 []) = 200%Z ->
     fst (__response_get (libs_ex) ("https://casjobs.example/RestApi/x") ("tok") ("e") (world_ex [mkResponse 200 []])) =
     match bytes_decode (content (mkResponse 200 [])) with
     | Some text => match json_loads (libs_ex) text with Some j => Ok j | None => Raise JSONDecodeError end
     | None => Raise UnicodeDecodeError
     end) /\
  (status_code (mkResponse 200 []) <> 200%Z ->
     fst (__response_get (libs_ex) ("https://casjobs.example/RestApi/x") ("tok") ("e") (world_ex [mkResponse 200 []])) =
     match bytes_decode (content (mkResponse 200 [])) with
     | Some body => Raise (ValueError (http_error_message ("e") (status_code (mkResponse 200 [])) body))
     | None => Raise UnicodeDecodeError
     end)).
Proof.
  split; [reflexivity|].
  exact (response_get_result
    (libs_ex) ("https://casjobs.example/RestApi/x") ("tok") ("e") (world_ex [mkResponse 200 []]) (mkResponse 200 []) ([]) ltac:(reflexivity)).
Defined.

Lemma getTables_outcome_witness :
  w_token (world_ex [mkResponse 200 []]) = Some ("tok") /\
  ("tok") <> "" /\
  no_lt (CasJobsRESTUri (w_config (world_ex [mkResponse 200 []]))) = true /\
  w_responses (world_ex [mkResponse 200 []]) = (mkResponse 200 []) :: ([]) /\
  (w_log (snd (getTables (libs_ex) ("MyDB") (world_ex [mkResponse 200 []]))) =
    (w_log (world_ex [mkResponse 200 []]) ++ [ERequest (mkRequest GET
       (CasJobsRESTUri (w_config (world_ex [mkResponse 200 []])) ++ "/contexts/" ++ ("MyDB") ++ "/Tables"
        ++ taskname_url_in (w_config (world_ex [mkResponse 200 []])) TASKNAMES.GETTABLES)
       (base_headers ("tok")) NoData)])%list /\
  w_responses (snd (getTables (libs_ex) ("MyDB") (world_ex [mkResponse 200 []]))) = ([]) /\
  (status_code (mkResponse 200 []) = 200%Z ->
     fst (getTables (libs_ex) ("MyDB") (world_ex [mkResponse 200 []])) =
     match bytes_decode (content (mkResponse 200 [])) with
     | Some text => match json_loads (libs_ex) text with Some j => Ok j | None => Raise JSONDecodeError end
     | None => Raise UnicodeDecodeError
     end) /\
  (status_code (mkResponse 200 []) <> 200%Z ->
     fst (getTables (libs_ex) ("MyDB") (world_ex [mkResponse 200 []])) =
     match bytes_decode (content (mkResponse 200 [])) with
     | Some body => Raise (ValueError (http_error_message
                      ("Error when getting table description from database context " ++ ("MyDB") ++ "." ++ newline)
                      (status_code (mkResponse 200 [])) body))
     | None => Raise UnicodeDecodeError
     end)).
Proof.
  split; [reflexivity|].
  split; [discriminate|].
  split; [reflexivity|].
  split; [reflexivity|].
  exact (getTables_outcome
    (libs_ex) ("MyDB") (world_ex [mkResponse 200 []]) ("tok") (mkResponse 200 []) ([]) ltac:(reflexivity) ltac:(discriminate) ltac:(reflexivity) ltac:(reflexivity)).
Defined.

Lemma getJobStatus_outcome_witness :
  w_token (world_ex [mkResponse 200 []]) = Some ("tok") /\
  ("tok") <> "" /\
  no_lt (CasJobsRESTUri (w_config (world_ex [mkResponse 200 []]))) = true /\
  w_responses (world_ex [mkResponse 200 []]) = (mkResponse 200 []) :: ([]) /\
  (w_log (snd (getJobStatus (libs_ex) (JobInt 7) (world_ex [mkResponse 200 []]))) =
    (w_log (world_ex [mkResponse 200 []]) ++ [ERequest (mkRequest GET
       (CasJobsRESTUri (w_config (world_ex [mkResponse 200 []])) ++ "/jobs/" ++ str_jobid (JobInt 7)
        ++ taskname_url_in (w_config (world_ex [mkResponse 200 []])) TASKNAMES.GETJOBSTATUS)
       (base_headers ("tok")) NoData)])%list /\
  w_responses (snd (getJobStatus (libs_ex) (JobInt 7) (world_ex [mkResponse 200 []]))) = ([]) /\
  (status_code (mkResponse 200 []) = 200%Z ->
     fst (getJobStatus (libs_ex) (JobInt 7) (world_ex [mkResponse 200 []])) =
     match bytes_decode (content (mkResponse 200 [])) with
     | Some text => match json_loads (libs_ex) text with Some j => Ok j | None => Raise JSONDecodeError end
     | None => Raise UnicodeDecodeError
     end) /\
  (status_code (mkResponse 200 []) <> 200%Z ->
     fst (getJobStatus (libs_ex) (JobInt 7) (world_ex [mkResponse 200 []])) =
     match bytes_decode (content (mkResponse 200 [])) with
     | Some body => Raise (ValueError (http_error_message
                      ("Error when getting the status of job " ++ str_jobid (JobInt 7) ++ "." ++ newline)
                      (status_code (mkResponse 200 [])) body))
     | None => Raise UnicodeDecodeError
     end)).
Proof.
  split; [reflexivity|].
  split; [discriminate|].
  split; [reflexivity|].
  split; [reflexivity|].
  exact (getJobStatus_outcome
    (libs_ex) (JobInt 7) (world_ex [mkResponse 200 []]) ("tok") (mkResponse 200 []) ([]) ltac:(reflexivity) ltac:(discriminate) ltac:(reflexivity) ltac:(reflexivity)).
Defined.

Lemma cancelJob_outcome_witness :
  w_token (world_ex [mkResponse 200 []]) = Some ("tok") /\
  ("tok") <> "" /\
  no_lt (CasJobsRESTUri (w_config (world_ex [mkResponse 200 []]))) = true /\
  w_responses (world_ex [mkResponse 200 []]) = (mkResponse 200 []) :: ([]) /\
  (w_log (snd (cancelJob (libs_ex) (JobInt 7) (world_ex [mkResponse 200 []]))) =
    (w_log (world_ex [mkResponse 200 []]) ++ [ERequest (mkRequest DELETE
       (CasJobsRESTUri (w_config (world_ex [mkResponse 200 []])) ++ "/jobs/" ++ str_jobid (JobInt 7)
        ++ taskname_url_in (w_config (world_ex [mkResponse 200 []])) TASKNAMES.CANCELJOB)
       (base_headers ("tok")) NoData)])%list /\
  w_responses (snd (cancelJob (libs_ex) (JobInt 7) (world_ex [mkResponse 200 []]))) = ([]) /\
  (status_code (mkResponse 200 []) = 200%Z -> fst (cancelJob (libs_ex) (JobInt 7) (world_ex [mkResponse 200 []])) = Ok true) /\
  (status_code (mkResponse 200 []) <> 200%Z ->
     fst (cancelJob (libs_ex) (JobInt 7) (world_ex [mkResponse 200 []])) =
     match bytes_decode (content (mkResponse 200 [])) with
     | Some body => Raise (ValueError (http_error_message
                      ("Error when canceling job " ++ str_jobid (JobInt 7) ++ "." ++ newline)
                      (status_code (mkResponse 200 [])) body))
     | None => Raise UnicodeDecodeError
     end)).
Proof.
  split; [reflexivity|].
  split; [discriminate|].
  split; [reflexivity|].
  split; [reflexivity|].
  exact (cancelJob_outcome
    (libs_ex) (JobInt 7) (world_ex [mkResponse 200 []]) ("tok") (mkResponse 200 []) ([]) ltac:(reflexivity) ltac:(discriminate) ltac:(reflexivity) ltac:(reflexivity)).
Defined.



Lemma parse_post_pandas_frames_witness :
  bytes_decode (content (mkResponse 200 [])) = Some ("") /\
  json_loads (libs_async) ("") = Some (JObj [("Result", JArr [result_set_ex])]) /\
  py_getitem (JObj [("Result", JArr [result_set_ex])]) (JStr "Result") = Ok (JArr ([result_set_ex])) /\
  (snd (__parse_post (libs_async) (mkResponse 200 []) "pandas" (world_ex [])) = (world_ex []) /\
  (([result_set_ex]) = [] -> fst (__parse_post (libs_async) (mkResponse 200 []) "pandas" (world_ex [])) = Raise IndexError) /\
  (forall x d c, ([result_set_ex]) = [x] ->
     py_getitem x (JStr "Data") = Ok d -> py_getitem x (JStr "Columns") = Ok c ->
     fst (__parse_post (libs_async) (mkResponse 200 []) "pandas" (world_ex [])) =
     match DataFrame (libs_async) d c with inl f => Ok (RFrame f) | inr msg => Raise (LibraryError msg) end) /\
  (forall fs, (2 <= length ([result_set_ex]))%nat ->
     Forall2 (fun x f => exists d c, py_getitem x (JStr "Data") = Ok d /\
                                     py_getitem x (JStr "Columns") = Ok c /\
                                     DataFrame (libs_async) d c = inl f) ([result_set_ex]) fs ->
     fst (__parse_post (libs_async) (mkResponse 200 []) "pandas" (world_ex [])) = Ok (RFrames fs))).
Proof.
  split; [reflexivity|].
  split; [reflexivity|].
  split; [reflexivity|].
  exact (parse_post_pandas_frames
    (libs_async) (mkResponse 200 []) (world_ex []) ("") (JObj [("Result", JArr [result_set_ex])]) ([result_set_ex]) ltac:(reflexivity) ltac:(reflexivity) ltac:(reflexivity)).
Defined.

Lemma make_post_request_result_witness :
  w_responses (world_ex [mkResponse 200 []]) = (mkResponse 200 []) :: ([]) /\
  (w_log (snd (__make_post_request (libs_async) (base_headers "tok") ("https://casjobs.example/RestApi/contexts/MyDB/query") ("select 1") ("SciScript-Python.CasJobs.executeQuery") (world_ex [mkResponse 200 []]))) =
    (w_log (world_ex [mkResponse 200 []]) ++ [ERequest (mkRequest POST ("https://casjobs.example/RestApi/contexts/MyDB/query") (base_headers "tok") (QueryData ("select 1") ("SciScript-Python.CasJobs.executeQuery")))])%list /\
  w_responses (snd (__make_post_request (libs_async) (base_headers "tok") ("https://casjobs.example/RestApi/contexts/MyDB/query") ("select 1") ("SciScript-Python.CasJobs.executeQuery") (world_ex [mkResponse 200 []]))) = ([]) /\
  (status_code (mkResponse 200 []) <> 200%Z ->
     fst (__make_post_request (libs_async) (base_headers "tok") ("https://casjobs.example/RestApi/contexts/MyDB/query") ("select 1") ("SciScript-Python.CasJobs.executeQuery") (world_ex [mkResponse 200 []])) =
     match response_text (libs_async) (content (mkResponse 200 [])) with
     | Some body => Raise (ValueError (http_error_message EXCEPT.EXECUTE_QUERY_ERROR (status_code (mkResponse 200 [])) body))
     | None => Raise UnicodeDecodeError
     end) /\
  (forall e, status_code (mkResponse 200 []) = 200%Z -> aio_result (resp_json (libs_async) (mkResponse 200 [])) = Raise e ->
     fst (__make_post_request (libs_async) (base_headers "tok") ("https://casjobs.example/RestApi/contexts/MyDB/query") ("select 1") ("SciScript-Python.CasJobs.executeQuery") (world_ex [mkResponse 200 []])) = Raise e) /\
  (forall r results outs, status_code (mkResponse 200 []) = 200%Z ->
     resp_json (libs_async) (mkResponse 200 []) = AioDoc r ->
     py_getitem r (JStr "Result") = Ok (JArr results) ->
     Forall2 (fun x o => exists c d, py_getitem x (JStr "Columns") = Ok c /\
                                     py_getitem x (JStr "Data") = Ok d /\
                                     o = JObj [("Columns", c); ("Data", d)]) results outs ->
     fst (__make_post_request (libs_async) (base_headers "tok") ("https://casjobs.example/RestApi/contexts/MyDB/query") ("select 1") ("SciScript-Python.CasJobs.executeQuery") (world_ex [mkResponse 200 []])) = Ok (JArr outs))).
Proof.
  split; [reflexivity|].
  exact (make_post_request_result
    (libs_async) (base_headers "tok") ("https://casjobs.example/RestApi/contexts/MyDB/query") ("select 1") ("SciScript-Python.CasJobs.executeQuery") (world_ex [mkResponse 200 []]) (mkResponse 200 []) ([]) ltac:(reflexivity)).
Defined.


Lemma getPandasDataFrameFromQuery_outcome_witness :
  w_token (world_ex [mkResponse 200 []]) = Some ("tok") /\
  ("tok") <> "" /\
  w_responses (world_ex [mkResponse 200 []]) = (mkResponse 200 []) :: ([]) /\
  (w_log (snd (getPandasDataFrameFromQuery (libs_ex) ("select 1") ("MyDB") (world_ex [mkResponse 200 []]))) =
    (w_log (world_ex [mkResponse 200 []]) ++
     [ERequest (mkRequest POST
        (query_url (w_config (world_ex [mkResponse 200 []])) ("MyDB")
           (get_taskname_in (w_config (world_ex [mkResponse 200 []])) TASKNAMES.GETPANDASDATAFRAMEFROMQUERY))
        (base_headers ("tok") ++ [(CASJOBSCONST.ACCEPT, "text/plain")])
        (QueryData ("select 1") (get_taskname_in (w_config (world_ex [mkResponse 200 []])) TASKNAMES.GETPANDASDATAFRAMEFROMQUERY)))])%list /\
  w_responses (snd (getPandasDataFrameFromQuery (libs_ex) ("select 1") ("MyDB") (world_ex [mkResponse 200 []]))) = ([]) /\
  w_task (snd (getPandasDataFrameFromQuery (libs_ex) ("select 1") ("MyDB") (world_ex [mkResponse 200 []]))) = None /\
  (status_code (mkResponse 200 []) = 200%Z ->
     fst (getPandasDataFrameFromQuery (libs_ex) ("select 1") ("MyDB") (world_ex [mkResponse 200 []])) =
     match bytes_decode (content (mkResponse 200 [])) with
     | Some text => match read_csv (libs_ex) text with inl f => Ok f | inr msg => Raise (LibraryError msg) end
     | None => Raise UnicodeDecodeError
     end) /\
  (status_code (mkResponse 200 []) <> 200%Z ->
     fst (getPandasDataFrameFromQuery (libs_ex) ("select 1") ("MyDB") (world_ex [mkResponse 200 []])) =
     match bytes_decode (content (mkResponse 200 [])) with
     | Some body => Raise (ValueError (http_error_message EXCEPT.EXECUTE_QUERY_ERROR (status_code (mkResponse 200 [])) body))
     | None => Raise UnicodeDecodeError
     end)).
Proof.
  split; [reflexivity|].
  split; [discriminate|].
  split; [reflexivity|].
  exact (getPandasDataFrameFromQuery_outcome
    (libs_ex) ("select 1") ("MyDB") (world_ex [mkResponse 200 []]) ("tok") (mkResponse 200 []) ([]) ltac:(reflexivity) ltac:(discriminate) ltac:(reflexivity)).
Defined.

Lemma getNumpyArrayFromQuery_outcome_witness :
  w_token (world_ex [mkResponse 200 []]) = Some ("tok") /\
  ("tok") <> "" /\
  w_responses (world_ex [mkResponse 200 []]) = (mkResponse 200 []) :: ([]) /\
  (w_log (snd (getNumpyArrayFromQuery (libs_ex) ("select 1") ("MyDB") (world_ex [mkResponse 200 []]))) =
    (w_log (world_ex [mkResponse 200 []]) ++
     [ERequest (mkRequest POST
        (query_url (w_config (world_ex [mkResponse 200 []])) ("MyDB")
           (get_taskname_in (w_config (world_ex [mkResponse 200 []])) TASKNAMES.GETPANDASDATAFRAMEFROMQUERY))
        (base_headers ("tok") ++ [(CASJOBSCONST.ACCEPT, "text/plain")])
        (QueryData ("select 1") (get_taskname_in (w_config (world_ex [mkResponse 200 []])) TASKNAMES.GETPANDASDATAFRAMEFROMQUERY)))])%list /\
  w_responses (snd (getNumpyArrayFromQuery (libs_ex) ("select 1") ("MyDB") (world_ex [mkResponse 200 []]))) = ([]) /\
  w_task (snd (getNumpyArrayFromQuery (libs_ex) ("select 1") ("MyDB") (world_ex [mkResponse 200 []]))) = None /\
  (status_code (mkResponse 200 []) = 200%Z ->
     fst (getNumpyArrayFromQuery (libs_ex) ("select 1") ("MyDB") (world_ex [mkResponse 200 []])) =
     match bytes_decode (content (mkResponse 200 [])) with
     | Some text =>
         match read_csv (libs_ex) text with
         | inl f => match as_matrix (libs_ex) f with inl m => Ok m | inr msg => Raise (LibraryError msg) end
         | inr msg => Raise (LibraryError msg)
         end
     | None => Raise UnicodeDecodeError
     end) /\
  (status_code (mkResponse 200 []) <> 200%Z ->
     fst (getNumpyArrayFromQuery (libs_ex) ("select 1") ("MyDB") (world_ex [mkResponse 200 []])) =
     match bytes_decode (content (mkResponse 200 [])) with
     | Some body => Raise (ValueError (http_error_message EXCEPT.EXECUTE_QUERY_ERROR (status_code (mkResponse 200 [])) body))
     | None => Raise UnicodeDecodeError
     end)).
Proof.
  split; [reflexivity|].
  split; [discriminate|].
  split; [reflexivity|].
  exact (getNumpyArrayFromQuery_outcome
    (libs_ex) ("select 1") ("MyDB") (world_ex [mkResponse 200 []]) ("tok") (mkResponse 200 []) ([]) ltac:(reflexivity) ltac:(discriminate) ltac:(reflexivity)).
Defined.

Lemma uploadCSVDataToTable_outcome_witness :
  w_token (world_ex [mkResponse 200 []]) = Some ("tok") /\
  ("tok") <> "" /\
  w_responses (world_ex [mkResponse 200 []]) = (mkResponse 200 []) :: ([]) /\
  (w_log (snd (uploadCSVDataToTable ([]) ("T") ("MyDB") (world_ex [mkResponse 200 []]))) =
    (w_log (world_ex [mkResponse 200 []]) ++
     [ERequest (mkRequest POST
        (upload_url (w_config (world_ex [mkResponse 200 []])) ("MyDB") ("T") (task_name_for (world_ex [mkResponse 200 []]) TASKNAMES.UPLOADCSVDATATOTABLE))
        [(CASJOBSCONST.X_AUTH_TOKEN, ("tok"))] (RawData ([])))])%list /\
  w_responses (snd (uploadCSVDataToTable ([]) ("T") ("MyDB") (world_ex [mkResponse 200 []]))) = ([]) /\
  w_task (snd (uploadCSVDataToTable ([]) ("T") ("MyDB") (world_ex [mkResponse 200 []]))) = None /\
  (status_code (mkResponse 200 []) = 200%Z -> fst (uploadCSVDataToTable ([]) ("T") ("MyDB") (world_ex [mkResponse 200 []])) = Ok true) /\
  (status_code (mkResponse 200 []) <> 200%Z ->
     fst (uploadCSVDataToTable ([]) ("T") ("MyDB") (world_ex [mkResponse 200 []])) =
     match bytes_decode (content (mkResponse 200 [])) with
     | Some body => Raise (ValueError (http_error_message
                      ("Error when uploading CSV data into CasJobs table " ++ ("T") ++ "." ++ newline)
                      (status_code (mkResponse 200 [])) body))
     | None => Raise UnicodeDecodeError
     end)).
Proof.
  split; [reflexivity|].
  split; [discriminate|].
  split; [reflexivity|].
  exact (uploadCSVDataToTable_outcome
    ([]) ("T") ("MyDB") (world_ex [mkResponse 200 []]) ("tok") (mkResponse 200 []) ([]) ltac:(reflexivity) ltac:(discriminate) ltac:(reflexivity)).
Defined.

Lemma executeQuery_illegal_format_no_request_witness :
  w_token (world_ex [mkResponse 200 []]) = Some ("tok") /\
  ("tok") <> "" /\
  ~ In ("xml") recognized_formats /\
  (fst (executeQuery (libs_ex) ("select 1") ("MyDB") ("xml") (world_ex [mkResponse 200 []])) =
    Raise (ValueError (EXCEPT.ILLEGAL_FORMAT_ERROR ++ ("xml"))) /\
  w_log (snd (executeQuery (libs_ex) ("select 1") ("MyDB") ("xml") (world_ex [mkResponse 200 []]))) = w_log (world_ex [mkResponse 200 []]) /\
  w_responses (snd (executeQuery (libs_ex) ("select 1") ("MyDB") ("xml") (world_ex [mkResponse 200 []]))) = w_responses (world_ex [mkResponse 200 []]) /\
  w_task (snd (executeQuery (libs_ex) ("select 1") ("MyDB") ("xml") (world_ex [mkResponse 200 []]))) = None).
Proof.
  split; [reflexivity|].
  split; [discriminate|].
  split; [cbn; intuition discriminate|].
  exact (executeQuery_illegal_format_no_request
    (libs_ex) ("select 1") ("MyDB") ("xml") (world_ex [mkResponse 200 []]) ("tok") ltac:(reflexivity) ltac:(discriminate) ltac:(cbn; intuition discriminate)).
Defined.

Lemma waitForJob_status_error_witness :
  w_token (mkWorld config_ex (Some "tok") "uid" None [answer_running; mkResponse 500 []] [] []) = Some ("tok") /\
  ("tok") <> "" /\
  w_responses (mkWorld config_ex (Some "tok") "uid" None [answer_running; mkResponse 500 []] [] []) = (([answer_running]) ++ (mkResponse 500 []) :: ([]))%list /\
  Forall (fun a => exists j' z', poll_answer (libs_jobs) a = Some (j', z') /\ is_terminal z' = false) ([answer_running]) /\
  status_code (mkResponse 500 []) <> 200%Z /\
  (length ([answer_running]) < (2))%nat /\
  (fst (waitForJob (libs_jobs) (2) (JobInt 7) (false) (1) (mkWorld config_ex (Some "tok") "uid" None [answer_running; mkResponse 500 []] [] [])) =
    match bytes_decode (content (mkResponse 500 [])) with
    | Some body =>
        Raise (ValueError (http_error_message
                 ("Error when getting the status of job " ++ str_jobid (JobInt 7) ++ "." ++ newline)
                 (status_code (mkResponse 500 [])) body))
    | None => Raise UnicodeDecodeError
    end /\
  w_responses (snd (waitForJob (libs_jobs) (2) (JobInt 7) (false) (1) (mkWorld config_ex (Some "tok") "uid" None [answer_running; mkResponse 500 []] [] []))) = ([]) /\
  sleeps (w_log (snd (waitForJob (libs_jobs) (2) (JobInt 7) (false) (1) (mkWorld config_ex (Some "tok") "uid" None [answer_running; mkResponse 500 []] [] [])))) =
    (sleeps (w_log (mkWorld config_ex (Some "tok") "uid" None [answer_running; mkResponse 500 []] [] [])) ++ repeat (Z.max 5 (1)) (length ([answer_running])))%list).
Proof.
  split; [reflexivity|].
  split; [discriminate|].
  split; [reflexivity|].
  split; [constructor; [exists (JObj [("Status", JNum 1)]), 1%Z; split; vm_compute; reflexivity | constructor]|].
  split; [discriminate|].
  split; [cbn; lia|].
  exact (waitForJob_status_error
    (libs_jobs) (2) (JobInt 7) (false) (1) (mkWorld config_ex (Some "tok") "uid" None [answer_running; mkResponse 500 []] [] []) ("tok") ([answer_running]) (mkResponse 500 []) ([]) ltac:(reflexivity) ltac:(discriminate) ltac:(reflexivity) ltac:(constructor; [exists (JObj [("Status", JNum 1)]), 1%Z; split; vm_compute; reflexivity | constructor]) ltac:(discriminate) ltac:(cbn; lia)).
Defined.

Lemma executeQuery_outcome_witness :
  w_token (world_ex [mkResponse 200 []]) = Some ("tok") /\
  ("tok") <> "" /\
  __format_to_accept_header ("csv") = Ok ("text/plain") /\
  w_responses (world_ex [mkResponse 200 []]) = (mkResponse 200 []) :: ([]) /\
  (w_log (snd (executeQuery (libs_ex) ("select 1") ("MyDB") ("csv") (world_ex [mkResponse 200 []]))) =
    (w_log (world_ex [mkResponse 200 []]) ++
     [ERequest (mkRequest POST
        (query_url (w_config (world_ex [mkResponse 200 []])) ("MyDB") (task_name_for (world_ex [mkResponse 200 []]) TASKNAMES.EXECUTEQUERY))
        (base_headers ("tok") ++ [(CASJOBSCONST.ACCEPT, ("text/plain"))])
        (QueryData ("select 1") (task_name_for (world_ex [mkResponse 200 []]) TASKNAMES.EXECUTEQUERY)))])%list /\
  w_responses (snd (executeQuery (libs_ex) ("select 1") ("MyDB") ("csv") (world_ex [mkResponse 200 []]))) = ([]) /\
  w_task (snd (executeQuery (libs_ex) ("select 1") ("MyDB") ("csv") (world_ex [mkResponse 200 []]))) = None /\
  (status_code (mkResponse 200 []) = 200%Z ->
     fst (executeQuery (libs_ex) ("select 1") ("MyDB") ("csv") (world_ex [mkResponse 200 []])) = fst (__parse_post (libs_ex) (mkResponse 200 []) ("csv") (world_ex [mkResponse 200 []]))) /\
  (status_code (mkResponse 200 []) <> 200%Z ->
     fst (executeQuery (libs_ex) ("select 1") ("MyDB") ("csv") (world_ex [mkResponse 200 []])) =
     match bytes_decode (content (mkResponse 200 [])) with
     | Some body => Raise (ValueError (http_error_message EXCEPT.EXECUTE_QUERY_ERROR (status_code (mkResponse 200 [])) body))
     | None => Raise UnicodeDecodeError
     end)).
Proof.
  split; [reflexivity|].
  split; [discriminate|].
  split; [reflexivity|].
  split; [reflexivity|].
  exact (executeQuery_outcome
    (libs_ex) ("select 1") ("MyDB") ("csv") (world_ex [mkResponse 200 []]) ("tok") ("text/plain") (mkResponse 200 []) ([]) ltac:(reflexivity) ltac:(discriminate) ltac:(reflexivity) ltac:(reflexivity)).
Defined.
